(** * stitch: the tile-grid compositing engine, embedded and verified

    A shallow embedding of the Go packages of kiesman99/stitch that
    resolve a tile grid, fetch and place tiles, apply the failure policy
    and write the world file:

    - [tile]     : pkg/tile, the processor and the types of the CLI
    - [stitcher] : the pipeline behind the HTTP API
    - [stitch]   : the pipeline behind the CLI
    - [cmd]      : the format flag of the root command

    Go machine integers are [Z] with the wrap-around written out, [float64]
    is Rocq's primitive binary64 [float], byte slices are [list Z] read and
    written by index, and a run-time panic is the [Panics] result of the
    [run] monad. *)

From Stdlib Require Import ZArith Lia Floats Uint63 Strings.String Strings.Ascii.
From stdpp Require Import base tactics option list list_numbers.

Local Open Scope Z_scope.

(* ================================================================== *)
(** ** Go run-time model *)

(** A computation that either returns or panics (index out of range,
    negative shift count). *)
Inductive run (A : Type) : Type :=
  | Done (a : A)
  | Panics.
Arguments Done {A} a.
Arguments Panics {A}.

#[global] Instance run_ret : MRet run := fun A a => Done a.
#[global] Instance run_bind : MBind run := fun A B k m =>
  match m with
  | Done a => k a
  | Panics => Panics
  end.

Module Go.

(** [uint32] and [int] (64 bits, two's complement) arithmetic. *)
Definition uint32 (x : Z) : Z := x mod 2 ^ 32.
Definition int (x : Z) : Z := (x + 2 ^ 63) mod 2 ^ 64 - 2 ^ 63.

Definition is_uint32 (x : Z) : Prop := 0 <= x < 2 ^ 32.
Definition is_int (x : Z) : Prop := - 2 ^ 63 <= x < 2 ^ 63.
Definition is_byte (x : Z) : Prop := 0 <= x < 256.

(** [x >> s] on a [uint32]: a negative count panics, a count of 32 or
    more gives 0. *)
Definition shr32 (x s : Z) : run Z :=
  if s <? 0 then Panics else Done (Z.shiftr x s).

(** [x << s] on an [int]: a negative count panics, bits shifted out are
    lost. *)
Definition shl (x s : Z) : run Z :=
  if s <? 0 then Panics else Done (int (Z.shiftl x s)).

(** [l[i]]: panics outside [0, len(l)). *)
Definition index (l : list Z) (i : Z) : run Z :=
  if i <? 0 then Panics
  else match l !! Z.to_nat i with
       | Some v => Done v
       | None => Panics
       end.

(** [l[i] = v]: panics outside [0, len(l)). *)
Definition store (l : list Z) (i : Z) (v : Z) : run (list Z) :=
  if (i <? 0) || (Z.of_nat (length l) <=? i) then Panics
  else Done (<[Z.to_nat i := v]> l).

(** [for i := lo; i < hi; i++ { s = body(i, s) }] *)
Fixpoint for_loop {S : Type} (n : nat) (i : Z) (body : Z -> S -> run S) (s : S)
  : run S :=
  match n with
  | O => Done s
  | Datatypes.S n' => s' ← body i s; for_loop n' (i + 1) body s'
  end.

Definition for_lt {S : Type} (lo hi : Z) (body : Z -> S -> run S) (s : S) : run S :=
  for_loop (Z.to_nat (hi - lo)) lo body s.

(** [for i := range l] with [return] inside the body: the body either
    goes on with a new state or leaves the function with a value. *)
Inductive flow (S R : Type) : Type :=
  | Next (s : S)
  | Return (r : R).
Arguments Next {S R} s.
Arguments Return {S R} r.

Fixpoint for_each {A S R : Type} (l : list A) (body : A -> S -> run (flow S R))
  (s : S) : run (flow S R) :=
  match l with
  | [] => Done (Next s)
  | a :: l' =>
      r ← body a s;
      match r with
      | Next s' => for_each l' body s'
      | Return v => Done (Return v)
      end
  end.

(** The values of [for i := lo; i <= hi; i++] over [uint32].  The counter
    would wrap at [hi = 2^32 - 1]; tile indices stay below [2^24]
    (lemma [tile_index_small]), so the range is the plain interval. *)
Definition range_le (lo hi : Z) : list Z := seqZ lo (hi - lo + 1).

(** *** float64 *)

(** [float64(n)] for an integer [n] in [0, 2^63). *)
Definition float64 (n : Z) : float := PrimFloat.of_uint63 (Uint63.of_Z n).

(** [float64(n)] for a [uint64]: the nearest binary64. *)
Definition float64_of_uint64 (n : Z) : float :=
  SF2Prim (binary_normalize prec emax n 0 false).

(** The integer part of a finite float (conversion to an integer type
    truncates toward zero). *)
Definition trunc (x : float) : option Z :=
  match Prim2SF x with
  | S754_zero _ => Some 0
  | S754_finite s m e =>
      let a := if 0 <=? e then Z.pos m * 2 ^ e else Z.pos m / 2 ^ (- e) in
      Some (if s then - a else a)
  | _ => None
  end.

(** [byte(x)] and [uint32(x)] for a [float64]: the truncated value; the
    language leaves the result open when it does not fit, the low bits
    are kept here and NaN and the infinities give 0. *)
Definition byte (x : float) : Z :=
  match trunc x with
  | Some z => z mod 256
  | None => 0
  end.

Definition uint32_of_float (x : float) : Z :=
  match trunc x with
  | Some z => z mod 2 ^ 32
  | None => 0
  end.

(** Package [math]: the constant and the library functions the program
    calls; the functions are not binary64 primitives and are taken from
    the platform. *)
Definition Pi : float := 0x1.921fb54442d18p+1%float.

Record Math := {
  Log : float -> float;
  Tan : float -> float;
  Cos : float -> float;
  Atan : float -> float;
  Sinh : float -> float
}.

(** *** strconv, strings *)

Definition digit (d : Z) : ascii := ascii_of_nat (Z.to_nat (48 + d)).

Fixpoint utoa_aux (fuel : nat) (n : Z) (acc : string) : string :=
  match fuel with
  | O => acc
  | Datatypes.S f =>
      let acc' := String (digit (n mod 10)) acc in
      if n <? 10 then acc' else utoa_aux f (n / 10) acc'
  end.

(** [strconv.FormatUint(n, 10)] *)
Definition FormatUint (n : Z) : string :=
  utoa_aux (Datatypes.S (Z.to_nat (Z.log2 n))) n EmptyString.

(** [strconv.Itoa(n)] *)
Definition Itoa (n : Z) : string :=
  if n <? 0 then String "-"%char (FormatUint (- n)) else FormatUint n.

(** [strings.ReplaceAll(s, old, new)] for a non-empty [old]: the
    occurrences are taken from the left and do not overlap; [skip] counts
    the bytes of a matched occurrence still to drop. *)
Fixpoint ReplaceAll_from (old new : string) (skip : nat) (s : string) : string :=
  match s with
  | EmptyString => EmptyString
  | String c s' =>
      match skip with
      | Datatypes.S k => ReplaceAll_from old new k s'
      | O =>
          if String.prefix old s
          then String.append new (ReplaceAll_from old new (String.length old - 1) s')
          else String c (ReplaceAll_from old new 0 s')
      end
  end.

Definition ReplaceAll (s old new : string) : string := ReplaceAll_from old new 0 s.

(** [strings.Contains(s, sub)] *)
Fixpoint Contains (s sub : string) : bool :=
  match s with
  | EmptyString => String.prefix sub EmptyString
  | String _ s' => String.prefix sub s || Contains s' sub
  end.

(** [strings.LastIndex(s, c)] for a one-byte [c]; [-1] when absent. *)
Fixpoint LastIndexByte_from (i last : Z) (c : ascii) (s : string) : Z :=
  match s with
  | EmptyString => last
  | String a s' => LastIndexByte_from (i + 1) (if Ascii.eqb a c then i else last) c s'
  end.

Definition LastIndexByte (s : string) (c : ascii) : Z := LastIndexByte_from 0 (-1) c s.

(** *** fmt: the verb [%W.Pf] *)

Fixpoint replicate_char (n : nat) (c : ascii) : string :=
  match n with
  | O => EmptyString
  | Datatypes.S k => String c (replicate_char k c)
  end.

(** Padding on the left up to a minimal width: a longer string is kept
    whole. *)
Definition pad_left (c : ascii) (width : nat) (s : string) : string :=
  String.append (replicate_char (width - String.length s) c) s.

(** Nearest integer to [num / den], ties to even ([0 <= num], [0 < den]). *)
Definition round_half_even (num den : Z) : Z :=
  let q := num / den in
  let r := num mod den in
  match (2 * r ?= den) with
  | Lt => q
  | Gt => q + 1
  | Eq => if Z.even q then q else q + 1
  end.

(** [|m * 2^e| * 10^prec] rounded to an integer: the decimal conversion
    is exact and rounds to nearest even. *)
Definition scaled (prec : nat) (m : positive) (e : Z) : Z :=
  if 0 <=? e then Z.pos m * 2 ^ e * 10 ^ Z.of_nat prec
  else round_half_even (Z.pos m * 10 ^ Z.of_nat prec) (2 ^ (- e)).

(** The digits of [n / 10^prec] with [prec] fractional digits ([0 < prec]). *)
Definition fixed (prec : nat) (n : Z) : string :=
  String.append (FormatUint (n / 10 ^ Z.of_nat prec))
    (String "."%char (pad_left "0"%char prec (FormatUint (n mod 10 ^ Z.of_nat prec)))).

Definition sign_of (s : bool) (body : string) : string :=
  if s then String "-"%char body else body.

(** [fmt.Sprintf("%W.Pf", x)] *)
Definition Sprintf_f (width prec : nat) (x : float) : string :=
  pad_left " "%char width
    match Prim2SF x with
    | S754_nan => "NaN"%string
    | S754_infinity s => if s then "-Inf"%string else "+Inf"%string
    | S754_zero s => sign_of s (fixed prec 0)
    | S754_finite s m e => sign_of s (fixed prec (scaled prec m e))
    end.

End Go.

(** A pixel, [[4]byte]: red, green, blue, alpha. *)
Definition byte4 : Type := Z * Z * Z * Z.

Definition is_byte4 (p : byte4) : Prop :=
  let '(r, g, b, a) := p in
  Go.is_byte r /\ Go.is_byte g /\ Go.is_byte b /\ Go.is_byte a.

(** [image.Image] as the decoders return it: its size and [At(x, y).RGBA()],
    four 16-bit channels. *)
Record Image := {
  Dx : Z;
  Dy : Z;
  At : Z -> Z -> Z * Z * Z * Z
}.

(** An HTTP response; [Body] is what [io.ReadAll] gives. *)
Record Response := {
  StatusCode : Z;
  Status : string;
  Body : string + list Z
}.

(** What a run of the program meets outside its own code: the network,
    the image codecs, the cancellation signal, the terminal and the file
    system.  Requests and the cancellation signal are answered from the
    list of URLs requested so far, in the order of the requests. *)
Record World := {
  math : Go.Math;
  client_Do : list string -> string -> list (string * string) -> string + Response;
  png_Decode : list Z -> string + Image;
  jpeg_Decode : list Z -> string + Image;
  png_Encode : list Z -> Z -> Z -> string + list Z;
  ctx_Done : list string -> option string;
  stdout_is_terminal : bool;
  os_Create : string -> option string
}.

(** The loops that unpack a decoded image into an RGBA8 buffer; the source
    writes them three times ([tile.readJPEG], [tile.readPNG],
    [stitcher.imageToImageData]) and only the alpha byte differs. *)
Definition fill_pixels (img : Image) (width height : Z)
  (alpha : Z -> Z) (buf : list Z) : run (list Z) :=
  Go.for_lt 0 height (fun y buf =>
    Go.for_lt 0 width (fun x buf =>
      let '(r, g, b, a) := At img x y in
      let idx := Go.int (Go.int (Go.int (y * width) + x) * 4) in
      buf ← Go.store buf idx (Z.shiftr r 8 mod 256);
      buf ← Go.store buf (Go.int (idx + 1)) (Z.shiftr g 8 mod 256);
      buf ← Go.store buf (Go.int (idx + 2)) (Z.shiftr b 8 mod 256);
      Go.store buf (Go.int (idx + 3)) (alpha a)) buf) buf.

(** [make([]byte, n)]: panics on a negative length. *)
Definition make (n : Z) : run (list Z) :=
  if n <? 0 then Panics else Done (replicate (Z.to_nat n) 0).

(** Four consecutive bytes read, and written ([copy] into [buf[i:i+4]]). *)
Definition load4 (l : list Z) (i : Z) : run byte4 :=
  b0 ← Go.index l i;
  b1 ← Go.index l (Go.int (i + 1));
  b2 ← Go.index l (Go.int (i + 2));
  b3 ← Go.index l (Go.int (i + 3));
  Done (b0, b1, b2, b3).

Definition store4 (l : list Z) (i : Z) (p : byte4) : run (list Z) :=
  let '(b0, b1, b2, b3) := p in
  l ← Go.store l i b0;
  l ← Go.store l (Go.int (i + 1)) b1;
  l ← Go.store l (Go.int (i + 2)) b2;
  Go.store l (Go.int (i + 3)) b3.

(** The tile grid of a request, as both pipelines compute it: the
    fixed-point corners, the geographic bounds, the tile range, the pixel
    offsets of the first tile and the canvas size. *)
Module Plan.
Record t := {
  x1 : Z; y1 : Z; x2 : Z; y2 : Z;
  minLat : float; minLon : float; maxLat : float; maxLon : float;
  tx1 : Z; ty1 : Z; tx2 : Z; ty2 : Z;
  xa : Z; ya : Z;
  width : Z; height : Z
}.
End Plan.

(* ================================================================== *)
(** ** Package tile (pkg/tile) *)

Module tile.

Definition OUTFMT_PNG : Z := 0.
Definition OUTFMT_GEOTIFF : Z := 1.

Module ImageData.
Record t := {
  Buf : list Z;
  Width : Z;
  Height : Z;
  Depth : Z  (* channels: 1=grayscale, 3=RGB, 4=RGBA *)
}.
End ImageData.

Module StitchOptions.
Record t := {
  Output : string;
  TileSize : Z;
  Centered : bool;
  Format : Z;
  WriteWorldFile : bool;
  UserAgent : string
}.
End StitchOptions.

Module BoundingBox.
Record t := { MinLat : float; MinLon : float; MaxLat : float; MaxLon : float }.
End BoundingBox.

Module CenteredRequest.
Record t := { Lat : float; Lon : float; Width : Z; Height : Z }.
End CenteredRequest.

Module Processor.
Record t := { userAgent : string }.
End Processor.

Definition NewProcessor (userAgent : string) : Processor.t :=
  {| Processor.userAgent := userAgent |}.

(** [uint64(1) << uint(zoom)] *)
Definition pow2_uint64 (zoom : Z) : Z :=
  if (0 <=? zoom) && (zoom <? 64) then 2 ^ zoom else 0.

Definition LatLonToTile (M : Go.Math) (lat lon : float) (zoom : Z) : Z * Z :=
  let latRad := (lat * Go.Pi / 180)%float in
  let n := pow2_uint64 zoom in
  let x := Go.uint32_of_float (Go.float64_of_uint64 n * ((lon + 180) / 360))%float in
  let y := Go.uint32_of_float
    (Go.float64_of_uint64 n *
      (1 - (Go.Log M (Go.Tan M latRad + 1 / Go.Cos M latRad) / Go.Pi)) / 2)%float in
  (x, y).

Definition TileToLatLon (M : Go.Math) (x y : Z) (zoom : Z) : float * float :=
  let n := Go.float64_of_uint64 (pow2_uint64 zoom) in
  let lon := (360 * Go.float64 x / n - 180)%float in
  let latRad := Go.Atan M (Go.Sinh M (Go.Pi * (1 - 2 * Go.float64 y / n))%float) in
  let lat := (latRad * 180 / Go.Pi)%float in
  (lat, lon).

(** [originshift]: the literal 20037508.342789244; [math.Pi / 180.0] is a
    constant expression, rounded once. *)
Definition originshift : float := 0x1.31bf8457c1093p+24%float.
Definition Pi_over_180 : float := 0x1.1df46a2529d39p-6%float.

Definition ProjectLatLon (M : Go.Math) (lat lon : float) : float * float :=
  let x := (lon * originshift / 180)%float in
  let y := (Go.Log M (Go.Tan M ((90 + lat) * Go.Pi / 360)) / Pi_over_180)%float in
  let y := (y * originshift / 180)%float in
  (x, y).

(** [DownloadTile]: one GET with the processor's user agent; any status
    but 200 is an error. *)
Definition DownloadTile (w : World) (p : Processor.t) (history : list string)
  (url : string) : string + list Z :=
  match client_Do w history url [("User-Agent"%string, Processor.userAgent p)] with
  | inl err => inl err
  | inr resp =>
      if negb (StatusCode resp =? 200)
      then inl (String.append "HTTP "
             (String.append (Go.Itoa (StatusCode resp))
               (String.append ": " (Status resp))))
      else Body resp
  end.

Definition readJPEG (w : World) (data : list Z) : run (string + ImageData.t) :=
  match jpeg_Decode w data with
  | inl err => Done (inl err)
  | inr img =>
      let width := Dx img in
      let height := Dy img in
      buf ← make (Go.int (Go.int (width * height) * 4));
      buf ← fill_pixels img width height (fun _ => 255) buf;
      Done (inr {| ImageData.Buf := buf; ImageData.Width := width;
                   ImageData.Height := height; ImageData.Depth := 3 |})
  end.

Definition readPNG (w : World) (data : list Z) : run (string + ImageData.t) :=
  match png_Decode w data with
  | inl err => Done (inl err)
  | inr img =>
      let width := Dx img in
      let height := Dy img in
      buf ← make (Go.int (Go.int (width * height) * 4));
      buf ← fill_pixels img width height (fun a => Z.shiftr a 8 mod 256) buf;
      Done (inr {| ImageData.Buf := buf; ImageData.Width := width;
                   ImageData.Height := height; ImageData.Depth := 4 |})
  end.

(** [bytes.Equal(data[:n], magic)] guarded by [len(data) >= n]. *)
Definition has_magic (data magic : list Z) : bool :=
  bool_decide (take (length magic) data = magic).

Definition DecodeImage (w : World) (data : list Z) : run (string + ImageData.t) :=
  if has_magic data [0x89; 0x50; 0x4E; 0x47] then readPNG w data
  else if has_magic data [0xFF; 0xD8] then readJPEG w data
  else Done (inl "unrecognized image format"%string).

Definition BuildURL (template : string) (zoom : Z) (x y : Z) : string :=
  let url := template in
  let url := Go.ReplaceAll url "{z}" (Go.Itoa zoom) in
  let url := Go.ReplaceAll url "{x}" (Go.FormatUint x) in
  let url := Go.ReplaceAll url "{y}" (Go.FormatUint y) in
  if Go.Contains url "{s}" then
    let subdomain := String (ascii_of_nat (Z.to_nat (97 + Go.uint32 (x + y) mod 3))) EmptyString in
    Go.ReplaceAll url "{s}" subdomain
  else url.

(** [AlphaBlend]: every operation is a binary64 operation with its own
    rounding, in the order the source writes them (a product and a sum
    are not fused into one rounding). *)
Definition AlphaBlend (src dst : byte4) : byte4 :=
  let '(s0, s1, s2, s3) := src in
  let '(d0, d1, d2, d3) := dst in
  let as_ := (Go.float64 s3 / 255)%float in
  let rs := (Go.float64 s0 / 255 * as_)%float in
  let gs := (Go.float64 s1 / 255 * as_)%float in
  let bs := (Go.float64 s2 / 255 * as_)%float in
  let ad := (Go.float64 d3 / 255)%float in
  let rd := (Go.float64 d0 / 255 * ad)%float in
  let gd := (Go.float64 d1 / 255 * ad)%float in
  let bd := (Go.float64 d2 / 255 * ad)%float in
  let ar := (as_ * (1 - ad) + ad)%float in
  let rr := (rs * (1 - ad) + rd)%float in
  let gr := (gs * (1 - ad) + gd)%float in
  let br := (bs * (1 - ad) + bd)%float in
  if (0 <? ar)%float then
    (Go.byte (rr / ar * 255)%float,
     Go.byte (gr / ar * 255)%float,
     Go.byte (br / ar * 255)%float,
     Go.byte (ar * 255)%float)
  else (0, 0, 0, 0).

(** A file the program wrote: its name (the empty name is the standard output) and
    its content. *)
Inductive written : Type :=
  | WrittenPNG (filename : string) (png : list Z)
  | WrittenText (filename : string) (text : string).

(** [WritePNG]: what was written, or the error. *)
Definition WritePNG (w : World) (filename : string) (buf : list Z)
  (width height : Z) : string + written :=
  match (if String.eqb filename EmptyString then None else os_Create w filename) with
  | Some err => inl err
  | None =>
      match png_Encode w buf width height with
      | inl err => inl err
      | inr png => inr (WrittenPNG filename png)
      end
  end.

(** The six lines of a world file. *)
Definition worldFileLines (px py minx maxy : float) : string :=
  let line x := String.append (Go.Sprintf_f 24 10 x) (String "010"%char EmptyString) in
  String.append (line px)
    (String.append (line 0%float)
      (String.append (line 0%float)
        (String.append (line (- py)%float)
          (String.append (line minx) (line maxy))))).

Definition WriteWorldFile (w : World) (filename : string) (px py minx maxy : float)
  (outfmt : Z) : string + written :=
  if String.eqb filename EmptyString
  then inl "can't write a worldfile when writing to stdout"%string
  else
    let ext := if outfmt =? OUTFMT_PNG then ".pnw"%string else ".tfw"%string in
    let idx := Go.LastIndexByte filename "."%char in
    let worldFilename :=
      if negb (idx =? -1)
      then String.append (String.substring 0 (Z.to_nat idx) filename) ext
      else String.append filename ext in
    match os_Create w worldFilename with
    | Some err => inl err
    | None => inr (WrittenText worldFilename (worldFileLines px py minx maxy))
    end.

End tile.

(* ================================================================== *)
(** ** Package stitcher (internal/server/server.go, second part) *)

Module stitcher.

Definition FormatPNG : Z := 0.
Definition FormatGeoTIFF : Z := 1.

Definition ModeBBox : Z := 0.
Definition ModeCentered : Z := 1.

Module Options.
Record t := {
  MinLat : float; MinLon : float; MaxLat : float; MaxLon : float;
  CenterLat : float; CenterLon : float;
  Width : Z; Height : Z;
  Zoom : Z;
  TileURLs : list string;
  TileSize : Z;
  OutputFormat : Z;
  GenerateWorldFile : bool;
  Headers : list (string * string);
  Mode : Z
}.
End Options.

Module Result.
Record t := {
  ImageData : list Z;
  WorldFileData : option string;
  Width : Z;
  Height : Z;
  MinX : float; MaxY : float;
  PixelSizeX : float;
  PixelSizeY : float
}.
End Result.

Module FailedTile.
Record t := {
  URL : string;
  StatusCode : option Z;
  Error : string
}.
End FailedTile.

Module TileError.
Record t := {
  Message : string;
  FailedTiles : list FailedTile.t;
  SuccessfulTiles : Z;
  TotalTiles : Z
}.
End TileError.

Module ImageData.
Record t := {
  buf : list Z;
  width : Z;
  height : Z;
  depth : Z
}.
End ImageData.

(** The [error] values [Stitch] returns. *)
Inductive error : Type :=
  | Errorf (msg : string)
  | ErrTile (e : TileError.t)
  | ErrContext (msg : string).

(** What [Stitch] returns: a result pointer and an [error]. *)
Definition returned : Type := option Result.t * option error.

Definition downloadTile (w : World) (history : list string) (url : string)
  (headers : list (string * string)) : string + list Z :=
  match client_Do w history url (("User-Agent"%string, "tile-stitch/2.0.0"%string) :: headers) with
  | inl err => inl err
  | inr resp =>
      if negb (StatusCode resp =? 200)
      then inl (String.append "HTTP "
             (String.append (Go.Itoa (StatusCode resp))
               (String.append ": " (Status resp))))
      else Body resp
  end.

Definition imageToImageData (img : Image) : run ImageData.t :=
  let width := Dx img in
  let height := Dy img in
  buf ← make (Go.int (Go.int (width * height) * 4));
  buf ← fill_pixels img width height (fun a => Z.shiftr a 8 mod 256) buf;
  Done {| ImageData.buf := buf; ImageData.width := width;
          ImageData.height := height; ImageData.depth := 4 |}.

Definition readPNG (w : World) (data : list Z) : run (string + ImageData.t) :=
  match png_Decode w data with
  | inl err => Done (inl err)
  | inr img => d ← imageToImageData img; Done (inr d)
  end.

Definition readJPEG (w : World) (data : list Z) : run (string + ImageData.t) :=
  match jpeg_Decode w data with
  | inl err => Done (inl err)
  | inr img => d ← imageToImageData img; Done (inr d)
  end.

Definition decodeImage (w : World) (data : list Z) : run (string + ImageData.t) :=
  if tile.has_magic data [0x89; 0x50; 0x4E; 0x47] then readPNG w data
  else if tile.has_magic data [0xFF; 0xD8] then readJPEG w data
  else Done (inl "unrecognized image format"%string).

Definition alphaBlend (src dst : byte4) : byte4 :=
  let '(s0, s1, s2, s3) := src in
  let '(d0, d1, d2, d3) := dst in
  let as_ := (Go.float64 s3 / 255)%float in
  let rs := (Go.float64 s0 / 255 * as_)%float in
  let gs := (Go.float64 s1 / 255 * as_)%float in
  let bs := (Go.float64 s2 / 255 * as_)%float in
  let ad := (Go.float64 d3 / 255)%float in
  let rd := (Go.float64 d0 / 255 * ad)%float in
  let gd := (Go.float64 d1 / 255 * ad)%float in
  let bd := (Go.float64 d2 / 255 * ad)%float in
  let ar := (as_ * (1 - ad) + ad)%float in
  let rr := (rs * (1 - ad) + rd)%float in
  let gr := (gs * (1 - ad) + gd)%float in
  let br := (bs * (1 - ad) + bd)%float in
  if (0 <? ar)%float then
    (Go.byte (rr / ar * 255)%float,
     Go.byte (gr / ar * 255)%float,
     Go.byte (br / ar * 255)%float,
     Go.byte (ar * 255)%float)
  else (0, 0, 0, 0).

Definition copyTileToBuffer (img : ImageData.t) (buf : list Z)
  (xoff yoff width height : Z) : run (list Z) :=
  Go.for_lt 0 (ImageData.height img) (fun y buf =>
    Go.for_lt 0 (ImageData.width img) (fun x buf =>
      let xd := Go.int (x + xoff) in
      let yd := Go.int (y + yoff) in
      if (xd <? 0) || (yd <? 0) || (xd >=? width) || (yd >=? height)
      then Done buf
      else
        let srcIdx := Go.int (Go.int (Go.int (y * ImageData.width img) + x) * 4) in
        let dstIdx := Go.int (Go.int (Go.int (yd * width) + xd) * 4) in
        src ← load4 (ImageData.buf img) srcIdx;
        dst ← load4 buf dstIdx;
        store4 buf dstIdx (alphaBlend src dst)) buf) buf.

Definition encodePNG (w : World) (buf : list Z) (width height : Z) : string + list Z :=
  png_Encode w buf width height.

Definition generateWorldFile (px py minx maxy : float) : string :=
  let line x := String.append (Go.Sprintf_f 24 10 x) (String "010"%char EmptyString) in
  String.append (line px)
    (String.append (line 0%float)
      (String.append (line 0%float)
        (String.append (line (- py)%float)
          (String.append (line minx) (line maxy))))).

Definition buildURL (template : string) (zoom : Z) (x y : Z) : string :=
  let url := template in
  let url := Go.ReplaceAll url "{z}" (Go.Itoa zoom) in
  let url := Go.ReplaceAll url "{x}" (Go.FormatUint x) in
  let url := Go.ReplaceAll url "{y}" (Go.FormatUint y) in
  if Go.Contains url "{s}" then
    let subdomain := String (ascii_of_nat (Z.to_nat (97 + Go.uint32 (x + y) mod 3))) EmptyString in
    Go.ReplaceAll url "{s}" subdomain
  else url.

Definition latlon2tile (M : Go.Math) (lat lon : float) (zoom : Z) : Z * Z :=
  let latRad := (lat * Go.Pi / 180)%float in
  let n := tile.pow2_uint64 zoom in
  let x := Go.uint32_of_float (Go.float64_of_uint64 n * ((lon + 180) / 360))%float in
  let y := Go.uint32_of_float
    (Go.float64_of_uint64 n *
      (1 - (Go.Log M (Go.Tan M latRad + 1 / Go.Cos M latRad) / Go.Pi)) / 2)%float in
  (x, y).

Definition tile2latlon (M : Go.Math) (x y : Z) (zoom : Z) : float * float :=
  let n := Go.float64_of_uint64 (tile.pow2_uint64 zoom) in
  let lon := (360 * Go.float64 x / n - 180)%float in
  let latRad := Go.Atan M (Go.Sinh M (Go.Pi * (1 - 2 * Go.float64 y / n))%float) in
  let lat := (latRad * 180 / Go.Pi)%float in
  (lat, lon).

Definition projectlatlon (M : Go.Math) (lat lon : float) : float * float :=
  let x := (lon * tile.originshift / 180)%float in
  let y := (Go.Log M (Go.Tan M ((90 + lat) * Go.Pi / 360)) / tile.Pi_over_180)%float in
  let y := (y * tile.originshift / 180)%float in
  (x, y).

(** *** Stitch *)

(** The first part of [Stitch] (lines 415-447). *)
Definition corners (w : World) (opts : Options.t)
  : run (Z * Z * Z * Z * (float * float * float * float)) :=
  if Options.Mode opts =? ModeCentered then
    let '(cx, cy) := latlon2tile (math w) (Options.CenterLat opts) (Options.CenterLon opts) 32 in
    let s := Go.int (32 - Go.int (Options.Zoom opts + 8)) in
    wx1 ← Go.shl (Options.Width opts) s;
    let x1 := Go.uint32 (cx - Go.uint32 (wx1 ÷ 2)) in
    hy1 ← Go.shl (Options.Height opts) s;
    let y1 := Go.uint32 (cy - Go.uint32 (hy1 ÷ 2)) in
    wx2 ← Go.shl (Options.Width opts) s;
    let x2 := Go.uint32 (cx + Go.uint32 (wx2 ÷ 2)) in
    hy2 ← Go.shl (Options.Height opts) s;
    let y2 := Go.uint32 (cy + Go.uint32 (hy2 ÷ 2)) in
    let '(maxLat, minLon) := tile2latlon (math w) x1 y1 32 in
    let '(minLat, maxLon) := tile2latlon (math w) x2 y2 32 in
    Done (x1, y1, x2, y2, (minLat, minLon, maxLat, maxLon))
  else
    let minLat := Options.MinLat opts in
    let minLon := Options.MinLon opts in
    let maxLat := Options.MaxLat opts in
    let maxLon := Options.MaxLon opts in
    let '(x1, y1) := latlon2tile (math w) maxLat minLon 32 in
    let '(x2, y2) := latlon2tile (math w) minLat maxLon 32 in
    Done (x1, y1, x2, y2, (minLat, minLon, maxLat, maxLon)).

Definition resolve (w : World) (opts : Options.t) : run Plan.t :=
  c ← corners w opts;
  let '(x1, y1, x2, y2, (minLat, minLon, maxLat, maxLon)) := c in
  let sz := Go.int (32 - Options.Zoom opts) in
  tx1 ← Go.shr32 x1 sz;
  ty1 ← Go.shr32 y1 sz;
  tx2 ← Go.shr32 x2 sz;
  ty2 ← Go.shr32 y2 sz;
  let s := Go.int (32 - Go.int (Options.Zoom opts + 8)) in
  let tileSize := Go.uint32 (Options.TileSize opts) in
  px1 ← Go.shr32 x1 s;
  let xa := Go.uint32 (Z.land px1 0xFF * tileSize) / 256 in
  py1 ← Go.shr32 y1 s;
  let ya := Go.uint32 (Z.land py1 0xFF * tileSize) / 256 in
  px2 ← Go.shr32 x2 s;
  let width := Go.uint32 (Go.uint32 (px2 - px1) * tileSize) / 256 in
  py2 ← Go.shr32 y2 s;
  let height := Go.uint32 (Go.uint32 (py2 - py1) * tileSize) / 256 in
  Done {| Plan.x1 := x1; Plan.y1 := y1; Plan.x2 := x2; Plan.y2 := y2;
          Plan.minLat := minLat; Plan.minLon := minLon;
          Plan.maxLat := maxLat; Plan.maxLon := maxLon;
          Plan.tx1 := tx1; Plan.ty1 := ty1; Plan.tx2 := tx2; Plan.ty2 := ty2;
          Plan.xa := xa; Plan.ya := ya;
          Plan.width := width; Plan.height := height |}.

(** The variables the tile loops update, and the requests made so far. *)
Module Loop.
Record t := {
  buf : list Z;
  failedTiles : list FailedTile.t;
  successfulTiles : Z;
  requests : list string
}.
End Loop.

(** The state before the first tile: the fresh canvas, no failure, no
    success, no request. *)
Definition start (buf : list Z) : Loop.t :=
  {| Loop.buf := buf; Loop.failedTiles := [];
     Loop.successfulTiles := 0; Loop.requests := [] |}.

Definition failed (st : Loop.t) (url err : string) : Loop.t :=
  {| Loop.buf := Loop.buf st;
     Loop.failedTiles := Loop.failedTiles st ++
       [{| FailedTile.URL := url; FailedTile.StatusCode := None; FailedTile.Error := err |}];
     Loop.successfulTiles := Loop.successfulTiles st;
     Loop.requests := Loop.requests st |}.

Definition requested (st : Loop.t) (url : string) : Loop.t :=
  {| Loop.buf := Loop.buf st;
     Loop.failedTiles := Loop.failedTiles st;
     Loop.successfulTiles := Loop.successfulTiles st;
     Loop.requests := Loop.requests st ++ [url] |}.

Definition placed (st : Loop.t) (buf : list Z) : Loop.t :=
  {| Loop.buf := buf;
     Loop.failedTiles := Loop.failedTiles st;
     Loop.successfulTiles := Go.int (Loop.successfulTiles st + 1);
     Loop.requests := Loop.requests st |}.

Definition wrong_size (img : ImageData.t) (tileSize : Z) : string :=
  String.append "wrong tile size: got "
    (String.append (Go.Itoa (ImageData.width img))
      (String.append "x"
        (String.append (Go.Itoa (ImageData.height img))
          (String.append ", expected "
            (String.append (Go.Itoa tileSize)
              (String.append "x" (Go.Itoa tileSize))))))).

(** The loop over the URL templates of one tile position (lines 476-518).
    [continue] goes on with the next template, [break] leaves the loop
    with [tileProcessed = true], a cancelled context leaves [Stitch]. *)
Fixpoint tryURLs (w : World) (opts : Options.t) (tx ty xoff yoff width height : Z)
  (urls : list string) (st : Loop.t)
  : run (Go.flow (Loop.t * bool) (list string * returned)) :=
  match urls with
  | [] => Done (Go.Next (st, false))
  | urlTemplate :: urls' =>
      let url := buildURL urlTemplate (Options.Zoom opts) tx ty in
      match ctx_Done w (Loop.requests st) with
      | Some err => Done (Go.Return (Loop.requests st, (None, Some (ErrContext err))))
      | None =>
          let history := Loop.requests st in
          let st := requested st url in
          match downloadTile w history url (Options.Headers opts) with
          | inl err => tryURLs w opts tx ty xoff yoff width height urls' (failed st url err)
          | inr data =>
              d ← decodeImage w data;
              match d with
              | inl err =>
                  tryURLs w opts tx ty xoff yoff width height urls'
                    (failed st url (String.append "decode error: " err))
              | inr img =>
                  if negb (ImageData.height img =? Options.TileSize opts)
                     || negb (ImageData.width img =? Options.TileSize opts)
                  then tryURLs w opts tx ty xoff yoff width height urls'
                         (failed st url (wrong_size img (Options.TileSize opts)))
                  else
                    buf ← copyTileToBuffer img (Loop.buf st) xoff yoff width height;
                    Done (Go.Next (placed st buf, true))
              end
          end
      end
  end.

(** One tile position (lines 473-523). *)
Definition position (w : World) (opts : Options.t) (p : Plan.t) (ty tx : Z)
  (st : Loop.t) : run (Go.flow Loop.t (list string * returned)) :=
  let xoff := Go.int (Go.int (Go.uint32 (tx - Plan.tx1 p) * Options.TileSize opts) - Plan.xa p) in
  let yoff := Go.int (Go.int (Go.uint32 (ty - Plan.ty1 p) * Options.TileSize opts) - Plan.ya p) in
  r ← tryURLs w opts tx ty xoff yoff (Plan.width p) (Plan.height p) (Options.TileURLs opts) st;
  match r with
  | Go.Next (st, tileProcessed) =>
      if negb tileProcessed
      then Done (Go.Next st) (* all URLs failed for this tile position: continue *)
      else Done (Go.Next st)
  | Go.Return v => Done (Go.Return v)
  end.

(** The two loops over the tile range (lines 471-525). *)
Definition tiles (w : World) (opts : Options.t) (p : Plan.t) (st : Loop.t)
  : run (Go.flow Loop.t (list string * returned)) :=
  Go.for_each (Go.range_le (Plan.ty1 p) (Plan.ty2 p)) (fun ty st =>
    Go.for_each (Go.range_le (Plan.tx1 p) (Plan.tx2 p)) (fun tx st =>
      position w opts p ty tx st) st) st.

Definition totalTiles (opts : Options.t) (p : Plan.t) : Z :=
  Go.uint32
    (Go.uint32 (Go.uint32 (Go.uint32 (Plan.tx2 p - Plan.tx1 p) + 1)
                * Go.uint32 (Go.uint32 (Plan.ty2 p - Plan.ty1 p) + 1))
     * Go.uint32 (Z.of_nat (length (Options.TileURLs opts)))).

Definition ledger (msg : string) (total : Z) (st : Loop.t) : TileError.t :=
  {| TileError.Message := msg;
     TileError.FailedTiles := Loop.failedTiles st;
     TileError.SuccessfulTiles := Loop.successfulTiles st;
     TileError.TotalTiles := total |}.

(** The end of [Stitch] (lines 527-579): the failure policy, the encoding
    and the result. *)
Definition finish (w : World) (opts : Options.t) (p : Plan.t)
  (minX maxY px py : float) (total : Z) (st : Loop.t) : returned :=
  if Loop.successfulTiles st =? 0 then
    (None, Some (ErrTile (ledger "No tiles could be downloaded successfully" total st)))
  else if Z.of_nat (length (Loop.failedTiles st)) >? total ÷ 2 then
    (None, Some (ErrTile (ledger
       (String.append "Too many tile download failures: "
         (String.append (Go.Itoa (Z.of_nat (length (Loop.failedTiles st))))
           (String.append "/" (String.append (Go.Itoa total) " failed"))))
       total st)))
  else
    (* switch opts.OutputFormat *)
    match (if Options.OutputFormat opts =? FormatPNG
           then Some (encodePNG w (Loop.buf st) (Plan.width p) (Plan.height p))
           else if Options.OutputFormat opts =? FormatGeoTIFF
           then None
           else Some (encodePNG w (Loop.buf st) (Plan.width p) (Plan.height p))) with
    | None => (None, Some (Errorf "GeoTIFF output not yet implemented"))
    | Some (inl err) =>
        (None, Some (Errorf (String.append "failed to encode output image: " err)))
    | Some (inr imageData) =>
        (Some {| Result.ImageData := imageData;
                 Result.WorldFileData :=
                   if Options.GenerateWorldFile opts
                   then Some (generateWorldFile px py minX maxY) else None;
                 Result.Width := Plan.width p;
                 Result.Height := Plan.height p;
                 Result.MinX := minX; Result.MaxY := maxY;
                 Result.PixelSizeX := px; Result.PixelSizeY := py |},
         None)
    end.

Definition too_large (width height : Z) : string :=
  String.append "requested image size too large: "
    (String.append (Go.Itoa width) (String.append "x" (Go.Itoa height))).

(** [Stitch]: the requests it made, and what it returned. *)
Definition Stitch (w : World) (opts : Options.t) : run (list string * returned) :=
  p ← resolve w opts;
  let width := Plan.width p in
  let height := Plan.height p in
  let dim := Go.int (width * height) in
  if dim >? 10000 * 10000 then
    Done ([], (None, Some (Errorf (too_large width height))))
  else
    let '(minX, minY) := projectlatlon (math w) (Plan.minLat p) (Plan.minLon p) in
    let '(maxX, maxY) := projectlatlon (math w) (Plan.maxLat p) (Plan.maxLon p) in
    let px := ((maxX - minX) / Go.float64 width)%float in
    let py := (abs (maxY - minY) / Go.float64 height)%float in
    buf ← make (Go.int (Go.int (width * height) * 4));
    let total := totalTiles opts p in
    r ← tiles w opts p (start buf);
    match r with
    | Go.Return v => Done v
    | Go.Next st => Done (Loop.requests st, finish w opts p minX maxY px py total st)
    end.

End stitcher.

(* ================================================================== *)
(** ** Package stitch (internal/stitch/stitcher.go) *)

Module stitch.

Module Stitcher.
Record t := {
  processor : tile.Processor.t;
  options : tile.StitchOptions.t
}.
End Stitcher.

Definition NewStitcher (opts : tile.StitchOptions.t) : Stitcher.t :=
  let userAgent := tile.StitchOptions.UserAgent opts in
  let userAgent := if String.eqb userAgent EmptyString then "stitch/2.0.0"%string else userAgent in
  {| Stitcher.processor := tile.NewProcessor userAgent; Stitcher.options := opts |}.

(** What a call of [stitch] did and returned: the requests it made, the
    files it wrote and its [error].  The progress lines it prints on the
    standard error are left out. *)
Module Outcome.
Record t := {
  requests : list string;
  files : list tile.written;
  err : option string
}.
End Outcome.

Definition fails (msg : string) : Outcome.t :=
  {| Outcome.requests := []; Outcome.files := []; Outcome.err := Some msg |}.

(** The copy of one tile into the output buffer (lines 152-186). *)
Definition place (img : tile.ImageData.t) (buf : list Z)
  (xoff yoff outputWidth outputHeight : Z) : run (list Z) :=
  Go.for_lt 0 (tile.ImageData.Height img) (fun y buf =>
    Go.for_lt 0 (tile.ImageData.Width img) (fun x buf =>
      let xd := Go.int (x + xoff) in
      let yd := Go.int (y + yoff) in
      if (xd <? 0) || (yd <? 0) || (xd >=? outputWidth) || (yd >=? outputHeight)
      then Done buf
      else
        let srcIdx := Go.int (Go.int (Go.int (y * tile.ImageData.Width img) + x) * 4) in
        let dstIdx := Go.int (Go.int (Go.int (yd * outputWidth) + xd) * 4) in
        if tile.ImageData.Depth img =? 4 then
          src ← load4 (tile.ImageData.Buf img) srcIdx;
          dst ← load4 buf dstIdx;
          store4 buf dstIdx (tile.AlphaBlend src dst)
        else if tile.ImageData.Depth img =? 3 then
          r ← Go.index (tile.ImageData.Buf img) srcIdx;
          buf ← Go.store buf dstIdx r;
          g ← Go.index (tile.ImageData.Buf img) (Go.int (srcIdx + 1));
          buf ← Go.store buf (Go.int (dstIdx + 1)) g;
          b ← Go.index (tile.ImageData.Buf img) (Go.int (srcIdx + 2));
          buf ← Go.store buf (Go.int (dstIdx + 2)) b;
          Go.store buf (Go.int (dstIdx + 3)) 255
        else
          val ← Go.index (tile.ImageData.Buf img) srcIdx;
          buf ← Go.store buf dstIdx val;
          buf ← Go.store buf (Go.int (dstIdx + 1)) val;
          buf ← Go.store buf (Go.int (dstIdx + 2)) val;
          Go.store buf (Go.int (dstIdx + 3)) 255) buf) buf.

(** The loop over the URL templates of one tile position (lines 131-187):
    every template is fetched, and every tile that decodes with the right
    size is placed. *)
Fixpoint layers (w : World) (s : Stitcher.t) (zoom tx ty xoff yoff outputWidth outputHeight : Z)
  (urls : list string) (st : list Z * list string) : run (list Z * list string) :=
  match urls with
  | [] => Done st
  | urlTemplate :: urls' =>
      let '(buf, history) := st in
      let url := tile.BuildURL urlTemplate zoom tx ty in
      let st := (buf, history ++ [url]) in
      match tile.DownloadTile w (Stitcher.processor s) history url with
      | inl _ => layers w s zoom tx ty xoff yoff outputWidth outputHeight urls' st
      | inr data =>
          d ← tile.DecodeImage w data;
          match d with
          | inl _ => layers w s zoom tx ty xoff yoff outputWidth outputHeight urls' st
          | inr img =>
              let tileSize := tile.StitchOptions.TileSize (Stitcher.options s) in
              if negb (tile.ImageData.Height img =? tileSize)
                 || negb (tile.ImageData.Width img =? tileSize)
              then layers w s zoom tx ty xoff yoff outputWidth outputHeight urls' st
              else
                buf ← place img buf xoff yoff outputWidth outputHeight;
                layers w s zoom tx ty xoff yoff outputWidth outputHeight urls'
                  (buf, history ++ [url])
          end
      end
  end.

(** [for i := range l] without [return]. *)
Fixpoint for_range {A S : Type} (l : list A) (body : A -> S -> run S) (s : S) : run S :=
  match l with
  | [] => Done s
  | a :: l' => s' ← body a s; for_range l' body s'
  end.

(** The output and the world file (lines 191-207). *)
Definition write (w : World) (s : Stitcher.t) (buf : list Z) (outputWidth outputHeight : Z)
  (px py minx maxy : float) (history : list string) : Outcome.t :=
  let opts := Stitcher.options s in
  let output := tile.StitchOptions.Output opts in
  let format := tile.StitchOptions.Format opts in
  let done files err :=
    {| Outcome.requests := history; Outcome.files := files; Outcome.err := err |} in
  let world files :=
    if tile.StitchOptions.WriteWorldFile opts then
      match tile.WriteWorldFile w output px py minx maxy format with
      | inl err => done files (Some (String.append "failed to write world file: " err))
      | inr f => done (files ++ [f]) None
      end
    else done files None in
  if format =? tile.OUTFMT_PNG then
    match tile.WritePNG w output buf outputWidth outputHeight with
    | inl err => done [] (Some (String.append "failed to write PNG: " err))
    | inr f => world [f]
    end
  else if format =? tile.OUTFMT_GEOTIFF then
    done [] (Some "GeoTIFF output not yet implemented"%string)
  else world [].

(** The grid of [stitch] (lines 56-105). *)
Definition grid (w : World) (tileSize : Z) (minlat minlon maxlat maxlon : float)
  (zoom : Z) (centered : bool) (width height : Z) : run Plan.t :=
  c ← (if centered then
         let lat := minlat in
         let lon := minlon in
         let '(cx, cy) := tile.LatLonToTile (math w) lat lon 32 in
         let sh := Go.int (32 - Go.int (zoom + 8)) in
         wx1 ← Go.shl width sh;
         let x1 := Go.uint32 (cx - Go.uint32 (wx1 ÷ 2)) in
         hy1 ← Go.shl height sh;
         let y1 := Go.uint32 (cy - Go.uint32 (hy1 ÷ 2)) in
         wx2 ← Go.shl width sh;
         let x2 := Go.uint32 (cx + Go.uint32 (wx2 ÷ 2)) in
         hy2 ← Go.shl height sh;
         let y2 := Go.uint32 (cy + Go.uint32 (hy2 ÷ 2)) in
         let '(maxlat, minlon) := tile.TileToLatLon (math w) x1 y1 32 in
         let '(minlat, maxlon) := tile.TileToLatLon (math w) x2 y2 32 in
         Done (x1, y1, x2, y2, (minlat, minlon, maxlat, maxlon))
       else
         let '(x1, y1) := tile.LatLonToTile (math w) maxlat minlon 32 in
         let '(x2, y2) := tile.LatLonToTile (math w) minlat maxlon 32 in
         Done (x1, y1, x2, y2, (minlat, minlon, maxlat, maxlon)));
  let '(x1, y1, x2, y2, (minlat, minlon, maxlat, maxlon)) := c in
  let sz := Go.int (32 - zoom) in
  tx1 ← Go.shr32 x1 sz;
  ty1 ← Go.shr32 y1 sz;
  tx2 ← Go.shr32 x2 sz;
  ty2 ← Go.shr32 y2 sz;
  let sh := Go.int (32 - Go.int (zoom + 8)) in
  px1 ← Go.shr32 x1 sh;
  let xa := Go.uint32 (Z.land px1 0xFF * Go.uint32 tileSize) / 256 in
  py1 ← Go.shr32 y1 sh;
  let ya := Go.uint32 (Z.land py1 0xFF * Go.uint32 tileSize) / 256 in
  px2 ← Go.shr32 x2 sh;
  let outputWidth := Go.uint32 (Go.uint32 (px2 - px1) * Go.uint32 tileSize) / 256 in
  py2 ← Go.shr32 y2 sh;
  let outputHeight := Go.uint32 (Go.uint32 (py2 - py1) * Go.uint32 tileSize) / 256 in
  Done {| Plan.x1 := x1; Plan.y1 := y1; Plan.x2 := x2; Plan.y2 := y2;
          Plan.minLat := minlat; Plan.minLon := minlon;
          Plan.maxLat := maxlat; Plan.maxLon := maxlon;
          Plan.tx1 := tx1; Plan.ty1 := ty1; Plan.tx2 := tx2; Plan.ty2 := ty2;
          Plan.xa := xa; Plan.ya := ya;
          Plan.width := outputWidth; Plan.height := outputHeight |}.

(** The two loops over the tile range (lines 123-189). *)
Definition tiles (w : World) (s : Stitcher.t) (zoom : Z) (urls : list string)
  (p : Plan.t) (st : list Z * list string) : run (list Z * list string) :=
  let tileSize := tile.StitchOptions.TileSize (Stitcher.options s) in
  for_range (Go.range_le (Plan.ty1 p) (Plan.ty2 p)) (fun ty st =>
    for_range (Go.range_le (Plan.tx1 p) (Plan.tx2 p)) (fun tx st =>
      let xoff := Go.int (Go.int (Go.uint32 (tx - Plan.tx1 p) * tileSize) - Plan.xa p) in
      let yoff := Go.int (Go.int (Go.uint32 (ty - Plan.ty1 p) * tileSize) - Plan.ya p) in
      layers w s zoom tx ty xoff yoff (Plan.width p) (Plan.height p) urls st) st) st.

Definition stitch (w : World) (s : Stitcher.t) (minlat minlon maxlat maxlon : float)
  (zoom : Z) (urls : list string) (centered : bool) (width height : Z)
  : run Outcome.t :=
  if zoom <? 0 then
    Done (fails (String.append "zoom " (String.append (Go.Itoa zoom) " less than 0")))
  else if Z.of_nat (length urls) =? 0 then
    Done (fails "no tile URLs provided")
  else if String.eqb (tile.StitchOptions.Output (Stitcher.options s)) EmptyString
          && stdout_is_terminal w then
    Done (fails "didn't specify output file and standard output is a terminal")
  else if centered && ((width <=? 0) || (height <=? 0)) then
    Done (fails (String.append "width/height less than 0: "
            (String.append (Go.Itoa width) (String.append " " (Go.Itoa height)))))
  else
    p ← grid w (tile.StitchOptions.TileSize (Stitcher.options s))
           minlat minlon maxlat maxlon zoom centered width height;
    let '(minx, miny) := tile.ProjectLatLon (math w) (Plan.minLat p) (Plan.minLon p) in
    let '(maxx, maxy) := tile.ProjectLatLon (math w) (Plan.maxLat p) (Plan.maxLon p) in
    let outputWidth := Plan.width p in
    let outputHeight := Plan.height p in
    let px := ((maxx - minx) / Go.float64 outputWidth)%float in
    let py := (abs (maxy - miny) / Go.float64 outputHeight)%float in
    let dim := Go.int (outputWidth * outputHeight) in
    if dim >? 10000 * 10000 then
      Done (fails "that's too big")
    else
      buf ← make (Go.int (Go.int (outputWidth * outputHeight) * 4));
      st ← tiles w s zoom urls p (buf, []);
      let '(buf, history) := st in
      Done (write w s buf outputWidth outputHeight px py minx maxy history).

Definition StitchBoundingBox (w : World) (s : Stitcher.t) (bbox : tile.BoundingBox.t)
  (zoom : Z) (urls : list string) : run Outcome.t :=
  stitch w s (tile.BoundingBox.MinLat bbox) (tile.BoundingBox.MinLon bbox)
    (tile.BoundingBox.MaxLat bbox) (tile.BoundingBox.MaxLon bbox) zoom urls false 0 0.

Definition StitchCentered (w : World) (s : Stitcher.t) (req : tile.CenteredRequest.t)
  (zoom : Z) (urls : list string) : run Outcome.t :=
  stitch w s (tile.CenteredRequest.Lat req) (tile.CenteredRequest.Lon req) 0 0 zoom urls
    true (tile.CenteredRequest.Width req) (tile.CenteredRequest.Height req).

End stitch.

(* ================================================================== *)
(** ** Package cmd (cmd/root.go) *)

Module cmd.

(** The format flag in [runStitch] (lines 151-163): the lines printed on
    the standard error, and the format or the error. *)
Definition parseFormat (formatStr : string) : list string * (string + Z) :=
  if String.eqb formatStr "png" then ([], inr tile.OUTFMT_PNG)
  else if String.eqb formatStr "geotiff" then
    (["Warning: GeoTIFF output not yet implemented, using PNG"%string], inr tile.OUTFMT_PNG)
  else ([], inl (String.append "unknown format: " formatStr)).

(** The values [runStitch] reads from the flags. *)
Module Flags.
Record t := {
  zoom : Z;
  url : list string;
  format : string;
  bbox : string;
  min_lat : float; max_lat : float; min_lon : float; max_lon : float;
  lat : float; lon : float;
  width : Z; height : Z;
  output : string;
  tilesize : Z;
  worldfile : bool;
  user_agent : string
}.
End Flags.

(** What a run of the command did: the warnings it printed on the
    standard error, and the outcome of the stitching. *)
Definition ran : Type := list string * stitch.Outcome.t.

(** [strings.Split(s, sep)] for a one-byte [sep]. *)
Fixpoint Split_from (sep : ascii) (cur : string) (s : string) : list string :=
  match s with
  | EmptyString => [cur]
  | String c s' =>
      if Ascii.eqb c sep then cur :: Split_from sep EmptyString s'
      else Split_from sep (String.append cur (String c EmptyString)) s'
  end.

Definition Split (s : string) (sep : ascii) : list string := Split_from sep EmptyString s.

Definition runBboxMode (w : World) (v : Flags.t) (minLat minLon maxLat maxLon : float)
  (zoom : Z) (urls : list string) (format : Z) : run stitch.Outcome.t :=
  let opts :=
    {| tile.StitchOptions.Output := Flags.output v;
       tile.StitchOptions.TileSize := Flags.tilesize v;
       tile.StitchOptions.Centered := false;
       tile.StitchOptions.Format := format;
       tile.StitchOptions.WriteWorldFile := Flags.worldfile v;
       tile.StitchOptions.UserAgent := Flags.user_agent v |} in
  let stitcher := stitch.NewStitcher opts in
  let bbox :=
    {| tile.BoundingBox.MinLat := minLat; tile.BoundingBox.MinLon := minLon;
       tile.BoundingBox.MaxLat := maxLat; tile.BoundingBox.MaxLon := maxLon |} in
  stitch.StitchBoundingBox w stitcher bbox zoom urls.

(** [runBboxStringMode]; [parse] stands for
    [strconv.ParseFloat(strings.TrimSpace(part), 64)]. *)
Definition runBboxStringMode (w : World) (parse : string -> string + float) (v : Flags.t)
  (bboxStr : string) (zoom : Z) (urls : list string) (format : Z) : run stitch.Outcome.t :=
  match Split bboxStr ","%char with
  | [p0; p1; p2; p3] =>
      match parse p0 with
      | inl err => Done (stitch.fails (String.append "invalid min-lat in bbox: " err))
      | inr minLat =>
      match parse p1 with
      | inl err => Done (stitch.fails (String.append "invalid min-lon in bbox: " err))
      | inr minLon =>
      match parse p2 with
      | inl err => Done (stitch.fails (String.append "invalid max-lat in bbox: " err))
      | inr maxLat =>
      match parse p3 with
      | inl err => Done (stitch.fails (String.append "invalid max-lon in bbox: " err))
      | inr maxLon => runBboxMode w v minLat minLon maxLat maxLon zoom urls format
      end end end end
  | _ => Done (stitch.fails "bbox must be in format 'min-lat,min-lon,max-lat,max-lon'")
  end.

Definition runCenteredMode (w : World) (v : Flags.t) (zoom : Z) (urls : list string)
  (lat lon : float) (width height : Z) (format : Z) : run stitch.Outcome.t :=
  let opts :=
    {| tile.StitchOptions.Output := Flags.output v;
       tile.StitchOptions.TileSize := Flags.tilesize v;
       tile.StitchOptions.Centered := true;
       tile.StitchOptions.Format := format;
       tile.StitchOptions.WriteWorldFile := Flags.worldfile v;
       tile.StitchOptions.UserAgent := Flags.user_agent v |} in
  let stitcher := stitch.NewStitcher opts in
  let req :=
    {| tile.CenteredRequest.Lat := lat; tile.CenteredRequest.Lon := lon;
       tile.CenteredRequest.Width := width; tile.CenteredRequest.Height := height |} in
  stitch.StitchCentered w stitcher req zoom urls.

(** [x == 0] and [x != 0] on [float64]. *)
Definition is_zero (x : float) : bool := (x =? 0)%float.

Definition runStitch (w : World) (parse : string -> string + float) (v : Flags.t)
  : run ran :=
  let zoom := Flags.zoom v in
  let urls := Flags.url v in
  if zoom =? 0 then
    Done ([], stitch.fails "zoom level is required (use --zoom)")
  else if Z.of_nat (length urls) =? 0 then
    Done ([], stitch.fails "at least one tile URL is required (use --url)")
  else
    let '(warnings, parsed) := parseFormat (Flags.format v) in
    match parsed with
    | inl err => Done (warnings, stitch.fails err)
    | inr format =>
        let bbox := Flags.bbox v in
        let minLat := Flags.min_lat v in
        let maxLat := Flags.max_lat v in
        let minLon := Flags.min_lon v in
        let maxLon := Flags.max_lon v in
        let lat := Flags.lat v in
        let lon := Flags.lon v in
        let width := Flags.width v in
        let height := Flags.height v in
        if negb (is_zero lat) || negb (is_zero lon) || negb (width =? 0) || negb (height =? 0)
        then
          if is_zero lat || is_zero lon || (width =? 0) || (height =? 0) then
            Done (warnings, stitch.fails
              "centered mode requires all of: --lat, --lon, --width, --height")
          else
            o ← runCenteredMode w v zoom urls lat lon width height format;
            Done (warnings, o)
        else if negb (String.eqb bbox EmptyString) then
          o ← runBboxStringMode w parse v bbox zoom urls format;
          Done (warnings, o)
        else if negb (is_zero minLat) || negb (is_zero maxLat)
                || negb (is_zero minLon) || negb (is_zero maxLon) then
          if is_zero minLat || is_zero maxLat || is_zero minLon || is_zero maxLon then
            Done (warnings, stitch.fails
              "bounding box mode requires all of: --min-lat, --min-lon, --max-lat, --max-lon")
          else
            o ← runBboxMode w v minLat minLon maxLat maxLon zoom urls format;
            Done (warnings, o)
        else
          Done (warnings, stitch.fails
            "either specify bounding box coordinates (--min-lat, --min-lon, --max-lat, --max-lon or --bbox) or centered coordinates (--lat, --lon, --width, --height)")
    end.

End cmd.

(* ================================================================== *)
(** ** Package server (internal/server/server.go, first part) *)

Module server.

(** Modelled from the spec: package [internal/api], generated from the
    OpenAPI description, is not among the sources.  Its request and
    response types are given by the fields the handlers read and write;
    its string constants are the JSON values of section 6 of the
    specification ([mode] is "bbox" or "centered"), of api-examples.md
    (format "png") and of the tests ("VALIDATION_ERROR"), and "geotiff"
    as the format flag of the CLI spells it.  The handlers convert its
    coordinates with [float64(...)], which is exact; they are binary64
    values here. *)
Module api.

Definition Bbox : string := "bbox".
Definition Centered : string := "centered".
Definition Png : string := "png".
Definition Geotiff : string := "geotiff".
Definition VALIDATIONERROR : string := "VALIDATION_ERROR".

Module BoundingBox.
Record t := { MaxLat : float; MaxLon : float; MinLat : float; MinLon : float }.
End BoundingBox.

Module CenterPoint.
Record t := { Height : Z; Lat : float; Lon : float; Width : Z }.
End CenterPoint.

Module OutputOptions.
Record t := {
  Format : option string;
  GenerateWorldfile : option bool;
  TileSize : option Z
}.
End OutputOptions.

Module TileSource.
Record t := {
  Headers : option (list (string * string));
  Name : option string;
  Url : string
}.
End TileSource.

Module StitchRequest.
Record t := {
  Bbox : option BoundingBox.t;
  Center : option CenterPoint.t;
  Mode : string;
  Output : option OutputOptions.t;
  TileSource : TileSource.t;
  Zoom : Z
}.
End StitchRequest.

Module ErrorResponse.
Record t := {
  Details : option (list (string * Z));
  Error : string;
  Message : string;
  RequestId : option string
}.
End ErrorResponse.

Module ValidationError.
Record t := { Code : option string; Field : string; Message : string }.
End ValidationError.

Module ValidationErrorResponse.
Record t := {
  Error : string;
  Message : string;
  RequestId : option string;
  ValidationErrors : list ValidationError.t
}.
End ValidationErrorResponse.

Module FailedTile.
Record t := { Error : string; StatusCode : option Z; Url : string }.
End FailedTile.

Module TileErrorResponse.
Record t := {
  Error : string;
  FailedTiles : list FailedTile.t;
  Message : string;
  RequestId : option string;
  SuccessfulTiles : Z;
  TotalTiles : Z
}.
End TileErrorResponse.

End api.

(** What a handler left in its [http.ResponseWriter]: the headers it set,
    in the order it set them, the status it wrote, and the body, either
    the value handed to the JSON encoder or the bytes written. *)
Inductive body : Type :=
  | ErrorBody (r : api.ErrorResponse.t)
  | ValidationErrorBody (r : api.ValidationErrorResponse.t)
  | TileErrorBody (r : api.TileErrorResponse.t)
  | ImageBody (data : list Z).

Module Reply.
Record t := {
  header : list (string * string);
  status : Z;
  content : body
}.
End Reply.

(** [context.DeadlineExceeded.Error()]: [ctx.Err()] is this error or
    [context.Canceled], and the two are told apart by their text. *)
Definition DeadlineExceeded : string := "context deadline exceeded".

Definition validateStitchRequest (req : api.StitchRequest.t) : option string :=
  let mode := api.StitchRequest.Mode req in
  let by_mode :=
    if String.eqb mode api.Bbox then
      match api.StitchRequest.Bbox req with
      | None => Some "bbox is required when mode is 'bbox'"%string
      | Some bbox =>
          match api.StitchRequest.Center req with
          | Some _ => Some "center should not be provided when mode is 'bbox'"%string
          | None =>
              if (api.BoundingBox.MaxLat bbox <=? api.BoundingBox.MinLat bbox)%float
              then Some "min_lat must be less than max_lat"%string
              else if (api.BoundingBox.MaxLon bbox <=? api.BoundingBox.MinLon bbox)%float
              then Some "min_lon must be less than max_lon"%string
              else None
          end
      end
    else if String.eqb mode api.Centered then
      match api.StitchRequest.Center req with
      | None => Some "center is required when mode is 'centered'"%string
      | Some center =>
          match api.StitchRequest.Bbox req with
          | Some _ => Some "bbox should not be provided when mode is 'centered'"%string
          | None =>
              if (api.CenterPoint.Width center <=? 0) || (api.CenterPoint.Height center <=? 0)
              then Some "width and height must be positive"%string
              else None
          end
      end
    else Some (String.append "invalid mode: " mode) in
  match by_mode with
  | Some err => Some err
  | None =>
      let zoom := api.StitchRequest.Zoom req in
      let url := api.TileSource.Url (api.StitchRequest.TileSource req) in
      if (zoom <? 0) || (zoom >? 20) then Some "zoom must be between 0 and 20"%string
      else if String.eqb url EmptyString then Some "tile_source.url is required"%string
      else if negb (Go.Contains url "{z}") || negb (Go.Contains url "{x}")
              || negb (Go.Contains url "{y}")
      then Some "tile_source.url must contain {z}, {x}, and {y} placeholders"%string
      else None
  end.

(** [convertToStitcherOptions]: the options and the [error] (always
    [nil]); reading [req.Bbox] or [req.Center] through a [nil] pointer
    panics. *)
Definition convertToStitcherOptions (req : api.StitchRequest.t)
  : run (stitcher.Options.t * option string) :=
  let output := api.StitchRequest.Output req in
  let tileSize :=
    match output with
    | Some o => match api.OutputOptions.TileSize o with
                | Some ts => Go.int ts
                | None => 256
                end
    | None => 256
    end in
  let outputFormat :=
    match output with
    | Some o => match api.OutputOptions.Format o with
                | Some f =>
                    if String.eqb f api.Png then stitcher.FormatPNG
                    else if String.eqb f api.Geotiff then stitcher.FormatGeoTIFF
                    else 0
                | None => stitcher.FormatPNG
                end
    | None => stitcher.FormatPNG
    end in
  let generateWorldFile :=
    match output with
    | Some o => match api.OutputOptions.GenerateWorldfile o with
                | Some b => b
                | None => false
                end
    | None => false
    end in
  let headers :=
    match api.TileSource.Headers (api.StitchRequest.TileSource req) with
    | Some h => h
    | None => []
    end in
  let opts mode minLat minLon maxLat maxLon centerLat centerLon width height :=
    {| stitcher.Options.MinLat := minLat; stitcher.Options.MinLon := minLon;
       stitcher.Options.MaxLat := maxLat; stitcher.Options.MaxLon := maxLon;
       stitcher.Options.CenterLat := centerLat; stitcher.Options.CenterLon := centerLon;
       stitcher.Options.Width := width; stitcher.Options.Height := height;
       stitcher.Options.Zoom := api.StitchRequest.Zoom req;
       stitcher.Options.TileURLs := [api.TileSource.Url (api.StitchRequest.TileSource req)];
       stitcher.Options.TileSize := tileSize;
       stitcher.Options.OutputFormat := outputFormat;
       stitcher.Options.GenerateWorldFile := generateWorldFile;
       stitcher.Options.Headers := headers;
       stitcher.Options.Mode := mode |} in
  let mode := api.StitchRequest.Mode req in
  if String.eqb mode api.Bbox then
    match api.StitchRequest.Bbox req with
    | None => Panics
    | Some bbox =>
        Done (opts stitcher.ModeBBox
                (api.BoundingBox.MinLat bbox) (api.BoundingBox.MinLon bbox)
                (api.BoundingBox.MaxLat bbox) (api.BoundingBox.MaxLon bbox)
                0%float 0%float 0 0, None)
    end
  else if String.eqb mode api.Centered then
    match api.StitchRequest.Center req with
    | None => Panics
    | Some center =>
        Done (opts stitcher.ModeCentered 0%float 0%float 0%float 0%float
                (api.CenterPoint.Lat center) (api.CenterPoint.Lon center)
                (api.CenterPoint.Width center) (api.CenterPoint.Height center), None)
    end
  else Done (opts 0 0%float 0%float 0%float 0%float 0%float 0%float 0 0, None).

Definition writeErrorResponse (statusCode : Z) (errorCode message : string)
  (requestID : option string) (details : option (list (string * Z))) : Reply.t :=
  {| Reply.header := [("Content-Type", "application/json")]%string;
     Reply.status := statusCode;
     Reply.content := ErrorBody
       {| api.ErrorResponse.Details := details;
          api.ErrorResponse.Error := errorCode;
          api.ErrorResponse.Message := message;
          api.ErrorResponse.RequestId := requestID |} |}.

Definition writeValidationErrorResponse (message : string) (requestID : option string)
  : Reply.t :=
  {| Reply.header := [("Content-Type", "application/json")]%string;
     Reply.status := 400;
     Reply.content := ValidationErrorBody
       {| api.ValidationErrorResponse.Error := api.VALIDATIONERROR;
          api.ValidationErrorResponse.Message := message;
          api.ValidationErrorResponse.RequestId := requestID;
          api.ValidationErrorResponse.ValidationErrors :=
            [{| api.ValidationError.Code := None;
                api.ValidationError.Field := "request";
                api.ValidationError.Message := message |}] |} |}.

Definition handleStitchingError (err : stitcher.error) (requestID : option string)
  : Reply.t :=
  match err with
  | stitcher.ErrTile stitchErr =>
      let failedTiles :=
        map (fun ft =>
               {| api.FailedTile.Error := stitcher.FailedTile.Error ft;
                  api.FailedTile.StatusCode := stitcher.FailedTile.StatusCode ft;
                  api.FailedTile.Url := stitcher.FailedTile.URL ft |})
            (stitcher.TileError.FailedTiles stitchErr) in
      {| Reply.header := [("Content-Type", "application/json")]%string;
         Reply.status := 502;
         Reply.content := TileErrorBody
           {| api.TileErrorResponse.Error := "TILE_SERVER_ERROR";
              api.TileErrorResponse.FailedTiles := failedTiles;
              api.TileErrorResponse.Message := stitcher.TileError.Message stitchErr;
              api.TileErrorResponse.RequestId := requestID;
              api.TileErrorResponse.SuccessfulTiles :=
                stitcher.TileError.SuccessfulTiles stitchErr;
              api.TileErrorResponse.TotalTiles := stitcher.TileError.TotalTiles stitchErr |} |}
  | stitcher.ErrContext msg =>
      if String.eqb msg DeadlineExceeded then
        writeErrorResponse 504 "TILE_SERVER_TIMEOUT" "Tile server requests timed out"
          requestID (Some [("timeout_seconds"%string, 30)])
      else
        writeErrorResponse 500 "INTERNAL_ERROR" "Internal server error" requestID None
  | stitcher.Errorf _ =>
      writeErrorResponse 500 "INTERNAL_ERROR" "Internal server error" requestID None
  end.

(** [generateRequestID], from [time.Now().UnixNano()]. *)
Definition generateRequestID (now : Z) : string := String.append "req_" (Go.Itoa now).

(** [CreateStitchedImage]: the tile requests made and the reply written.
    [decoded] is what the JSON decoder made of the request body, [now]
    the clock. *)
Definition CreateStitchedImage (w : World) (now : Z)
  (decoded : string + api.StitchRequest.t) : run (list string * Reply.t) :=
  let requestID := generateRequestID now in
  match decoded with
  | inl _ =>
      Done ([], writeErrorResponse 400 "INVALID_JSON" "Invalid JSON in request body"
                  (Some requestID) None)
  | inr req =>
      match validateStitchRequest req with
      | Some err => Done ([], writeValidationErrorResponse err (Some requestID))
      | None =>
          c ← convertToStitcherOptions req;
          let '(opts, err) := c in
          match err with
          | Some e =>
              Done ([], writeErrorResponse 400 "INVALID_REQUEST" e (Some requestID) None)
          | None =>
              r ← stitcher.Stitch w opts;
              let '(requests, (result, err)) := r in
              match err with
              | Some e => Done (requests, handleStitchingError e (Some requestID))
              | None =>
                  match result with
                  | None => Panics
                  | Some result =>
                      let format :=
                        match api.StitchRequest.Output req with
                        | Some o => match api.OutputOptions.Format o with
                                    | Some f => f
                                    | None => api.Png
                                    end
                        | None => api.Png
                        end in
                      let contentType :=
                        if String.eqb format api.Png
                        then [("Content-Type", "image/png")]%string
                        else if String.eqb format api.Geotiff
                        then [("Content-Type", "image/tiff")]%string
                        else [] in
                      let imageData := stitcher.Result.ImageData result in
                      Done (requests,
                            {| Reply.header :=
                                 contentType ++
                                 [("X-Request-ID"%string, requestID);
                                  ("Content-Length"%string,
                                   Go.Itoa (Z.of_nat (length imageData)))];
                               Reply.status := 200;
                               Reply.content := ImageBody imageData |})
                  end
              end
          end
      end
  end.

End server.

(* ================================================================== *)
(** ** Vocabulary of the statements *)

(** Pixel [q] of an RGBA8 buffer, and the buffer with pixel [q] replaced. *)
Definition get4 (b : list Z) (q : Z) : byte4 :=
  (b !!! Z.to_nat (4 * q), b !!! Z.to_nat (4 * q + 1),
   b !!! Z.to_nat (4 * q + 2), b !!! Z.to_nat (4 * q + 3)).

Definition put4 (b : list Z) (q : Z) (p : byte4) : list Z :=
  let '(p0, p1, p2, p3) := p in
  <[Z.to_nat (4 * q + 3) := p3]>
    (<[Z.to_nat (4 * q + 2) := p2]>
      (<[Z.to_nat (4 * q + 1) := p1]>
        (<[Z.to_nat (4 * q) := p0]> b))).

(** An RGBA8 buffer of [width] by [height] pixels, as [make] and the
    decoders allocate them. *)
Definition raster (width height : Z) (b : list Z) : Prop :=
  0 <= width /\ 0 <= height /\
  Z.of_nat (length b) = width * height * 4 /\ width * height * 4 < 2 ^ 63.

(** Canvas pixel [(px, py)] lies in the destination rectangle of a tile of
    [tw] by [th] pixels placed at [(xoff, yoff)]. *)
Definition covers (xoff yoff tw th px py : Z) : Prop :=
  xoff <= px < xoff + tw /\ yoff <= py < yoff + th.

(** The nest of loops that both pipelines use to place a tile; [pixel]
    is what they do at one source and destination index. *)
Definition blit (tw th : Z) (pixel : Z -> Z -> list Z -> run (list Z))
  (buf : list Z) (xoff yoff width height : Z) : run (list Z) :=
  Go.for_lt 0 th (fun y buf =>
    Go.for_lt 0 tw (fun x buf =>
      let xd := Go.int (x + xoff) in
      let yd := Go.int (y + yoff) in
      if (xd <? 0) || (yd <? 0) || (xd >=? width) || (yd >=? height)
      then Done buf
      else
        let srcIdx := Go.int (Go.int (Go.int (y * tw) + x) * 4) in
        let dstIdx := Go.int (Go.int (Go.int (yd * width) + xd) * 4) in
        pixel srcIdx dstIdx buf) buf) buf.

(** What the CLI writes for a source pixel over a destination pixel,
    by channel depth. *)
Definition stitch_over (depth : Z) (src dst : byte4) : byte4 :=
  if depth =? 4 then tile.AlphaBlend src dst
  else if depth =? 3 then let '(r, g, b, _) := src in (r, g, b, 255)
  else let '(v, _, _, _) := src in (v, v, v, 255).

(** [b'] is [b] with the tile pixels [tbuf] (rows of [tw] pixels) put by
    [f] on the canvas pixels of the region [R], and nothing else changed. *)
Definition placed_on (f : byte4 -> byte4 -> byte4) (tbuf : list Z) (tw : Z)
  (xoff yoff width height : Z) (R : Z -> Z -> Prop) (b b' : list Z) : Prop :=
  (length b' = length b :> nat) /\
  forall px py, 0 <= px < width -> 0 <= py < height ->
    (R px py ->
       get4 b' (py * width + px) =
       f (get4 tbuf ((py - yoff) * tw + (px - xoff))) (get4 b (py * width + px))) /\
    (~ R px py -> get4 b' (py * width + px) = get4 b (py * width + px)).

(** A tile whose pixels are all fully opaque. *)
Definition opaque (tw th : Z) (tbuf : list Z) : Prop :=
  forall q, 0 <= q < tw * th ->
    exists r g b, get4 tbuf q = (r, g, b, 255) /\
                  Go.is_byte r /\ Go.is_byte g /\ Go.is_byte b.

(** The compositing rule in the words of the specification (section
    4.3), on binary64: channels normalized to [0, 1] and premultiplied by
    their alpha, then [a_out] and [c_out]; the output is turned back to
    8 bits by scaling with 255 and truncating. *)
Module PorterDuff.

Definition normalized (c : Z) : float := (Go.float64 c / 255)%float.

Definition premultiplied (c a : Z) : float := (normalized c * normalized a)%float.

Definition a_out (as_ ad : float) : float := (as_ * (1 - ad) + ad)%float.

Definition c_out (cs cd ad aout : float) : float := ((cs * (1 - ad) + cd) / aout)%float.

Definition quantize (x : float) : Z := Go.byte (x * 255)%float.

Definition channel (cs as_ cd ad : Z) : Z :=
  quantize (c_out (premultiplied cs as_) (premultiplied cd ad) (normalized ad)
              (a_out (normalized as_) (normalized ad))).

Definition over (src dst : byte4) : byte4 :=
  let '(rs, gs, bs, as_) := src in
  let '(rd, gd, bd, ad) := dst in
  let aout := a_out (normalized as_) (normalized ad) in
  if (0 <? aout)%float then
    (channel rs as_ rd ad, channel gs as_ gd ad, channel bs as_ bd ad, quantize aout)
  else (0, 0, 0, 0).

End PorterDuff.

(** The 256 byte values. *)
Definition bytes : list Z := seqZ 0 256.

(** Claim C4 as the specification states it: of two opaque tiles placed
    one after the other, the later one shows on every canvas pixel both
    cover. *)
Definition later_opaque_tile_occludes : Prop :=
  forall (A B : stitcher.ImageData.t) (xa ya xb yb width height : Z) (canvas c1 c2 : list Z),
    raster (stitcher.ImageData.width A) (stitcher.ImageData.height A) (stitcher.ImageData.buf A) ->
    raster (stitcher.ImageData.width B) (stitcher.ImageData.height B) (stitcher.ImageData.buf B) ->
    opaque (stitcher.ImageData.width A) (stitcher.ImageData.height A) (stitcher.ImageData.buf A) ->
    opaque (stitcher.ImageData.width B) (stitcher.ImageData.height B) (stitcher.ImageData.buf B) ->
    raster width height canvas ->
    stitcher.copyTileToBuffer A canvas xa ya width height = Done c1 ->
    stitcher.copyTileToBuffer B c1 xb yb width height = Done c2 ->
    forall px py, 0 <= px < width -> 0 <= py < height ->
      covers xa ya (stitcher.ImageData.width A) (stitcher.ImageData.height A) px py ->
      covers xb yb (stitcher.ImageData.width B) (stitcher.ImageData.height B) px py ->
      get4 c2 (py * width + px) =
      get4 (stitcher.ImageData.buf B) ((py - yb) * stitcher.ImageData.width B + (px - xb)).

(** A run of [Stitch] that goes through its whole tile grid, and the
    state of the loops at their end: the grid is resolved, the canvas is
    not too large, and no context error ends the loops early. *)
Definition full_grid (w : World) (opts : stitcher.Options.t) (p : Plan.t)
  (st : stitcher.Loop.t) : Prop :=
  stitcher.resolve w opts = Done p /\
  Plan.width p * Plan.height p <= 10000 * 10000 /\
  exists buf,
    make (Go.int (Go.int (Plan.width p * Plan.height p) * 4)) = Done buf /\
    stitcher.tiles w opts p (stitcher.start buf) = Done (Go.Next st).

(** The number of tile index positions of a grid. *)
Definition positions (p : Plan.t) : Z :=
  Z.of_nat (length (Go.range_le (Plan.ty1 p) (Plan.ty2 p))) *
  Z.of_nat (length (Go.range_le (Plan.tx1 p) (Plan.tx2 p))).

(** Claim C1 as the specification states its last case: a run that passes
    the failure policy returns a result together with the failure
    details, that is, the failure details can be read off what [Stitch]
    returns. *)
Definition partial_success_returns_failures : Prop :=
  exists details : stitcher.returned -> list stitcher.FailedTile.t,
    forall w opts p st,
      full_grid w opts p st ->
      stitcher.Loop.successfulTiles st <> 0 ->
      Z.of_nat (length (stitcher.Loop.failedTiles st)) <= stitcher.totalTiles opts p ÷ 2 ->
      exists ret,
        stitcher.Stitch w opts = Done (stitcher.Loop.requests st, ret) /\
        is_Some ret.1 /\
        details ret = stitcher.Loop.failedTiles st.

(** Claim C2 as the specification states it: [totalTiles] is the number
    of positions whatever the number of templates, and a position where
    every template fails adds one entry to the ledger. *)
Definition total_counts_positions : Prop :=
  forall w opts p,
    stitcher.resolve w opts = Done p ->
    stitcher.totalTiles opts p = positions p.

Definition failed_position_one_entry : Prop :=
  forall w opts tx ty xoff yoff width height st st',
    stitcher.tryURLs w opts tx ty xoff yoff width height
      (stitcher.Options.TileURLs opts) st = Done (Go.Next (st', false)) ->
    length (stitcher.Loop.failedTiles st') = S (length (stitcher.Loop.failedTiles st)).

(** *** Text *)

(** The number a string of decimal digits writes, read from the left
    after the digits [v]. *)
Fixpoint decimal_from (v : Z) (s : string) : Z :=
  match s with
  | EmptyString => v
  | String c s' => decimal_from (v * 10 + (Z.of_nat (nat_of_ascii c) - 48)) s'
  end.


Definition newline : ascii := "010"%char.

(** The lines of a text, each ended by a newline (a last line without
    one is kept as it is). *)
Fixpoint split_lines_from (cur : string) (s : string) : list string :=
  match s with
  | EmptyString => if String.eqb cur EmptyString then [] else [cur]
  | String c s' =>
      if Ascii.eqb c newline then cur :: split_lines_from EmptyString s'
      else split_lines_from (String.append cur (String c EmptyString)) s'
  end.

Definition split_lines (s : string) : list string := split_lines_from EmptyString s.

(** The text whose lines are [ls], each ended by a newline. *)
Fixpoint unlines (ls : list string) : string :=
  match ls with
  | [] => EmptyString
  | l :: ls' => String.append l (String newline (unlines ls'))
  end.

Fixpoint string_forall (P : ascii -> bool) (s : string) : bool :=
  match s with
  | EmptyString => true
  | String c s' => P c && string_forall P s'
  end.

Definition is_digit (c : ascii) : bool :=
  (48 <=? Z.of_nat (nat_of_ascii c)) && (Z.of_nat (nat_of_ascii c) <=? 57).

Definition not_newline (c : ascii) : bool := negb (Ascii.eqb c newline).

Definition no_digit (c : ascii) : bool := negb (is_digit c).

(** A line in fixed notation with [prec] fractional digits: some text
    without a newline, a point, and [prec] decimal digits. *)
Definition fixed_point_line (prec : nat) (l : string) : Prop :=
  exists pre frac,
    l = String.append pre (String "."%char frac) /\
    string_forall not_newline pre = true /\
    String.length frac = prec /\ string_forall is_digit frac = true.

(** A [float64] that [%24.10f] prints in 24 characters: finite, and
    after rounding to 10 decimals below [10^13], or below [10^12] when
    the sign bit is set (the sign takes one character). *)
Definition fits_24_10 (x : float) : bool :=
  match Prim2SF x with
  | S754_zero _ => true
  | S754_finite s m e => Go.scaled 10 m e <? (if s then 10 ^ 22 else 10 ^ 23)
  | _ => false
  end.

(** Claim C8 as the specification states it, for all [float64] inputs. *)
Definition world_file_six_lines_of_24 : Prop :=
  forall px py minx maxy : float,
    let ls := split_lines (stitcher.generateWorldFile px py minx maxy) in
    length ls = 6%nat /\
    Forall (fun l => String.length l = 24%nat /\ fixed_point_line 10 l) ls.

(* ================================================================== *)
(** ** Sample runs *)

(** A platform whose [math] functions are constant: the centre of the
    map, [(0, 0)], is then at the fixed-point coordinate [(2^31, 2^31)]. *)
Definition flat_math : Go.Math :=
  {| Go.Log := fun _ => 0%float; Go.Tan := fun _ => 0%float;
     Go.Cos := fun _ => 1%float; Go.Atan := fun _ => 0%float;
     Go.Sinh := fun _ => 0%float |}.

(** A toy codec: after the magic bytes come the colour and the side of a
    square image of one colour; the encoder returns the canvas as it is. *)
Definition toy_image (r g b a side : Z) : Image :=
  {| Dx := side; Dy := side; At := fun _ _ => (r * 257, g * 257, b * 257, a * 257) |}.

Definition toy_png_Decode (data : list Z) : string + Image :=
  match data with
  | [_; _; _; _; r; g; b; a; side] => inr (toy_image r g b a side)
  | _ => inl "png: invalid format"%string
  end.

Definition toy_jpeg_Decode (data : list Z) : string + Image :=
  match data with
  | [_; _; r; g; b; side] => inr (toy_image r g b 255 side)
  | _ => inl "invalid JPEG format"%string
  end.

Definition png_body (r g b a side : Z) : list Z := [0x89; 0x50; 0x4E; 0x47; r; g; b; a; side].

Definition ok (body : list Z) : string + Response :=
  inr {| StatusCode := 200; Status := "200 OK"; Body := inr body |}.

Definition not_found : string + Response :=
  inr {| StatusCode := 404; Status := "404 Not Found"; Body := inr [] |}.

(** A world around a tile server [serve]; nothing is cancelled, files can
    be created. *)
Definition toy_world (serve : string -> string + Response) : World :=
  {| math := flat_math;
     client_Do := fun _ url _ => serve url;
     png_Decode := toy_png_Decode;
     jpeg_Decode := toy_jpeg_Decode;
     png_Encode := fun buf _ _ => inr buf;
     ctx_Done := fun _ => None;
     stdout_is_terminal := false;
     os_Create := fun _ => None |}.

Definition jpeg_body (r g b side : Z) : list Z := [0xFF; 0xD8; r; g; b; side].

(** Servers: host [a] serves red PNG tiles of 2x2 pixels, host [b] blue
    ones, host [j] green JPEG tiles, and every other host answers 404;
    [red_but] answers one URL in another way. *)
Definition hosts (url : string) : string + Response :=
  if String.prefix "http://a/" url then ok (png_body 255 0 0 255 2)
  else if String.prefix "http://b/" url then ok (png_body 0 0 255 255 2)
  else if String.prefix "http://j/" url then ok (jpeg_body 0 255 0 2)
  else not_found.

Definition red_but (other : string) (answer : string + Response) (url : string)
  : string + Response :=
  if String.eqb url other then answer else hosts url.

(** A request centred on [(0, 0)].  At zoom 1 with tiles of 2x2 pixels
    and [side = 256] the grid has 2x2 tile positions and the canvas 2x2
    pixels, one pixel of each tile. *)
Definition centred (zoom tileSize side : Z) (urls : list string) (format : Z)
  : stitcher.Options.t :=
  {| stitcher.Options.MinLat := 0; stitcher.Options.MinLon := 0;
     stitcher.Options.MaxLat := 0; stitcher.Options.MaxLon := 0;
     stitcher.Options.CenterLat := 0; stitcher.Options.CenterLon := 0;
     stitcher.Options.Width := side; stitcher.Options.Height := side;
     stitcher.Options.Zoom := zoom;
     stitcher.Options.TileURLs := urls;
     stitcher.Options.TileSize := tileSize;
     stitcher.Options.OutputFormat := format;
     stitcher.Options.GenerateWorldFile := false;
     stitcher.Options.Headers := [];
     stitcher.Options.Mode := stitcher.ModeCentered |}.

(** A request centred on the equator at longitude [lon]. *)
Definition centred_at (lon : float) (zoom tileSize side : Z) (urls : list string)
  : stitcher.Options.t :=
  {| stitcher.Options.MinLat := 0; stitcher.Options.MinLon := 0;
     stitcher.Options.MaxLat := 0; stitcher.Options.MaxLon := 0;
     stitcher.Options.CenterLat := 0; stitcher.Options.CenterLon := lon;
     stitcher.Options.Width := side; stitcher.Options.Height := side;
     stitcher.Options.Zoom := zoom;
     stitcher.Options.TileURLs := urls;
     stitcher.Options.TileSize := tileSize;
     stitcher.Options.OutputFormat := stitcher.FormatPNG;
     stitcher.Options.GenerateWorldFile := false;
     stitcher.Options.Headers := [];
     stitcher.Options.Mode := stitcher.ModeCentered |}.
Definition cli (tileSize format : Z) : stitch.Stitcher.t :=
  stitch.NewStitcher
    {| tile.StitchOptions.Output := "out.png";
       tile.StitchOptions.TileSize := tileSize;
       tile.StitchOptions.Centered := true;
       tile.StitchOptions.Format := format;
       tile.StitchOptions.WriteWorldFile := false;
       tile.StitchOptions.UserAgent := EmptyString |}.

Definition url_a : string := "http://a/{z}/{x}/{y}.png".
Definition url_b : string := "http://b/{z}/{x}/{y}.png".
Definition url_j : string := "http://j/{z}/{x}/{y}.jpg".
Definition url_c : string := "http://c/{z}/{x}/{y}.png".
Definition url_d : string := "http://d/{z}/{x}/{y}.png".

(** ** Vocabulary and sample runs of Part III *)

(** The RGBA8 pixel the decoding loops make of the image pixel [(x, y)]:
    the high byte of each 16-bit channel, and [alpha] of the alpha
    channel. *)
Definition unpacked (img : Image) (alpha : Z -> Z) (x y : Z) : byte4 :=
  let '(r, g, b, a) := At img x y in
  (Z.shiftr r 8 mod 256, Z.shiftr g 8 mod 256, Z.shiftr b 8 mod 256, alpha a).

(** The image decoders return images that fit in memory: a size that is
    not negative, and fewer than [2^63] bytes of RGBA8 pixels. *)
Definition fits (img : Image) : Prop :=
  0 <= Dx img /\ 0 <= Dy img /\ Dx img * Dy img * 4 < 2 ^ 63.

Definition decodes_rasters (w : World) : Prop :=
  forall data img, png_Decode w data = inr img \/ jpeg_Decode w data = inr img -> fits img.

(** [Stitch] returns a result or an error, and not both. *)
Definition result_xor_error (ret : stitcher.returned) : Prop :=
  match ret with
  | (Some _, None) | (None, Some _) => True
  | _ => False
  end.

(** The counters of the tile loops after [k] tile positions: at most [k]
    tiles were placed, every request made ended as a placed tile or as
    one ledger entry, the ledger names requested URLs in the order of
    the requests, and no entry carries a status code. *)
Definition accounted (k : Z) (st : stitcher.Loop.t) : Prop :=
  0 <= stitcher.Loop.successfulTiles st <= k /\
  Z.of_nat (length (stitcher.Loop.requests st)) =
    Z.of_nat (length (stitcher.Loop.failedTiles st)) + stitcher.Loop.successfulTiles st /\
  sublist (map stitcher.FailedTile.URL (stitcher.Loop.failedTiles st))
          (stitcher.Loop.requests st) /\
  Forall (fun ft => stitcher.FailedTile.StatusCode ft = None)
         (stitcher.Loop.failedTiles st).

(** The URLs of the tile grid for one template, row by row. *)
Definition grid_urls (template : string) (zoom : Z) (p : Plan.t) : list string :=
  flat_map (fun ty => map (fun tx => stitcher.buildURL template zoom tx ty)
                          (Go.range_le (Plan.tx1 p) (Plan.tx2 p)))
           (Go.range_le (Plan.ty1 p) (Plan.ty2 p)).

(** Decoders for the sample runs that give tiles of 2x2 pixels of one
    colour, whatever the side the data names. *)
Definition solid_png_Decode (data : list Z) : string + Image :=
  match data with
  | [_; _; _; _; r; g; b; a; _] => inr (toy_image r g b a 2)
  | _ => inl "png: invalid format"%string
  end.

Definition solid_jpeg_Decode (data : list Z) : string + Image :=
  match data with
  | [_; _; r; g; b; _] => inr (toy_image r g b 255 2)
  | _ => inl "invalid JPEG format"%string
  end.

Definition solid_world (serve : string -> string + Response) : World :=
  {| math := flat_math;
     client_Do := fun _ url _ => serve url;
     png_Decode := solid_png_Decode;
     jpeg_Decode := solid_jpeg_Decode;
     png_Encode := fun buf _ _ => inr buf;
     ctx_Done := fun _ => None;
     stdout_is_terminal := false;
     os_Create := fun _ => None |}.

(** A request to the HTTP API centred on [(0, 0)]. *)
Definition centred_request (zoom side tileSize : Z) (url : string) (format : option string)
  : server.api.StitchRequest.t :=
  {| server.api.StitchRequest.Bbox := None;
     server.api.StitchRequest.Center :=
       Some {| server.api.CenterPoint.Height := side; server.api.CenterPoint.Lat := 0;
               server.api.CenterPoint.Lon := 0; server.api.CenterPoint.Width := side |};
     server.api.StitchRequest.Mode := server.api.Centered;
     server.api.StitchRequest.Output :=
       Some {| server.api.OutputOptions.Format := format;
               server.api.OutputOptions.GenerateWorldfile := None;
               server.api.OutputOptions.TileSize := Some tileSize |};
     server.api.StitchRequest.TileSource :=
       {| server.api.TileSource.Headers := None; server.api.TileSource.Name := None;
          server.api.TileSource.Url := url |};
     server.api.StitchRequest.Zoom := zoom |}.

(* ================================================================== *)
(** * Part II: properties *)

(** ** Machine arithmetic *)

Lemma int_id (x : Z) : Go.is_int x -> Go.int x = x.
Proof.
  unfold Go.is_int, Go.int. intros H.
  rewrite Z.mod_small by lia. lia.
Qed.

Lemma int_is_int (x : Z) : Go.is_int (Go.int x).
Proof.
  unfold Go.is_int, Go.int.
  pose proof (Z.mod_pos_bound (x + 2 ^ 63) (2 ^ 64)). lia.
Qed.

Lemma uint32_bound (x : Z) : 0 <= Go.uint32 x < 2 ^ 32.
Proof. unfold Go.uint32. apply Z.mod_pos_bound. lia. Qed.

(** When the sum of a loop counter and an [int] offset is not negative
    after wrap-around, it did not wrap. *)
Lemma int_add_nonneg (x off : Z) :
  0 <= x < 2 ^ 63 -> Go.is_int off -> 0 <= Go.int (x + off) -> Go.int (x + off) = x + off.
Proof.
  unfold Go.is_int, Go.int. intros Hx Ho H.
  destruct (Z_lt_ge_dec (x + off) (2 ^ 63)) as [Hlt|Hge].
  - rewrite Z.mod_small by lia. lia.
  - exfalso.
    replace (x + off + 2 ^ 63) with ((x + off - 2 ^ 63) + 1 * 2 ^ 64) in H by lia.
    rewrite Z.mod_add in H by lia.
    rewrite Z.mod_small in H by lia. lia.
Qed.

(** ** Loops *)

Lemma for_loop_inv {S : Type} (I : Z -> S -> Prop) (n : nat) (lo : Z)
  (body : Z -> S -> run S) (s : S) :
  I lo s ->
  (forall i s, lo <= i < lo + Z.of_nat n -> I i s ->
     exists s', body i s = Done s' /\ I (i + 1) s') ->
  exists s', Go.for_loop n lo body s = Done s' /\ I (lo + Z.of_nat n) s'.
Proof.
  revert lo s. induction n as [|n IH]; intros lo s H0 Hstep.
  - exists s. simpl. split; [done|]. by replace (lo + Z.of_nat 0) with lo by lia.
  - destruct (Hstep lo s) as (s1 & Hb & H1); [lia|done|].
    destruct (IH (lo + 1) s1) as (s2 & Hl & H2); [done| |].
    + intros i s' Hi. apply Hstep. lia.
    + exists s2. simpl. rewrite Hb. simpl. split; [done|].
      by replace (lo + Z.of_nat (Datatypes.S n)) with (lo + 1 + Z.of_nat n) by lia.
Qed.

Lemma for_lt_inv {S : Type} (I : Z -> S -> Prop) (hi : Z)
  (body : Z -> S -> run S) (s : S) :
  0 <= hi ->
  I 0 s ->
  (forall i s, 0 <= i < hi -> I i s -> exists s', body i s = Done s' /\ I (i + 1) s') ->
  exists s', Go.for_lt 0 hi body s = Done s' /\ I hi s'.
Proof.
  intros Hhi H0 Hstep. unfold Go.for_lt.
  destruct (for_loop_inv I (Z.to_nat (hi - 0)) 0 body s) as (s' & Hl & Hs); [done| |].
  - intros i s' Hi. apply Hstep. lia.
  - exists s'. split; [done|]. by replace hi with (0 + Z.of_nat (Z.to_nat (hi - 0))) at 1 by lia.
Qed.

(** ** Pixels of a buffer *)

Lemma index_in (l : list Z) (i : Z) :
  0 <= i < Z.of_nat (length l) -> Go.index l i = Done (l !!! Z.to_nat i).
Proof.
  intros Hi. unfold Go.index.
  destruct (Z.ltb_spec i 0) as [?|_]; [lia|].
  destruct (lookup_lt_is_Some_2 l (Z.to_nat i)) as [v Hv]; [lia|].
  rewrite Hv. by rewrite (list_lookup_total_correct _ _ _ Hv).
Qed.

Lemma store_in (l : list Z) (i v : Z) :
  0 <= i < Z.of_nat (length l) -> Go.store l i v = Done (<[Z.to_nat i := v]> l).
Proof.
  intros Hi. unfold Go.store.
  destruct (Z.ltb_spec i 0) as [?|_]; [lia|].
  destruct (Z.leb_spec (Z.of_nat (length l)) i) as [?|_]; [lia|]. done.
Qed.

Lemma load4_in (l : list Z) (q : Z) :
  0 <= q -> 4 * q + 4 <= Z.of_nat (length l) -> Z.of_nat (length l) < 2 ^ 63 ->
  load4 l (4 * q) = Done (get4 l q).
Proof.
  intros Hq Hl Hb. unfold load4, get4.
  rewrite !int_id by (unfold Go.is_int; lia).
  rewrite !index_in by lia. done.
Qed.

Lemma store4_in (l : list Z) (q : Z) (p : byte4) :
  0 <= q -> 4 * q + 4 <= Z.of_nat (length l) -> Z.of_nat (length l) < 2 ^ 63 ->
  store4 l (4 * q) p = Done (put4 l q p).
Proof.
  intros Hq Hl Hb. destruct p as [[[p0 p1] p2] p3]. unfold store4, put4.
  rewrite !int_id by (unfold Go.is_int; lia).
  rewrite store_in by lia. simpl.
  rewrite store_in by (rewrite length_insert; lia). simpl.
  rewrite store_in by (rewrite !length_insert; lia). simpl.
  rewrite store_in by (rewrite !length_insert; lia). done.
Qed.

Lemma length_put4 (l : list Z) (q : Z) (p : byte4) : length (put4 l q p) = length l.
Proof. destruct p as [[[p0 p1] p2] p3]. unfold put4. by rewrite !length_insert. Qed.

Lemma get4_put4 (l : list Z) (q : Z) (p : byte4) :
  0 <= q -> 4 * q + 4 <= Z.of_nat (length l) -> get4 (put4 l q p) q = p.
Proof.
  intros Hq Hl. destruct p as [[[p0 p1] p2] p3]. unfold get4, put4.
  assert (Hlen : forall (b : list Z) i v, length (<[i:=v]> b) = length b)
    by (intros; apply length_insert).
  repeat first
    [ rewrite list_lookup_total_insert_ne by lia
    | rewrite list_lookup_total_insert_eq by (rewrite ?Hlen; lia) ].
  done.
Qed.

Lemma get4_put4_ne (l : list Z) (q q' : Z) (p : byte4) :
  0 <= q -> 0 <= q' -> q <> q' -> get4 (put4 l q p) q' = get4 l q'.
Proof.
  intros Hq Hq' Hne. destruct p as [[[p0 p1] p2] p3]. unfold get4, put4.
  by rewrite !list_lookup_total_insert_ne by lia.
Qed.

(** Two rasters of the same size with the same pixels are equal. *)
Lemma raster_ext (n : Z) (b1 b2 : list Z) :
  Z.of_nat (length b1) = n * 4 -> Z.of_nat (length b2) = n * 4 ->
  (forall q, 0 <= q < n -> get4 b1 q = get4 b2 q) -> b1 = b2.
Proof.
  intros H1 H2 Hq. apply (list_eq_same_length _ _ (length b1)); [lia|done|].
  intros i x y Hi Hx Hy.
  specialize (Hq (Z.of_nat i / 4)).
  assert (Hr : 0 <= Z.of_nat i / 4 < n).
  { split; [apply Z.div_pos; lia|]. apply Z.div_lt_upper_bound; lia. }
  specialize (Hq Hr). unfold get4 in Hq.
  apply (list_lookup_total_correct b1) in Hx.
  apply (list_lookup_total_correct b2) in Hy.
  pose proof (Z.div_mod (Z.of_nat i) 4 ltac:(lia)) as Hdm.
  pose proof (Z.mod_pos_bound (Z.of_nat i) 4 ltac:(lia)) as Hm.
  assert (Hc : Z.of_nat i mod 4 = 0 \/ Z.of_nat i mod 4 = 1 \/
               Z.of_nat i mod 4 = 2 \/ Z.of_nat i mod 4 = 3) by lia.
  injection Hq as E0 E1 E2 E3.
  destruct Hc as [Hc|[Hc|[Hc|Hc]]].
  - replace i with (Z.to_nat (4 * (Z.of_nat i / 4))) in Hx, Hy by lia. congruence.
  - replace i with (Z.to_nat (4 * (Z.of_nat i / 4) + 1)) in Hx, Hy by lia. congruence.
  - replace i with (Z.to_nat (4 * (Z.of_nat i / 4) + 2)) in Hx, Hy by lia. congruence.
  - replace i with (Z.to_nat (4 * (Z.of_nat i / 4) + 3)) in Hx, Hy by lia. congruence.
Qed.

(** ** Placing a tile *)

Lemma cell_inj (width px py xd yd : Z) :
  0 <= px < width -> 0 <= xd < width ->
  py * width + px = yd * width + xd -> py = yd /\ px = xd.
Proof.
  intros Hp Hx He.
  assert (Hy : py = yd).
  { destruct (Z.lt_trichotomy py yd) as [Hlt|[Heq|Hgt]]; [exfalso|done|exfalso].
    - assert (0 <= (yd - py - 1) * width) by (apply Z.mul_nonneg_nonneg; lia). lia.
    - assert (0 <= (py - yd - 1) * width) by (apply Z.mul_nonneg_nonneg; lia). lia. }
  subst. lia.
Qed.

Section Blit.

Variables (tw th : Z) (tbuf : list Z).
Variable f : byte4 -> byte4 -> byte4.
Variable pixel : Z -> Z -> list Z -> run (list Z).
Variables (xoff yoff width height : Z).

Hypothesis Htile : raster tw th tbuf.
Hypothesis Hxoff : Go.is_int xoff.
Hypothesis Hyoff : Go.is_int yoff.
Hypothesis Hpixel : forall sq dq b,
  0 <= sq -> 4 * sq + 4 <= Z.of_nat (length tbuf) ->
  0 <= dq -> 4 * dq + 4 <= Z.of_nat (length b) -> Z.of_nat (length b) < 2 ^ 63 ->
  pixel (4 * sq) (4 * dq) b = Done (put4 b dq (f (get4 tbuf sq) (get4 b dq))).

Let placed := placed_on f tbuf tw xoff yoff width height.

Lemma blit_column (y x : Z) (b0 b : list Z) :
  raster width height b0 ->
  0 <= y < th -> 0 <= x < tw ->
  placed (fun px py => py = y + yoff /\ xoff <= px < xoff + x) b0 b ->
  exists b',
    (let xd := Go.int (x + xoff) in
     let yd := Go.int (y + yoff) in
     if (xd <? 0) || (yd <? 0) || (xd >=? width) || (yd >=? height)
     then Done b
     else
       let srcIdx := Go.int (Go.int (Go.int (y * tw) + x) * 4) in
       let dstIdx := Go.int (Go.int (Go.int (yd * width) + xd) * 4) in
       pixel srcIdx dstIdx b) = Done b' /\
    placed (fun px py => py = y + yoff /\ xoff <= px < xoff + (x + 1)) b0 b'.
Proof using Htile Hxoff Hyoff Hpixel.
  intros (Hw & Hh & Hlen & Hfit) Hy Hx (Hl & Hinv).
  destruct Htile as (Htw & Hth & Htlen & Htfit).
  assert (Hxr : 0 <= x < 2 ^ 63) by nia.
  assert (Hyr : 0 <= y < 2 ^ 63) by nia.
  cbv zeta.
  destruct ((Go.int (x + xoff) <? 0) || (Go.int (y + yoff) <? 0)
            || (Go.int (x + xoff) >=? width) || (Go.int (y + yoff) >=? height)) eqn:Hg.
  - (* the pixel falls outside the canvas *)
    exists b. split; [done|]. split; [done|].
    intros px py Hpx Hpy. destruct (Hinv px py Hpx Hpy) as [Hin Hout].
    split.
    + intros [Hrow Hcol].
      destruct (Z.eq_dec px (xoff + x)) as [->|Hne]; [|apply Hin; lia].
      exfalso. subst py.
      rewrite (int_id (x + xoff)) in Hg by (unfold Go.is_int; nia).
      rewrite (int_id (y + yoff)) in Hg by (unfold Go.is_int; nia).
      repeat (apply orb_true_iff in Hg; destruct Hg as [Hg|Hg]); lia.
    + intros Hn. apply Hout. lia.
  - (* the pixel is written *)
    repeat (apply orb_false_iff in Hg; destruct Hg as [Hg ?]).
    assert (Hxd : Go.int (x + xoff) = x + xoff) by (apply int_add_nonneg; [done|done|lia]).
    assert (Hyd : Go.int (y + yoff) = y + yoff) by (apply int_add_nonneg; [done|done|lia]).
    rewrite Hxd, Hyd in *.
    assert (Hsrc : 0 <= y * tw + x /\ 4 * (y * tw + x) + 4 <= tw * th * 4) by nia.
    assert (Hdst : 0 <= (y + yoff) * width + (x + xoff) /\
                   4 * ((y + yoff) * width + (x + xoff)) + 4 <= width * height * 4) by nia.
    rewrite (int_id (y * tw)) by (unfold Go.is_int; nia).
    rewrite (int_id (y * tw + x)) by (unfold Go.is_int; nia).
    rewrite (int_id ((y * tw + x) * 4)) by (unfold Go.is_int; nia).
    rewrite (int_id ((y + yoff) * width)) by (unfold Go.is_int; nia).
    rewrite (int_id ((y + yoff) * width + (x + xoff))) by (unfold Go.is_int; nia).
    rewrite (int_id (((y + yoff) * width + (x + xoff)) * 4)) by (unfold Go.is_int; nia).
    replace ((y * tw + x) * 4) with (4 * (y * tw + x)) by lia.
    replace (((y + yoff) * width + (x + xoff)) * 4)
      with (4 * ((y + yoff) * width + (x + xoff))) by lia.
    rewrite Hpixel by lia.
    eexists. split; [done|]. split; [by rewrite length_put4|].
    intros px py Hpx Hpy. destruct (Hinv px py Hpx Hpy) as [Hin Hout].
    destruct (Z.eq_dec (py * width + px) ((y + yoff) * width + (x + xoff))) as [He|Hne].
    + (* this very pixel *)
      apply cell_inj in He as [-> ->]; [|lia|lia].
      split; [|intros Hn; exfalso; apply Hn; lia].
      intros _.
      rewrite get4_put4 by lia.
      rewrite <- (proj2 (Hinv (x + xoff) (y + yoff) Hpx Hpy)) by lia.
      by replace ((y + yoff - yoff) * tw + (x + xoff - xoff)) with (y * tw + x) by lia.
    + rewrite get4_put4_ne by nia.
      split.
      * intros [Hrow Hcol]. apply Hin. split; [done|].
        destruct (Z.eq_dec px (xoff + x)) as [->|?]; [|lia].
        exfalso. apply Hne. subst py. lia.
      * intros Hn. apply Hout. lia.
Qed.

Lemma blit_spec (buf : list Z) :
  raster width height buf ->
  exists buf',
    blit tw th pixel buf xoff yoff width height = Done buf' /\
    placed (covers xoff yoff tw th) buf buf'.
Proof using Htile Hxoff Hyoff Hpixel.
  intros Hbuf. unfold blit.
  destruct Htile as (Htw & Hth & _).
  match goal with |- exists _, Go.for_lt 0 th ?body buf = _ /\ _ =>
    destruct (for_lt_inv
      (fun j b => placed (fun px py => xoff <= px < xoff + tw /\ yoff <= py < yoff + j) buf b)
      th body buf Hth) as (buf' & Hrun & Hpost)
  end.
  - split; [done|]. intros px py _ _. split; [lia|done].
  - (* one row *)
    intros y b0 Hy Hrows.
    assert (Hb0 : raster width height b0).
    { destruct Hbuf as (? & ? & ? & ?), Hrows as [Hl _]. unfold raster. rewrite Hl. done. }
    match goal with |- exists _, Go.for_lt 0 tw ?body b0 = _ /\ _ =>
      destruct (for_lt_inv
        (fun k b => placed (fun px py => py = y + yoff /\ xoff <= px < xoff + k) b0 b)
        tw body b0 Htw) as (b1 & Hrun & Hrow)
    end.
    + split; [done|]. intros px py _ _. split; [lia|done].
    + intros x b Hx Hcols. by apply blit_column.
    + exists b1. split; [exact Hrun|].
      destruct Hrows as [Hl0 Hrows], Hrow as [Hl1 Hrow].
      split; [congruence|].
      intros px py Hpx Hpy.
      destruct (Hrows px py Hpx Hpy) as [Hin0 Hout0].
      destruct (Hrow px py Hpx Hpy) as [Hin1 Hout1].
      split.
      * intros [Hcol Hr].
        destruct (Z.eq_dec py (y + yoff)) as [->|Hne].
        -- rewrite Hin1 by lia. rewrite Hout0 by lia. done.
        -- rewrite Hout1 by lia. apply Hin0. lia.
      * intros Hn. rewrite Hout1 by lia. apply Hout0. lia.
  - exists buf'. split; [exact Hrun|].
    destruct Hpost as [Hl Hpost]. split; [done|].
    intros px py Hpx Hpy. destruct (Hpost px py Hpx Hpy) as [Hin Hout].
    unfold covers. split; intros ?; [apply Hin|apply Hout]; tauto.
Qed.

End Blit.

(** ** The two pipelines place tiles with [blit] *)

Lemma copyTileToBuffer_blit (img : stitcher.ImageData.t) (buf : list Z)
  (xoff yoff width height : Z) :
  stitcher.copyTileToBuffer img buf xoff yoff width height =
  blit (stitcher.ImageData.width img) (stitcher.ImageData.height img)
    (fun srcIdx dstIdx buf =>
       src ← load4 (stitcher.ImageData.buf img) srcIdx;
       dst ← load4 buf dstIdx;
       store4 buf dstIdx (stitcher.alphaBlend src dst))
    buf xoff yoff width height.
Proof. reflexivity. Qed.

Lemma place_blit (img : tile.ImageData.t) (buf : list Z)
  (xoff yoff width height : Z) :
  stitch.place img buf xoff yoff width height =
  blit (tile.ImageData.Width img) (tile.ImageData.Height img)
    (fun srcIdx dstIdx buf =>
       if tile.ImageData.Depth img =? 4 then
         src ← load4 (tile.ImageData.Buf img) srcIdx;
         dst ← load4 buf dstIdx;
         store4 buf dstIdx (tile.AlphaBlend src dst)
       else if tile.ImageData.Depth img =? 3 then
         r ← Go.index (tile.ImageData.Buf img) srcIdx;
         buf ← Go.store buf dstIdx r;
         g ← Go.index (tile.ImageData.Buf img) (Go.int (srcIdx + 1));
         buf ← Go.store buf (Go.int (dstIdx + 1)) g;
         b ← Go.index (tile.ImageData.Buf img) (Go.int (srcIdx + 2));
         buf ← Go.store buf (Go.int (dstIdx + 2)) b;
         Go.store buf (Go.int (dstIdx + 3)) 255
       else
         val ← Go.index (tile.ImageData.Buf img) srcIdx;
         buf ← Go.store buf dstIdx val;
         buf ← Go.store buf (Go.int (dstIdx + 1)) val;
         buf ← Go.store buf (Go.int (dstIdx + 2)) val;
         Go.store buf (Go.int (dstIdx + 3)) 255)
    buf xoff yoff width height.
Proof. reflexivity. Qed.

Lemma copyTileToBuffer_spec (img : stitcher.ImageData.t) (buf : list Z)
  (xoff yoff width height : Z) :
  raster (stitcher.ImageData.width img) (stitcher.ImageData.height img)
         (stitcher.ImageData.buf img) ->
  raster width height buf ->
  Go.is_int xoff -> Go.is_int yoff ->
  exists buf',
    stitcher.copyTileToBuffer img buf xoff yoff width height = Done buf' /\
    placed_on stitcher.alphaBlend (stitcher.ImageData.buf img) (stitcher.ImageData.width img)
      xoff yoff width height
      (covers xoff yoff (stitcher.ImageData.width img) (stitcher.ImageData.height img))
      buf buf'.
Proof.
  intros Himg Hbuf Hx Hy. rewrite copyTileToBuffer_blit.
  apply (blit_spec _ _ _ _ _ _ _ _ _ Himg Hx Hy); [|done].
  intros sq dq b Hsq Hs Hdq Hd Hb.
  destruct Himg as (_ & _ & Hl & Hf).
  rewrite load4_in by lia. simpl.
  rewrite load4_in by lia. simpl.
  by rewrite store4_in by lia.
Qed.

Lemma place_spec (img : tile.ImageData.t) (buf : list Z)
  (xoff yoff width height : Z) :
  raster (tile.ImageData.Width img) (tile.ImageData.Height img) (tile.ImageData.Buf img) ->
  raster width height buf ->
  Go.is_int xoff -> Go.is_int yoff ->
  exists buf',
    stitch.place img buf xoff yoff width height = Done buf' /\
    placed_on (stitch_over (tile.ImageData.Depth img))
      (tile.ImageData.Buf img) (tile.ImageData.Width img)
      xoff yoff width height
      (covers xoff yoff (tile.ImageData.Width img) (tile.ImageData.Height img))
      buf buf'.
Proof.
  intros Himg Hbuf Hx Hy. rewrite place_blit.
  apply (blit_spec _ _ _ _ _ _ _ _ _ Himg Hx Hy); [|done].
  intros sq dq b Hsq Hs Hdq Hd Hb.
  destruct Himg as (_ & _ & Hl & Hf).
  unfold stitch_over.
  destruct (tile.ImageData.Depth img =? 4).
  { rewrite load4_in by lia. simpl.
    rewrite load4_in by lia. simpl.
    by rewrite store4_in by lia. }
  assert (Hlen : forall (l : list Z) i v, length (<[i:=v]> l) = length l)
    by (intros; apply length_insert).
  destruct (tile.ImageData.Depth img =? 3).
  - rewrite !int_id by (unfold Go.is_int; lia).
    repeat first [ rewrite index_in by lia
                 | rewrite store_in by (rewrite ?Hlen; lia)
                 | progress simpl ].
    unfold put4, get4. done.
  - rewrite !int_id by (unfold Go.is_int; lia).
    repeat first [ rewrite index_in by lia
                 | rewrite store_in by (rewrite ?Hlen; lia)
                 | progress simpl ].
    unfold put4, get4. done.
Qed.

(** C10.  Placing a decoded tile at any pair of [int] offsets, negative
    ones and ones that push part of the tile past the canvas edge
    included, returns without a panic (no access outside the buffers),
    keeps the size of the canvas, and leaves every canvas pixel outside
    the destination rectangle of the tile as it was.  This holds for
    [copyTileToBuffer] of the HTTP pipeline and for the copy loop of the
    CLI pipeline, whatever the channel depth. *)
Theorem tile_placement_frame (buf : list Z) (xoff yoff width height : Z) :
  raster width height buf ->
  Go.is_int xoff -> Go.is_int yoff ->
  (forall img : stitcher.ImageData.t,
     raster (stitcher.ImageData.width img) (stitcher.ImageData.height img)
            (stitcher.ImageData.buf img) ->
     exists buf',
       stitcher.copyTileToBuffer img buf xoff yoff width height = Done buf' /\
       length buf' = length buf /\
       forall px py, 0 <= px < width -> 0 <= py < height ->
         ~ covers xoff yoff (stitcher.ImageData.width img) (stitcher.ImageData.height img) px py ->
         get4 buf' (py * width + px) = get4 buf (py * width + px)) /\
  (forall img : tile.ImageData.t,
     raster (tile.ImageData.Width img) (tile.ImageData.Height img) (tile.ImageData.Buf img) ->
     exists buf',
       stitch.place img buf xoff yoff width height = Done buf' /\
       length buf' = length buf /\
       forall px py, 0 <= px < width -> 0 <= py < height ->
         ~ covers xoff yoff (tile.ImageData.Width img) (tile.ImageData.Height img) px py ->
         get4 buf' (py * width + px) = get4 buf (py * width + px)).
Proof.
  intros Hbuf Hx Hy. split; intros img Himg.
  - destruct (copyTileToBuffer_spec img buf xoff yoff width height Himg Hbuf Hx Hy)
      as (buf' & Hrun & Hlen & Hpix).
    exists buf'. split; [done|]. split; [done|].
    intros px py Hpx Hpy Hout. by apply Hpix.
  - destruct (place_spec img buf xoff yoff width height Himg Hbuf Hx Hy)
      as (buf' & Hrun & Hlen & Hpix).
    exists buf'. split; [done|]. split; [done|].
    intros px py Hpx Hpy Hout. by apply Hpix.
Qed.

(** A tile of 2x1 pixels hanging over the left edge of a canvas of 2x1
    pixels: its right pixel lands on the left pixel of the canvas, and
    the right pixel of the canvas stays. *)
Lemma tile_placement_frame_witness :
  (exists buf',
     stitcher.copyTileToBuffer
       {| stitcher.ImageData.buf := [255; 0; 0; 255; 0; 255; 0; 255];
          stitcher.ImageData.width := 2; stitcher.ImageData.height := 1;
          stitcher.ImageData.depth := 4 |}
       [0; 0; 0; 0; 9; 9; 9; 9] (-1) 0 2 1 = Done buf' /\
     get4 buf' 1 = (9, 9, 9, 9)) /\
  (exists buf',
     stitch.place
       {| tile.ImageData.Buf := [255; 0; 0; 255; 0; 255; 0; 255];
          tile.ImageData.Width := 2; tile.ImageData.Height := 1;
          tile.ImageData.Depth := 3 |}
       [0; 0; 0; 0; 9; 9; 9; 9] (-1) 0 2 1 = Done buf' /\
     get4 buf' 1 = (9, 9, 9, 9)).
Proof.
  destruct (tile_placement_frame [0; 0; 0; 0; 9; 9; 9; 9] (-1) 0 2 1) as [Hs Hc].
  - unfold raster; simpl; lia.
  - unfold Go.is_int; lia.
  - unfold Go.is_int; lia.
  - split.
    + destruct (Hs {| stitcher.ImageData.buf := [255; 0; 0; 255; 0; 255; 0; 255];
                      stitcher.ImageData.width := 2; stitcher.ImageData.height := 1;
                      stitcher.ImageData.depth := 4 |}) as (buf' & Hrun & _ & Hout).
      { unfold raster; simpl; lia. }
      exists buf'. split; [exact Hrun|].
      apply (Hout 1 0); unfold covers; simpl; lia.
    + destruct (Hc {| tile.ImageData.Buf := [255; 0; 0; 255; 0; 255; 0; 255];
                      tile.ImageData.Width := 2; tile.ImageData.Height := 1;
                      tile.ImageData.Depth := 3 |}) as (buf' & Hrun & _ & Hout).
      { unfold raster; simpl; lia. }
      exists buf'. split; [exact Hrun|].
      apply (Hout 1 0); unfold covers; simpl; lia.
Defined.

Example ex_copy_over_edge :
  stitcher.copyTileToBuffer
    {| stitcher.ImageData.buf := [255; 0; 0; 255; 0; 255; 0; 255];
       stitcher.ImageData.width := 2; stitcher.ImageData.height := 1;
       stitcher.ImageData.depth := 4 |}
    [0; 0; 0; 0; 9; 9; 9; 9] (-1) 0 2 1 = Done [0; 255; 0; 255; 9; 9; 9; 9].
Proof. vm_compute. reflexivity. Qed.

(** ** The blend *)

Lemma forall_bytes (P : Z -> bool) :
  forallb P bytes = true -> forall x, Go.is_byte x -> P x = true.
Proof.
  intros H x Hx. rewrite forallb_forall in H. apply H.
  apply list_elem_of_In, elem_of_seqZ. unfold Go.is_byte in Hx. lia.
Qed.

Lemma forall_bytes2 (P : Z -> Z -> bool) :
  forallb (fun x => forallb (P x) bytes) bytes = true ->
  forall x y, Go.is_byte x -> Go.is_byte y -> P x y = true.
Proof.
  intros H x y Hx Hy.
  apply (forall_bytes (P x)); [|done].
  by apply (forall_bytes (fun x => forallb (P x) bytes)).
Qed.

(** Both copies of the blend are the rule of the specification. *)
Lemma alphaBlend_over (src dst : byte4) : stitcher.alphaBlend src dst = PorterDuff.over src dst.
Proof. by destruct src as [[[? ?] ?] ?], dst as [[[? ?] ?] ?]. Qed.

Lemma AlphaBlend_over (src dst : byte4) : tile.AlphaBlend src dst = PorterDuff.over src dst.
Proof. by destruct src as [[[? ?] ?] ?], dst as [[[? ?] ?] ?]. Qed.

(** The output alpha is positive unless both alphas are 0, and then it
    is zero. *)
Lemma a_out_positive (as_ ad : Z) :
  Go.is_byte as_ -> Go.is_byte ad ->
  let aout := PorterDuff.a_out (PorterDuff.normalized as_) (PorterDuff.normalized ad) in
  (0 <? aout)%float = negb ((as_ =? 0) && (ad =? 0)) /\
  (as_ = 0 -> ad = 0 -> aout = 0%float).
Proof.
  intros Hs Hd. split.
  - apply Bool.eqb_prop.
    apply (forall_bytes2 (fun as_ ad => Bool.eqb
      (0 <? PorterDuff.a_out (PorterDuff.normalized as_) (PorterDuff.normalized ad))%float
      (negb ((as_ =? 0) && (ad =? 0))))); [|done|done].
    vm_compute. reflexivity.
  - intros -> ->. vm_compute. reflexivity.
Qed.

(** An opaque pixel over an opaque pixel: the pixel underneath stays. *)
Lemma channel_opaque_opaque (cs cd : Z) :
  Go.is_byte cs -> Go.is_byte cd -> PorterDuff.channel cs 255 cd 255 = cd.
Proof.
  intros Hs Hd. apply Z.eqb_eq.
  apply (forall_bytes2 (fun cs cd => PorterDuff.channel cs 255 cd 255 =? cd)); [|done|done].
  vm_compute. reflexivity.
Qed.

(** An opaque pixel over transparent black: the pixel itself. *)
Lemma channel_opaque_clear (cs : Z) :
  Go.is_byte cs -> PorterDuff.channel cs 255 0 0 = cs.
Proof.
  intros Hs. apply Z.eqb_eq.
  apply (forall_bytes (fun cs => PorterDuff.channel cs 255 0 0 =? cs)); [|done].
  vm_compute. reflexivity.
Qed.

Lemma alphaBlend_opaque_opaque (rs gs bs rd gd bd : Z) :
  Go.is_byte rs -> Go.is_byte gs -> Go.is_byte bs ->
  Go.is_byte rd -> Go.is_byte gd -> Go.is_byte bd ->
  stitcher.alphaBlend (rs, gs, bs, 255) (rd, gd, bd, 255) = (rd, gd, bd, 255).
Proof.
  intros. rewrite alphaBlend_over. unfold PorterDuff.over.
  replace (0 <? PorterDuff.a_out (PorterDuff.normalized 255) (PorterDuff.normalized 255))%float
    with true by (vm_compute; reflexivity).
  rewrite !channel_opaque_opaque by done.
  f_equal.
Qed.

Lemma alphaBlend_opaque_clear (rs gs bs : Z) :
  Go.is_byte rs -> Go.is_byte gs -> Go.is_byte bs ->
  stitcher.alphaBlend (rs, gs, bs, 255) (0, 0, 0, 0) = (rs, gs, bs, 255).
Proof.
  intros. rewrite alphaBlend_over. unfold PorterDuff.over.
  replace (0 <? PorterDuff.a_out (PorterDuff.normalized 255) (PorterDuff.normalized 0))%float
    with true by (vm_compute; reflexivity).
  rewrite !channel_opaque_clear by done.
  f_equal.
Qed.

(** C5.  For all RGBA8 pixels, both copies of the blend compute the rule
    of the specification: with the channels normalized to [0, 1] and
    premultiplied by their alphas, [a_out = as*(1-ad) + ad] and
    [c_out = (cs*(1-ad) + cd) / a_out] when [a_out > 0], and transparent
    black otherwise.  [a_out > 0] fails exactly when both alphas are 0,
    and [a_out] is then zero.  The alpha byte written is the exact value
    [255 * a_out] truncated, or one less where binary64 rounding falls
    just below an integer. *)
Theorem alphaBlend_is_porter_duff (src dst : byte4) :
  is_byte4 src -> is_byte4 dst ->
  stitcher.alphaBlend src dst = PorterDuff.over src dst /\
  tile.AlphaBlend src dst = PorterDuff.over src dst /\
  let as_ := src.2 in
  let ad := dst.2 in
  let aout := PorterDuff.a_out (PorterDuff.normalized as_) (PorterDuff.normalized ad) in
  ((0 <? aout)%float = true <-> ~ (as_ = 0 /\ ad = 0)) /\
  (as_ = 0 -> ad = 0 ->
     aout = 0%float /\ stitcher.alphaBlend src dst = (0, 0, 0, 0)) /\
  (255 * (stitcher.alphaBlend src dst).2 <= 255 * (as_ + ad) - as_ * ad
     <= 255 * (stitcher.alphaBlend src dst).2 + 255).
Proof.
  destruct src as [[[rs gs] bs] as_], dst as [[[rd gd] bd] ad].
  intros (_ & _ & _ & Hs) (_ & _ & _ & Hd).
  split; [apply alphaBlend_over|]. split; [apply AlphaBlend_over|].
  cbn [snd].
  destruct (a_out_positive as_ ad Hs Hd) as [Hpos Hzero].
  split; [|split].
  - rewrite Hpos. rewrite negb_true_iff, andb_false_iff, !Z.eqb_neq. lia.
  - intros -> ->. split; [by apply Hzero|]. vm_compute. reflexivity.
  - rewrite alphaBlend_over. unfold PorterDuff.over. cbn [snd].
    assert (H : (if (0 <? PorterDuff.a_out (PorterDuff.normalized as_)
                            (PorterDuff.normalized ad))%float
                 then PorterDuff.quantize
                        (PorterDuff.a_out (PorterDuff.normalized as_)
                           (PorterDuff.normalized ad))
                 else 0) * 255 <= 255 * (as_ + ad) - as_ * ad
                <= (if (0 <? PorterDuff.a_out (PorterDuff.normalized as_)
                               (PorterDuff.normalized ad))%float
                    then PorterDuff.quantize
                           (PorterDuff.a_out (PorterDuff.normalized as_)
                              (PorterDuff.normalized ad))
                    else 0) * 255 + 255).
    { pose proof (forall_bytes2 (fun as_ ad =>
        let out := if (0 <? PorterDuff.a_out (PorterDuff.normalized as_)
                             (PorterDuff.normalized ad))%float
                   then PorterDuff.quantize
                          (PorterDuff.a_out (PorterDuff.normalized as_)
                             (PorterDuff.normalized ad))
                   else 0 in
        (out * 255 <=? 255 * (as_ + ad) - as_ * ad)
        && (255 * (as_ + ad) - as_ * ad <=? out * 255 + 255))
        ltac:(vm_compute; reflexivity) as_ ad Hs Hd) as Hb.
      cbv zeta in Hb. apply andb_true_iff in Hb as [H1 H2].
      apply Z.leb_le in H1, H2. lia. }
    destruct (0 <? PorterDuff.a_out (PorterDuff.normalized as_)
                     (PorterDuff.normalized ad))%float; cbn [snd]; lia.
Qed.

Lemma alphaBlend_is_porter_duff_witness :
  stitcher.alphaBlend (255, 0, 0, 128) (0, 0, 255, 128) = (84, 0, 170, 191) /\
  PorterDuff.over (255, 0, 0, 128) (0, 0, 255, 128) = (84, 0, 170, 191).
Proof.
  destruct (alphaBlend_is_porter_duff (255, 0, 0, 128) (0, 0, 255, 128)) as (H1 & _).
  - unfold is_byte4, Go.is_byte. lia.
  - unfold is_byte4, Go.is_byte. lia.
  - split; [|rewrite <- H1]; vm_compute; reflexivity.
Defined.

(** ** Overlapping and disjoint placements *)

Lemma make_fresh (n : Z) (canvas : list Z) (q : Z) :
  make n = Done canvas -> 0 <= q -> 4 * q + 4 <= n -> get4 canvas q = (0, 0, 0, 0).
Proof.
  unfold make. destruct (n <? 0); [done|]. intros [= <-] Hq Hn.
  unfold get4. by rewrite !lookup_total_replicate_2 by lia.
Qed.

Lemma raster_same_length (width height : Z) (b b' : list Z) :
  raster width height b -> length b' = length b -> raster width height b'.
Proof. unfold raster. intros (? & ? & ? & ?) ->. done. Qed.

Lemma covers_index (xoff yoff tw th px py : Z) :
  covers xoff yoff tw th px py -> 0 <= (py - yoff) * tw + (px - xoff) < tw * th.
Proof. unfold covers. intros [Hx Hy]. nia. Qed.

(** Placing two tiles whose destination rectangles share no canvas pixel
    gives the same canvas in either order. *)
Lemma disjoint_placements_commute (A B : stitcher.ImageData.t)
  (xa ya xb yb width height : Z) (canvas : list Z) :
  raster (stitcher.ImageData.width A) (stitcher.ImageData.height A) (stitcher.ImageData.buf A) ->
  raster (stitcher.ImageData.width B) (stitcher.ImageData.height B) (stitcher.ImageData.buf B) ->
  raster width height canvas ->
  Go.is_int xa -> Go.is_int ya -> Go.is_int xb -> Go.is_int yb ->
  (forall px py, 0 <= px < width -> 0 <= py < height ->
     ~ (covers xa ya (stitcher.ImageData.width A) (stitcher.ImageData.height A) px py /\
        covers xb yb (stitcher.ImageData.width B) (stitcher.ImageData.height B) px py)) ->
  exists c,
    (c1 ← stitcher.copyTileToBuffer A canvas xa ya width height;
     stitcher.copyTileToBuffer B c1 xb yb width height) = Done c /\
    (c1 ← stitcher.copyTileToBuffer B canvas xb yb width height;
     stitcher.copyTileToBuffer A c1 xa ya width height) = Done c.
Proof.
  intros HA HB Hc Hxa Hya Hxb Hyb Hdisj.
  destruct (copyTileToBuffer_spec A canvas xa ya width height HA Hc Hxa Hya)
    as (c1 & Hr1 & Hl1 & Hp1).
  destruct (copyTileToBuffer_spec B c1 xb yb width height HB
              (raster_same_length _ _ _ _ Hc Hl1) Hxb Hyb) as (c2 & Hr2 & Hl2 & Hp2).
  destruct (copyTileToBuffer_spec B canvas xb yb width height HB Hc Hxb Hyb)
    as (d1 & Hs1 & Hm1 & Hq1).
  destruct (copyTileToBuffer_spec A d1 xa ya width height HA
              (raster_same_length _ _ _ _ Hc Hm1) Hxa Hya) as (d2 & Hs2 & Hm2 & Hq2).
  exists c2. rewrite Hr1, Hs1. simpl. split; [done|]. rewrite Hs2. f_equal.
  destruct Hc as (Hw & Hh & Hlen & Hfit).
  apply (raster_ext (width * height)); [lia|lia|].
  intros q Hq.
  assert (Hwpos : 0 < width) by nia.
  set (px := q mod width). set (py := q / width).
  assert (Hpx : 0 <= px < width) by (apply Z.mod_pos_bound; lia).
  assert (Hpy : 0 <= py < height).
  { split; [apply Z.div_pos; lia|]. apply Z.div_lt_upper_bound; lia. }
  replace q with (py * width + px) by (unfold px, py; pose proof (Z.div_mod q width); lia).
  specialize (Hdisj px py Hpx Hpy).
  destruct (Hp1 px py Hpx Hpy) as [Hp1i Hp1o], (Hp2 px py Hpx Hpy) as [Hp2i Hp2o].
  destruct (Hq1 px py Hpx Hpy) as [Hq1i Hq1o], (Hq2 px py Hpx Hpy) as [Hq2i Hq2o].
  destruct (decide (xa <= px < xa + stitcher.ImageData.width A /\
                    ya <= py < ya + stitcher.ImageData.height A)) as [Ha|Hna];
  destruct (decide (xb <= px < xb + stitcher.ImageData.width B /\
                    yb <= py < yb + stitcher.ImageData.height B)) as [Hb|Hnb].
  - exfalso. by apply Hdisj.
  - rewrite Hq2i, Hq1o, Hp2o, Hp1i by done. done.
  - rewrite Hq2o, Hq1i, Hp2i, Hp1o by done. done.
  - rewrite Hq2o, Hq1o, Hp2o, Hp1o by done. done.
Qed.

(** How far the blend of [copyTileToBuffer] departs from "later wins":
    it puts the canvas over the incoming tile, so of two opaque tiles
    placed one after the other on a fresh canvas, the earlier one shows
    on every canvas pixel it covers, and the later one only where the
    earlier one left the canvas transparent.  Placements whose
    destination rectangles share no canvas pixel give the same canvas in
    either order (lemma [disjoint_placements_commute], for any tiles and
    any canvas). *)
Lemma opaque_overlap_keeps_earlier (A B : stitcher.ImageData.t)
  (xa ya xb yb width height : Z) (canvas : list Z) :
  raster (stitcher.ImageData.width A) (stitcher.ImageData.height A) (stitcher.ImageData.buf A) ->
  raster (stitcher.ImageData.width B) (stitcher.ImageData.height B) (stitcher.ImageData.buf B) ->
  opaque (stitcher.ImageData.width A) (stitcher.ImageData.height A) (stitcher.ImageData.buf A) ->
  opaque (stitcher.ImageData.width B) (stitcher.ImageData.height B) (stitcher.ImageData.buf B) ->
  raster width height canvas ->
  make (width * height * 4) = Done canvas ->
  Go.is_int xa -> Go.is_int ya -> Go.is_int xb -> Go.is_int yb ->
  (exists c1 c2,
     stitcher.copyTileToBuffer A canvas xa ya width height = Done c1 /\
     stitcher.copyTileToBuffer B c1 xb yb width height = Done c2 /\
     forall px py, 0 <= px < width -> 0 <= py < height ->
       (covers xa ya (stitcher.ImageData.width A) (stitcher.ImageData.height A) px py ->
          get4 c2 (py * width + px) =
          get4 (stitcher.ImageData.buf A) ((py - ya) * stitcher.ImageData.width A + (px - xa))) /\
       (~ covers xa ya (stitcher.ImageData.width A) (stitcher.ImageData.height A) px py ->
        covers xb yb (stitcher.ImageData.width B) (stitcher.ImageData.height B) px py ->
          get4 c2 (py * width + px) =
          get4 (stitcher.ImageData.buf B) ((py - yb) * stitcher.ImageData.width B + (px - xb)))) /\
  ((forall px py, 0 <= px < width -> 0 <= py < height ->
      ~ (covers xa ya (stitcher.ImageData.width A) (stitcher.ImageData.height A) px py /\
         covers xb yb (stitcher.ImageData.width B) (stitcher.ImageData.height B) px py)) ->
   exists c,
     (c1 ← stitcher.copyTileToBuffer A canvas xa ya width height;
      stitcher.copyTileToBuffer B c1 xb yb width height) = Done c /\
     (c1 ← stitcher.copyTileToBuffer B canvas xb yb width height;
      stitcher.copyTileToBuffer A c1 xa ya width height) = Done c).
Proof.
  intros HA HB HoA HoB Hc Hmake Hxa Hya Hxb Hyb.
  split; [|by apply disjoint_placements_commute].
  destruct (copyTileToBuffer_spec A canvas xa ya width height HA Hc Hxa Hya)
    as (c1 & Hr1 & Hl1 & Hp1).
  destruct (copyTileToBuffer_spec B c1 xb yb width height HB
              (raster_same_length _ _ _ _ Hc Hl1) Hxb Hyb) as (c2 & Hr2 & Hl2 & Hp2).
  exists c1, c2. split; [done|]. split; [done|].
  intros px py Hpx Hpy.
  destruct (Hp1 px py Hpx Hpy) as [Hp1i Hp1o], (Hp2 px py Hpx Hpy) as [Hp2i Hp2o].
  assert (Hfresh : get4 canvas (py * width + px) = (0, 0, 0, 0)).
  { apply (make_fresh _ _ _ Hmake); nia. }
  split.
  - intros Ha.
    destruct (HoA _ (covers_index _ _ _ _ _ _ Ha)) as (ra & ga & ba & Epa & ? & ? & ?).
    assert (E1 : get4 c1 (py * width + px) = (ra, ga, ba, 255)).
    { rewrite Hp1i, Epa, Hfresh by done. by apply alphaBlend_opaque_clear. }
    rewrite Epa.
    destruct (decide (covers xb yb (stitcher.ImageData.width B)
                        (stitcher.ImageData.height B) px py)) as [Hb|Hnb].
    + destruct (HoB _ (covers_index _ _ _ _ _ _ Hb)) as (rb & gb & bb & Epb & ? & ? & ?).
      rewrite Hp2i, Epb, E1 by done. by apply alphaBlend_opaque_opaque.
    + by rewrite Hp2o.
  - intros Hna Hb.
    destruct (HoB _ (covers_index _ _ _ _ _ _ Hb)) as (rb & gb & bb & Epb & ? & ? & ?).
    rewrite Hp2i, Hp1o, Epb, Hfresh by done. by apply alphaBlend_opaque_clear.
Qed.

Lemma opaque_pixel (r g b : Z) :
  Go.is_byte r -> Go.is_byte g -> Go.is_byte b -> opaque 1 1 [r; g; b; 255].
Proof.
  intros Hr Hg Hb q Hq. assert (q = 0) as -> by lia.
  exists r, g, b. done.
Qed.

(** The statement of C4 does not hold of [copyTileToBuffer]: a red opaque
    tile, then a blue opaque tile on the same pixel of a fresh canvas;
    the pixel stays red. *)
Lemma later_opaque_tile_occludes_fails : ~ later_opaque_tile_occludes.
Proof.
  intros H.
  unshelve epose proof (H
    {| stitcher.ImageData.buf := [255; 0; 0; 255]; stitcher.ImageData.width := 1;
       stitcher.ImageData.height := 1; stitcher.ImageData.depth := 4 |}
    {| stitcher.ImageData.buf := [0; 0; 255; 255]; stitcher.ImageData.width := 1;
       stitcher.ImageData.height := 1; stitcher.ImageData.depth := 4 |}
    0 0 0 0 1 1 [0; 0; 0; 0] [255; 0; 0; 255] [255; 0; 0; 255]
    _ _ _ _ _ _ _ 0 0 _ _ _ _) as E; simpl;
  try first [ unfold raster; simpl; lia
            | apply opaque_pixel; unfold Go.is_byte; lia
            | unfold covers; simpl; lia
            | vm_compute; reflexivity ].
  vm_compute in E. discriminate E.
Qed.

(** C4.  Two fully opaque tiles of one pixel on the same pixel of a fresh
    canvas, red first and blue second.  [copyTileToBuffer] leaves the
    pixel red, and so does the copy loop of the CLI for tiles of depth 4:
    both hand the tile pixel to the blend as [src] and the canvas pixel
    as [dst], and the blend puts [dst] on top.  The sibling branch of the
    CLI for tiles of depth 3 makes the pixel blue: there the later tile
    wins.  A CLI run with a red and a blue PNG template writes a red
    image. *)
Theorem later_opaque_tile_hidden :
  (c1 ← stitcher.copyTileToBuffer
          {| stitcher.ImageData.buf := [255; 0; 0; 255]; stitcher.ImageData.width := 1;
             stitcher.ImageData.height := 1; stitcher.ImageData.depth := 4 |}
          [0; 0; 0; 0] 0 0 1 1;
   stitcher.copyTileToBuffer
     {| stitcher.ImageData.buf := [0; 0; 255; 255]; stitcher.ImageData.width := 1;
        stitcher.ImageData.height := 1; stitcher.ImageData.depth := 4 |}
     c1 0 0 1 1) = Done [255; 0; 0; 255] /\
  (c1 ← stitch.place
          {| tile.ImageData.Buf := [255; 0; 0; 255]; tile.ImageData.Width := 1;
             tile.ImageData.Height := 1; tile.ImageData.Depth := 4 |}
          [0; 0; 0; 0] 0 0 1 1;
   stitch.place
     {| tile.ImageData.Buf := [0; 0; 255; 255]; tile.ImageData.Width := 1;
        tile.ImageData.Height := 1; tile.ImageData.Depth := 4 |}
     c1 0 0 1 1) = Done [255; 0; 0; 255] /\
  (c1 ← stitch.place
          {| tile.ImageData.Buf := [255; 0; 0; 255]; tile.ImageData.Width := 1;
             tile.ImageData.Height := 1; tile.ImageData.Depth := 3 |}
          [0; 0; 0; 0] 0 0 1 1;
   stitch.place
     {| tile.ImageData.Buf := [0; 0; 255; 255]; tile.ImageData.Width := 1;
        tile.ImageData.Height := 1; tile.ImageData.Depth := 3 |}
     c1 0 0 1 1) = Done [0; 0; 255; 255] /\
  stitch.stitch (toy_world hosts) (cli 2 tile.OUTFMT_PNG) 0 0 0 0 1 [url_a; url_b]
    true 256 256 =
  Done {| stitch.Outcome.requests :=
            ["http://a/1/0/0.png"; "http://b/1/0/0.png";
             "http://a/1/1/0.png"; "http://b/1/1/0.png";
             "http://a/1/0/1.png"; "http://b/1/0/1.png";
             "http://a/1/1/1.png"; "http://b/1/1/1.png"]%string;
          stitch.Outcome.files :=
            [tile.WrittenPNG "out.png"
               [255; 0; 0; 255; 255; 0; 0; 255; 255; 0; 0; 255; 255; 0; 0; 255]];
          stitch.Outcome.err := None |}.
Proof. repeat split; vm_compute; reflexivity. Qed.

(** ** The grid *)

(** Inversion of a sequence of binds that returned. *)
Ltac run_inv H :=
  repeat match type of H with
         | mbind _ ?m = Done _ =>
             let E := fresh "E" in
             destruct m eqn:E; cbn [mbind run_bind] in H; [|discriminate H]
         | (let '(_, _) := ?c in _) = Done _ => destruct c
         end.

Lemma shr32_small (x s t : Z) :
  Go.is_uint32 x -> Go.shr32 x s = Done t -> 0 <= s /\ 0 <= t /\ t * 2 ^ s <= x.
Proof.
  unfold Go.is_uint32, Go.shr32. intros Hx.
  destruct (Z.ltb_spec s 0); [done|]. intros [= <-].
  rewrite Z.shiftr_div_pow2 by done.
  split; [done|]. split; [apply Z.div_pos; lia|].
  pose proof (Z.mul_div_le x (2 ^ s)). lia.
Qed.

Lemma canvas_side_small (d t : Z) : 0 <= Go.uint32 (d * t) / 256 < 2 ^ 24.
Proof.
  pose proof (uint32_bound (d * t)).
  split; [apply Z.div_pos; lia|]. apply Z.div_lt_upper_bound; lia.
Qed.

Lemma resolve_canvas_small (w : World) (opts : stitcher.Options.t) (p : Plan.t) :
  stitcher.resolve w opts = Done p ->
  0 <= Plan.width p < 2 ^ 24 /\ 0 <= Plan.height p < 2 ^ 24.
Proof.
  unfold stitcher.resolve. intros H. run_inv H.
  injection H as <-. cbn [Plan.width Plan.height].
  split; apply canvas_side_small.
Qed.

Lemma grid_canvas_small (w : World) (tileSize : Z) (minlat minlon maxlat maxlon : float)
  (zoom : Z) (centered : bool) (width height : Z) (p : Plan.t) :
  stitch.grid w tileSize minlat minlon maxlat maxlon zoom centered width height = Done p ->
  0 <= Plan.width p < 2 ^ 24 /\ 0 <= Plan.height p < 2 ^ 24.
Proof.
  unfold stitch.grid. intros H. run_inv H.
  injection H as <-. cbn [Plan.width Plan.height].
  split; apply canvas_side_small.
Qed.

Lemma int_mod (x : Z) : exists k, Go.int x = x - 2 ^ 64 * k.
Proof.
  exists ((x + 2 ^ 63) / 2 ^ 64). unfold Go.int.
  rewrite Z.mod_eq by lia. lia.
Qed.

(** The two shift counts of the grid differ by 8 whenever neither makes
    the shift panic. *)
Lemma shift_counts (zoom : Z) :
  0 <= Go.int (32 - Go.int (zoom + 8)) -> 0 <= Go.int (32 - zoom) ->
  Go.int (32 - zoom) = Go.int (32 - Go.int (zoom + 8)) + 8.
Proof.
  pose proof (int_is_int (32 - Go.int (zoom + 8))) as H1.
  pose proof (int_is_int (32 - zoom)) as H2.
  destruct (int_mod (zoom + 8)) as [k1 E1].
  destruct (int_mod (32 - Go.int (zoom + 8))) as [k2 E2].
  destruct (int_mod (32 - zoom)) as [k3 E3].
  unfold Go.is_int in *. lia.
Qed.

Lemma uint32_of_float_bound (x : float) : Go.is_uint32 (Go.uint32_of_float x).
Proof.
  unfold Go.uint32_of_float, Go.is_uint32.
  destruct (Go.trunc x); [apply Z.mod_pos_bound|]; lia.
Qed.

(** Tile indices stay below [2^24]: the loops over the tile range count
    up without wrap-around. *)
Lemma tile_index_small (x zoom t u : Z) :
  Go.is_uint32 x ->
  Go.shr32 x (Go.int (32 - zoom)) = Done t ->
  Go.shr32 x (Go.int (32 - Go.int (zoom + 8))) = Done u ->
  0 <= t < 2 ^ 24.
Proof.
  intros Hx Ht Hu.
  destruct (shr32_small _ _ _ Hx Ht) as (Hs & Ht0 & Hle).
  destruct (shr32_small _ _ _ Hx Hu) as (Hs8 & _ & _).
  rewrite (shift_counts zoom Hs8 Hs) in Hle.
  split; [done|].
  rewrite Z.pow_add_r in Hle by lia.
  unfold Go.is_uint32 in Hx.
  assert (1 <= 2 ^ Go.int (32 - Go.int (zoom + 8))) by (apply Z.pow_le_mono_r with (b := 0); lia).
  nia.
Qed.

(** ** C7: the size ceiling *)

(** C7.  When the canvas of the resolved grid has more than 10000 * 10000
    pixels, both pipelines return an error before any request is made:
    [Stitch] returns no result beside its error, which names the
    dimensions as computed, and the CLI [stitch] writes no file. *)
Theorem oversized_canvas_rejected (w : World) :
  (forall (opts : stitcher.Options.t) (p : Plan.t),
     stitcher.resolve w opts = Done p ->
     Plan.width p * Plan.height p > 10000 * 10000 ->
     stitcher.Stitch w opts =
       Done ([], (None, Some (stitcher.Errorf
                    (stitcher.too_large (Plan.width p) (Plan.height p)))))) /\
  (forall (s : stitch.Stitcher.t) (minlat minlon maxlat maxlon : float) (zoom : Z)
          (urls : list string) (centered : bool) (width height : Z) (q : Plan.t),
     stitch.grid w (tile.StitchOptions.TileSize (stitch.Stitcher.options s))
       minlat minlon maxlat maxlon zoom centered width height = Done q ->
     Plan.width q * Plan.height q > 10000 * 10000 ->
     exists o, stitch.stitch w s minlat minlon maxlat maxlon zoom urls centered width height
               = Done o /\
               stitch.Outcome.requests o = [] /\ stitch.Outcome.files o = [] /\
               is_Some (stitch.Outcome.err o)).
Proof.
  split.
  - intros opts p Hp Hbig.
    unfold stitcher.Stitch. rewrite Hp. cbn [mbind run_bind].
    destruct (resolve_canvas_small _ _ _ Hp) as [Hw Hh].
    rewrite int_id by (unfold Go.is_int; nia).
    destruct (Z.gtb_spec (Plan.width p * Plan.height p) (10000 * 10000)); [done|lia].
  - intros s minlat minlon maxlat maxlon zoom urls centered width height q Hq Hbig.
    unfold stitch.stitch.
    repeat match goal with
           | |- context [if ?c then Done (stitch.fails ?m) else _] =>
               destruct c; [exists (stitch.fails m); by (repeat split; eauto)|]
           end.
    rewrite Hq. cbn [mbind run_bind].
    destruct (tile.ProjectLatLon _ _ _) as [minx miny].
    destruct (tile.ProjectLatLon _ _ _) as [maxx maxy].
    destruct (grid_canvas_small _ _ _ _ _ _ _ _ _ _ _ Hq) as [Hw Hh].
    rewrite int_id by (unfold Go.is_int; nia).
    destruct (Z.gtb_spec (Plan.width q * Plan.height q) (10000 * 10000)); [|lia].
    exists (stitch.fails "that's too big"). by (repeat split; eauto).
Qed.

Lemma oversized_canvas_rejected_witness :
  stitcher.Stitch (toy_world hosts) (centred 10 256 20000 [url_a] stitcher.FormatPNG) =
    Done ([], (None, Some (stitcher.Errorf "requested image size too large: 20000x20000"))) /\
  exists o, stitch.stitch (toy_world hosts) (cli 256 tile.OUTFMT_PNG) 0 0 0 0 10 [url_a]
              true 20000 20000 = Done o /\
            stitch.Outcome.requests o = [] /\ stitch.Outcome.files o = [] /\
            is_Some (stitch.Outcome.err o).
Proof.
  destruct (stitcher.resolve (toy_world hosts) (centred 10 256 20000 [url_a] stitcher.FormatPNG))
    as [p|] eqn:Hp; [|vm_compute in Hp; discriminate Hp].
  destruct (stitch.grid (toy_world hosts)
              (tile.StitchOptions.TileSize (stitch.Stitcher.options (cli 256 tile.OUTFMT_PNG)))
              0 0 0 0 10 true 20000 20000)
    as [q|] eqn:Hq; [|vm_compute in Hq; discriminate Hq].
  assert (Hpd : Plan.width p = 20000 /\ Plan.height p = 20000)
    by (vm_compute in Hp; injection Hp as <-; done).
  assert (Hqd : Plan.width q = 20000 /\ Plan.height q = 20000)
    by (vm_compute in Hq; injection Hq as <-; done).
  destruct Hpd as [Hpw Hph], Hqd as [Hqw Hqh].
  destruct (oversized_canvas_rejected (toy_world hosts)) as [Hserver Hcli].
  split.
  - rewrite (Hserver _ p Hp ltac:(rewrite Hpw, Hph; lia)), Hpw, Hph. reflexivity.
  - exact (Hcli (cli 256 tile.OUTFMT_PNG) 0%float 0%float 0%float 0%float 10 [url_a]
             true 20000 20000 q Hq ltac:(rewrite Hqw, Hqh; lia)).
Defined.

(** ** The tile range *)

Lemma corners_uint32 (w : World) (opts : stitcher.Options.t)
  (x1 y1 x2 y2 : Z) (g : float * float * float * float) :
  stitcher.corners w opts = Done (x1, y1, x2, y2, g) ->
  Go.is_uint32 x1 /\ Go.is_uint32 y1 /\ Go.is_uint32 x2 /\ Go.is_uint32 y2.
Proof.
  unfold stitcher.corners, stitcher.latlon2tile.
  destruct (stitcher.Options.Mode opts =? stitcher.ModeCentered).
  - intros H. run_inv H.
    injection H as <- <- <- <- _.
    repeat split; apply uint32_bound.
  - intros [= <- <- <- <- _].
    repeat split; apply uint32_of_float_bound.
Qed.

Lemma resolve_indices_small (w : World) (opts : stitcher.Options.t) (p : Plan.t) :
  stitcher.resolve w opts = Done p ->
  0 <= Plan.tx1 p < 2 ^ 24 /\ 0 <= Plan.ty1 p < 2 ^ 24 /\
  0 <= Plan.tx2 p < 2 ^ 24 /\ 0 <= Plan.ty2 p < 2 ^ 24.
Proof.
  unfold stitcher.resolve. intros H.
  destruct (stitcher.corners w opts) as [[[[[x1 y1] x2] y2] g]|] eqn:Hc;
    cbn [mbind run_bind] in H; [|discriminate H].
  destruct (corners_uint32 _ _ _ _ _ _ _ Hc) as (Hx1 & Hy1 & Hx2 & Hy2).
  destruct g as [[[? ?] ?] ?].
  destruct (Go.shr32 x1 (Go.int (32 - stitcher.Options.Zoom opts))) as [tx1|] eqn:Et1;
    cbn [mbind run_bind] in H; [|discriminate H].
  destruct (Go.shr32 y1 (Go.int (32 - stitcher.Options.Zoom opts))) as [ty1|] eqn:Et2;
    cbn [mbind run_bind] in H; [|discriminate H].
  destruct (Go.shr32 x2 (Go.int (32 - stitcher.Options.Zoom opts))) as [tx2|] eqn:Et3;
    cbn [mbind run_bind] in H; [|discriminate H].
  destruct (Go.shr32 y2 (Go.int (32 - stitcher.Options.Zoom opts))) as [ty2|] eqn:Et4;
    cbn [mbind run_bind] in H; [|discriminate H].
  destruct (Go.shr32 x1 _) as [px1|] eqn:Ep1 in H; cbn [mbind run_bind] in H; [|discriminate H].
  destruct (Go.shr32 y1 _) as [py1|] eqn:Ep2 in H; cbn [mbind run_bind] in H; [|discriminate H].
  destruct (Go.shr32 x2 _) as [px2|] eqn:Ep3 in H; cbn [mbind run_bind] in H; [|discriminate H].
  destruct (Go.shr32 y2 _) as [py2|] eqn:Ep4 in H; cbn [mbind run_bind] in H; [|discriminate H].
  injection H as <-. cbn [Plan.tx1 Plan.ty1 Plan.tx2 Plan.ty2].
  split; [exact (tile_index_small _ _ _ _ Hx1 Et1 Ep1)|].
  split; [exact (tile_index_small _ _ _ _ Hy1 Et2 Ep2)|].
  split; [exact (tile_index_small _ _ _ _ Hx2 Et3 Ep3)|].
  exact (tile_index_small _ _ _ _ Hy2 Et4 Ep4).
Qed.

Lemma length_range_le (lo hi : Z) :
  lo <= hi -> Z.of_nat (length (Go.range_le lo hi)) = hi - lo + 1.
Proof. intros H. unfold Go.range_le. rewrite length_seqZ. lia. Qed.

(** [totalTiles] counts positions times templates. *)
Lemma totalTiles_attempts (w : World) (opts : stitcher.Options.t) (p : Plan.t) :
  stitcher.resolve w opts = Done p ->
  Plan.tx1 p <= Plan.tx2 p -> Plan.ty1 p <= Plan.ty2 p ->
  stitcher.totalTiles opts p =
  (positions p * Z.of_nat (length (stitcher.Options.TileURLs opts))) mod 2 ^ 32.
Proof.
  intros Hp Hx Hy.
  destruct (resolve_indices_small _ _ _ Hp) as (Hx1 & Hy1 & Hx2 & Hy2).
  unfold stitcher.totalTiles, positions, Go.uint32.
  rewrite !length_range_le by done.
  rewrite (Z.mod_small (Plan.tx2 p - Plan.tx1 p)) by lia.
  rewrite (Z.mod_small (Plan.ty2 p - Plan.ty1 p)) by lia.
  rewrite (Z.mod_small (Plan.tx2 p - Plan.tx1 p + 1)) by lia.
  rewrite (Z.mod_small (Plan.ty2 p - Plan.ty1 p + 1)) by lia.
  rewrite Z.mul_mod_idemp_l, Z.mul_mod_idemp_r by lia.
  f_equal. lia.
Qed.

(** ** The loop over the URL templates *)

Section Templates.

Variables (w : World) (opts : stitcher.Options.t).
Variables (tx ty xoff yoff width height : Z).

Let url_of (t : string) : string := stitcher.buildURL t (stitcher.Options.Zoom opts) tx ty.
Let try := stitcher.tryURLs w opts tx ty xoff yoff width height.

(** When every template fails, each one is requested once, in order, and
    leaves one entry; the canvas and the count of successes stay. *)
Lemma tryURLs_all_failed (urls : list string) (st st' : stitcher.Loop.t) :
  try urls st = Done (Go.Next (st', false)) ->
  stitcher.Loop.buf st' = stitcher.Loop.buf st /\
  stitcher.Loop.successfulTiles st' = stitcher.Loop.successfulTiles st /\
  stitcher.Loop.requests st' = stitcher.Loop.requests st ++ map url_of urls /\
  exists new,
    stitcher.Loop.failedTiles st' = stitcher.Loop.failedTiles st ++ new /\
    length new = length urls /\
    map stitcher.FailedTile.URL new = map url_of urls.
Proof.
  unfold try. revert st. induction urls as [|t urls IH]; intros st H.
  - injection H as <-. rewrite app_nil_r. repeat split; try done.
    exists []. by rewrite app_nil_r.
  - cbn [stitcher.tryURLs] in H.
    destruct (ctx_Done w (stitcher.Loop.requests st)); [discriminate H|].
    assert (Hgo : forall err,
      stitcher.tryURLs w opts tx ty xoff yoff width height urls
        (stitcher.failed (stitcher.requested st (url_of t)) (url_of t) err)
        = Done (Go.Next (st', false)) ->
      stitcher.Loop.buf st' = stitcher.Loop.buf st /\
      stitcher.Loop.successfulTiles st' = stitcher.Loop.successfulTiles st /\
      stitcher.Loop.requests st' = stitcher.Loop.requests st ++ map url_of (t :: urls) /\
      exists new,
        stitcher.Loop.failedTiles st' = stitcher.Loop.failedTiles st ++ new /\
        length new = length (t :: urls) /\
        map stitcher.FailedTile.URL new = map url_of (t :: urls)).
    { intros err Hrec. apply IH in Hrec as (Hb & Hs & Hr & new & Hf & Hl & Hu).
      cbn in Hb, Hs, Hr, Hf. repeat split; try done.
      - rewrite Hr, <- app_assoc. done.
      - eexists (_ :: new). rewrite Hf, <- app_assoc. cbn. rewrite Hl, Hu. done. }
    fold (url_of t) in H.
    destruct (stitcher.downloadTile _ _ _ _) as [err|data]; [by apply (Hgo err)|].
    destruct (stitcher.decodeImage w data) as [[err|img]|]; cbn [mbind run_bind] in H;
      [by eapply Hgo| |discriminate H].
    destruct (negb _ || negb _); [by eapply Hgo|].
    destruct (stitcher.copyTileToBuffer _ _ _ _ _ _); cbn [mbind run_bind] in H;
      discriminate H.
Qed.

(** When a template succeeds, the templates before it were requested and
    failed, it was requested last, and no later template was requested. *)
Lemma tryURLs_first_success (urls : list string) (st st' : stitcher.Loop.t) :
  try urls st = Done (Go.Next (st', true)) ->
  exists pre t post new,
    urls = pre ++ t :: post /\
    stitcher.Loop.requests st' = stitcher.Loop.requests st ++ map url_of (pre ++ [t]) /\
    stitcher.Loop.failedTiles st' = stitcher.Loop.failedTiles st ++ new /\
    map stitcher.FailedTile.URL new = map url_of pre /\
    stitcher.Loop.successfulTiles st' = Go.int (stitcher.Loop.successfulTiles st + 1).
Proof.
  unfold try. revert st. induction urls as [|t urls IH]; intros st H.
  - discriminate H.
  - cbn [stitcher.tryURLs] in H.
    destruct (ctx_Done w (stitcher.Loop.requests st)); [discriminate H|].
    assert (Hgo : forall err,
      stitcher.tryURLs w opts tx ty xoff yoff width height urls
        (stitcher.failed (stitcher.requested st (url_of t)) (url_of t) err)
        = Done (Go.Next (st', true)) ->
      exists pre t0 post new,
        t :: urls = pre ++ t0 :: post /\
        stitcher.Loop.requests st' = stitcher.Loop.requests st ++ map url_of (pre ++ [t0]) /\
        stitcher.Loop.failedTiles st' = stitcher.Loop.failedTiles st ++ new /\
        map stitcher.FailedTile.URL new = map url_of pre /\
        stitcher.Loop.successfulTiles st' = Go.int (stitcher.Loop.successfulTiles st + 1)).
    { intros err Hrec. apply IH in Hrec as (pre & t0 & post & new & -> & Hr & Hf & Hu & Hs).
      cbn in Hr, Hf, Hs.
      exists (t :: pre), t0, post. eexists (_ :: new). split; [done|].
      rewrite Hr, Hf, <- !app_assoc. cbn. rewrite Hu. done. }
    fold (url_of t) in H.
    destruct (stitcher.downloadTile _ _ _ _) as [err|data]; [by apply (Hgo err)|].
    destruct (stitcher.decodeImage w data) as [[err|img]|]; cbn [mbind run_bind] in H;
      [by eapply Hgo| |discriminate H].
    destruct (negb _ || negb _); [by eapply Hgo|].
    destruct (stitcher.copyTileToBuffer _ _ _ _ _ _) as [buf|]; cbn [mbind run_bind] in H;
      [|discriminate H].
    injection H as <-.
    exists [], t, urls, []. cbn. by rewrite app_nil_r.
Qed.

End Templates.

(** ** C2: what the ledger counts *)

(** C2 (amended).  The ledger counts attempts, not positions.  For a
    grid whose tile range is not inverted ([tx1 <= tx2], [ty1 <= ty2]),
    [totalTiles] is the number of tile index positions times the number
    of URL templates, reduced modulo [2^32]: the product itself when it
    is below [2^32], and the number of positions when there is one
    template and there are fewer than [2^32] positions.  A position for
    which every template fails adds one entry per template, in the order
    of the templates, and leaves the canvas and the count of successes as
    they were. *)
Theorem ledger_counts_attempts (w : World) (opts : stitcher.Options.t) :
  (forall p : Plan.t,
     stitcher.resolve w opts = Done p ->
     Plan.tx1 p <= Plan.tx2 p -> Plan.ty1 p <= Plan.ty2 p ->
     stitcher.totalTiles opts p =
       (positions p * Z.of_nat (length (stitcher.Options.TileURLs opts))) mod 2 ^ 32 /\
     (positions p * Z.of_nat (length (stitcher.Options.TileURLs opts)) < 2 ^ 32 ->
        stitcher.totalTiles opts p =
          positions p * Z.of_nat (length (stitcher.Options.TileURLs opts))) /\
     (length (stitcher.Options.TileURLs opts) = 1%nat -> positions p < 2 ^ 32 ->
        stitcher.totalTiles opts p = positions p)) /\
  (forall (tx ty xoff yoff width height : Z) (st st' : stitcher.Loop.t),
     stitcher.tryURLs w opts tx ty xoff yoff width height
       (stitcher.Options.TileURLs opts) st = Done (Go.Next (st', false)) ->
     stitcher.Loop.buf st' = stitcher.Loop.buf st /\
     stitcher.Loop.successfulTiles st' = stitcher.Loop.successfulTiles st /\
     exists new,
       stitcher.Loop.failedTiles st' = stitcher.Loop.failedTiles st ++ new /\
       length new = length (stitcher.Options.TileURLs opts) /\
       map stitcher.FailedTile.URL new =
       map (fun t => stitcher.buildURL t (stitcher.Options.Zoom opts) tx ty)
           (stitcher.Options.TileURLs opts)).
Proof.
  split.
  - intros p Hp Hx Hy.
    pose proof (totalTiles_attempts w opts p Hp Hx Hy) as Htot.
    assert (Hpos : 0 <= positions p)
      by (unfold positions; apply Z.mul_nonneg_nonneg; lia).
    split; [exact Htot|]. split.
    + intros Hfit. rewrite Htot. apply Z.mod_small. split; [|done].
      apply Z.mul_nonneg_nonneg; lia.
    + intros H1 Hfit. rewrite Htot, H1. rewrite Z.mul_1_r. apply Z.mod_small. lia.
  - intros tx ty xoff yoff width height st st' Htry.
    apply tryURLs_all_failed in Htry as (Hb & Hs & _ & new & Hf & Hl & Hu).
    repeat split; try done. by exists new.
Qed.

Lemma ledger_counts_attempts_witness :
  exists p st',
    stitcher.resolve (toy_world hosts) (centred 1 2 256 [url_c; url_d] stitcher.FormatPNG)
      = Done p /\
    positions p = 4 /\
    stitcher.totalTiles (centred 1 2 256 [url_c; url_d] stitcher.FormatPNG) p = 8 /\
    stitcher.tryURLs (toy_world hosts) (centred 1 2 256 [url_c; url_d] stitcher.FormatPNG)
      0 0 (-1) (-1) (Plan.width p) (Plan.height p) [url_c; url_d]
      (stitcher.start (replicate 16 0)) = Done (Go.Next (st', false)) /\
    length (stitcher.Loop.failedTiles st') = 2%nat.
Proof.
  set (W := toy_world hosts).
  set (O := centred 1 2 256 [url_c; url_d] stitcher.FormatPNG).
  destruct (stitcher.resolve W O) as [p|] eqn:Hp; [|vm_compute in Hp; discriminate Hp].
  assert (Hd : Plan.tx1 p = 0 /\ Plan.ty1 p = 0 /\ Plan.tx2 p = 1 /\ Plan.ty2 p = 1 /\
               Plan.width p = 2 /\ Plan.height p = 2)
    by (vm_compute in Hp; injection Hp as <-; done).
  destruct Hd as (Htx1 & Hty1 & Htx2 & Hty2 & Hw & Hh).
  assert (Hpos : positions p = 4)
    by (unfold positions; rewrite Htx1, Htx2, Hty1, Hty2; reflexivity).
  destruct (stitcher.tryURLs W O 0 0 (-1) (-1) (Plan.width p) (Plan.height p) [url_c; url_d]
              (stitcher.start (replicate 16 0)))
    as [[[st' [|]]|]|] eqn:Ht; try (rewrite Hw, Hh in Ht; vm_compute in Ht; discriminate Ht).
  destruct (ledger_counts_attempts W O) as [Htotal Hposn].
  destruct (Htotal p Hp ltac:(rewrite Htx1, Htx2; lia) ltac:(rewrite Hty1, Hty2; lia))
    as (_ & Htot & _).
  specialize (Htot ltac:(rewrite Hpos; vm_compute; reflexivity)).
  destruct (Hposn 0 0 (-1) (-1) (Plan.width p) (Plan.height p)
              (stitcher.start (replicate 16 0)) st' Ht) as (_ & _ & new & Hf & Hl & _).
  exists p, st'. split; [reflexivity|]. split; [exact Hpos|].
  split; [rewrite Htot, Hpos; reflexivity|]. split; [exact Ht|].
  rewrite Hf, length_app, Hl. reflexivity.
Defined.

(** C2 as stated fails with two templates that both answer 404: the grid
    has 4 positions and [totalTiles] is 8, and the first position adds
    two entries to the ledger. *)
Lemma ledger_counts_positions_fails :
  ~ total_counts_positions /\ ~ failed_position_one_entry.
Proof.
  split.
  - intros H.
    destruct (stitcher.resolve (toy_world hosts)
                (centred 1 2 256 [url_c; url_d] stitcher.FormatPNG)) as [p|] eqn:Hp;
      [|vm_compute in Hp; discriminate Hp].
    specialize (H _ _ _ Hp).
    vm_compute in Hp. injection Hp as <-.
    vm_compute in H. discriminate H.
  - intros H.
    destruct (stitcher.tryURLs (toy_world hosts)
                (centred 1 2 256 [url_c; url_d] stitcher.FormatPNG)
                0 0 (-1) (-1) 2 2 [url_c; url_d] (stitcher.start (replicate 16 0)))
      as [[[st' [|]]|]|] eqn:Ht; try (vm_compute in Ht; discriminate Ht).
    specialize (H _ _ _ _ _ _ _ _ _ _ Ht).
    vm_compute in Ht. injection Ht as <-.
    vm_compute in H. discriminate H.
Qed.

(** A range inverted by wrap-around is outside the statement above: a
    request of 4x4 pixels centred at longitude -179.99999 (the binary64
    nearest to it), just east of the antimeridian, at zoom 16 with one
    template, has [x1] wrap below zero, so [tx1 = 65535] lies beyond
    [tx2 = 0]; the loops visit no position, and [totalTiles] is the
    wrapped product. *)
Example inverted_range :
  exists p,
    stitcher.resolve (toy_world hosts) (centred_at (-0x1.67fffeb074a77p+7) 16 256 4 [url_a]) = Done p /\
    Plan.x1 p = 4294966903 /\ Plan.tx1 p = 65535 /\ Plan.tx2 p = 0 /\
    positions p = 0 /\
    stitcher.totalTiles (centred_at (-0x1.67fffeb074a77p+7) 16 256 4 [url_a]) p = 4294836228.
Proof. eexists. split; [vm_compute; reflexivity|]. vm_compute. repeat split. Qed.

(** ** C1: the failure policy *)

Lemma Stitch_full_grid (w : World) (opts : stitcher.Options.t) (p : Plan.t)
  (st : stitcher.Loop.t) :
  full_grid w opts p st ->
  exists minX maxY px py,
    stitcher.Stitch w opts =
    Done (stitcher.Loop.requests st,
          stitcher.finish w opts p minX maxY px py (stitcher.totalTiles opts p) st).
Proof.
  intros (Hp & Hdim & buf & Hmake & Htiles).
  unfold stitcher.Stitch. rewrite Hp. cbn [mbind run_bind].
  destruct (resolve_canvas_small _ _ _ Hp) as [Hw Hh].
  rewrite (int_id (Plan.width p * Plan.height p)) in * by (unfold Go.is_int; nia).
  destruct (Z.gtb_spec (Plan.width p * Plan.height p) (10000 * 10000)); [lia|].
  destruct (stitcher.projectlatlon _ _ _) as [minX minY].
  destruct (stitcher.projectlatlon _ _ _) as [maxX maxY].
  rewrite Hmake. cbn [mbind run_bind]. rewrite Htiles. cbn [mbind run_bind].
  by eexists _, _, _, _.
Qed.

(** C1 (amended).  A run that goes through its whole grid ends by this
    policy: with no successful tile it fails with the ledger; otherwise,
    with more failed entries than [totalTiles / 2], it fails with the
    ledger; otherwise, for any output format but GeoTIFF, it returns the
    encoded canvas (gaps included) with the canvas size, or the error of
    the encoder.  The result has no field for the failure details. *)
Theorem finalization_policy (w : World) (opts : stitcher.Options.t) (p : Plan.t)
  (st : stitcher.Loop.t) :
  full_grid w opts p st ->
  exists ret,
    stitcher.Stitch w opts = Done (stitcher.Loop.requests st, ret) /\
    let total := stitcher.totalTiles opts p in
    let nfailed := Z.of_nat (length (stitcher.Loop.failedTiles st)) in
    (stitcher.Loop.successfulTiles st = 0 ->
       exists msg, ret = (None, Some (stitcher.ErrTile (stitcher.ledger msg total st)))) /\
    (stitcher.Loop.successfulTiles st <> 0 -> nfailed > total ÷ 2 ->
       exists msg, ret = (None, Some (stitcher.ErrTile (stitcher.ledger msg total st)))) /\
    (stitcher.Loop.successfulTiles st <> 0 -> nfailed <= total ÷ 2 ->
     stitcher.Options.OutputFormat opts <> stitcher.FormatGeoTIFF ->
       match stitcher.encodePNG w (stitcher.Loop.buf st) (Plan.width p) (Plan.height p) with
       | inr png =>
           exists r, ret = (Some r, None) /\
                     stitcher.Result.ImageData r = png /\
                     stitcher.Result.Width r = Plan.width p /\
                     stitcher.Result.Height r = Plan.height p
       | inl err =>
           ret = (None, Some (stitcher.Errorf
                    (String.append "failed to encode output image: " err)))
       end).
Proof.
  intros Hfull.
  destruct (Stitch_full_grid _ _ _ _ Hfull) as (minX & maxY & px & py & HS).
  eexists. split; [exact HS|]. cbv zeta. unfold stitcher.finish.
  split; [|split].
  - intros ->. cbn. by eexists.
  - intros Hs Hf.
    destruct (Z.eqb_spec (stitcher.Loop.successfulTiles st) 0); [done|].
    destruct (Z.gtb_spec (Z.of_nat (length (stitcher.Loop.failedTiles st)))
                (stitcher.totalTiles opts p ÷ 2)); [by eexists|lia].
  - intros Hs Hf Hfmt.
    destruct (Z.eqb_spec (stitcher.Loop.successfulTiles st) 0); [done|].
    destruct (Z.gtb_spec (Z.of_nat (length (stitcher.Loop.failedTiles st)))
                (stitcher.totalTiles opts p ÷ 2)); [lia|].
    destruct (Z.eqb_spec (stitcher.Options.OutputFormat opts) stitcher.FormatGeoTIFF);
      [done|].
    destruct (stitcher.Options.OutputFormat opts =? stitcher.FormatPNG);
      destruct (stitcher.encodePNG _ _ _ _); try done; by eexists.
Qed.

Lemma finalization_policy_witness :
  exists reqs r,
    stitcher.Stitch (toy_world (red_but "http://a/1/1/1.png" not_found))
      (centred 1 2 256 [url_a] stitcher.FormatPNG) = Done (reqs, (Some r, None)) /\
    stitcher.Result.ImageData r =
      [255; 0; 0; 255; 255; 0; 0; 255; 255; 0; 0; 255; 0; 0; 0; 0].
Proof.
  set (W := toy_world (red_but "http://a/1/1/1.png" not_found)).
  set (O := centred 1 2 256 [url_a] stitcher.FormatPNG).
  destruct (stitcher.resolve W O) as [p|] eqn:Hp; [|vm_compute in Hp; discriminate Hp].
  pose proof Hp as Hp'. vm_compute in Hp'. injection Hp' as <-.
  match type of Hp with _ = Done ?q =>
    destruct (stitcher.tiles W O q (stitcher.start (replicate 16 0))) as [[st|v]|] eqn:Ht;
      [|vm_compute in Ht; discriminate Ht|vm_compute in Ht; discriminate Ht]
  end.
  pose proof Ht as Ht'. vm_compute in Ht'. injection Ht' as <-.
  match type of Hp with _ = Done ?q =>
    match type of Ht with _ = Done (Go.Next ?s) =>
      assert (Hfull : full_grid W O q s)
        by (split; [exact Hp|]; split; [cbn; lia|];
            exists (replicate 16 0); split; [reflexivity|exact Ht])
    end
  end.
  destruct (finalization_policy W O _ _ Hfull) as (ret & HS & _ & _ & Hok).
  specialize (Hok ltac:(cbn; lia) ltac:(vm_compute; discriminate) ltac:(vm_compute; discriminate)).
  cbn in Hok. destruct Hok as (r & -> & Hi & _).
  eexists _, r. split; [exact HS|exact Hi].
Defined.

(** C1 as stated fails: two runs pass the policy with one failed tile
    each, one failing with a 404 and the other with a transport error,
    and return the same values; the failure details cannot be read off
    what [Stitch] returns. *)
Lemma partial_success_returns_failures_fails : ~ partial_success_returns_failures.
Proof.
  intros (details & H).
  set (W1 := toy_world (red_but "http://a/1/1/1.png" not_found)).
  set (W2 := toy_world (red_but "http://a/1/1/1.png" (inl "timeout"%string))).
  set (O := centred 1 2 256 [url_a] stitcher.FormatPNG).
  destruct (stitcher.resolve W1 O) as [p|] eqn:Hp; [|vm_compute in Hp; discriminate Hp].
  assert (Hp2 : stitcher.resolve W2 O = Done p) by exact Hp.
  pose proof Hp as Hp'. vm_compute in Hp'. injection Hp' as <-.
  match type of Hp with _ = Done ?q =>
    destruct (stitcher.tiles W1 O q (stitcher.start (replicate 16 0))) as [[st1|v]|] eqn:Ht1;
      [|vm_compute in Ht1; discriminate Ht1|vm_compute in Ht1; discriminate Ht1];
    destruct (stitcher.tiles W2 O q (stitcher.start (replicate 16 0))) as [[st2|v]|] eqn:Ht2;
      [|vm_compute in Ht2; discriminate Ht2|vm_compute in Ht2; discriminate Ht2]
  end.
  pose proof Ht1 as Ht1'. vm_compute in Ht1'. injection Ht1' as <-.
  pose proof Ht2 as Ht2'. vm_compute in Ht2'. injection Ht2' as <-.
  match type of Hp with _ = Done ?q =>
    match type of Ht1 with _ = Done (Go.Next ?s1) =>
      assert (Hfull1 : full_grid W1 O q s1)
        by (split; [exact Hp|]; split; [cbn; lia|];
            exists (replicate 16 0); split; [reflexivity|exact Ht1])
    end;
    match type of Ht2 with _ = Done (Go.Next ?s2) =>
      assert (Hfull2 : full_grid W2 O q s2)
        by (split; [exact Hp2|]; split; [cbn; lia|];
            exists (replicate 16 0); split; [reflexivity|exact Ht2])
    end
  end.
  destruct (H W1 O _ _ Hfull1 ltac:(cbn; lia) ltac:(vm_compute; discriminate))
    as (ret1 & HS1 & _ & Hd1).
  destruct (H W2 O _ _ Hfull2 ltac:(cbn; lia) ltac:(vm_compute; discriminate))
    as (ret2 & HS2 & _ & Hd2).
  vm_compute in HS1, HS2.
  injection HS1 as <-. injection HS2 as <-.
  rewrite Hd1 in Hd2. vm_compute in Hd2. discriminate Hd2.
Qed.

(** ** C3 and C6: where the two pipelines differ *)

(** The CLI requests every template at every position. *)
Lemma layers_requests_all (w : World) (s : stitch.Stitcher.t)
  (zoom tx ty xoff yoff width height : Z) (urls : list string)
  (buf buf' : list Z) (history history' : list string) :
  stitch.layers w s zoom tx ty xoff yoff width height urls (buf, history) = Done (buf', history') ->
  history' = history ++ map (fun t => tile.BuildURL t zoom tx ty) urls.
Proof.
  revert buf history. induction urls as [|t urls IH]; intros buf history H.
  - injection H as <- <-. by rewrite app_nil_r.
  - cbn [stitch.layers] in H.
    assert (Hgo : forall b,
      stitch.layers w s zoom tx ty xoff yoff width height urls
        (b, history ++ [tile.BuildURL t zoom tx ty]) = Done (buf', history') ->
      history' = history ++ map (fun t => tile.BuildURL t zoom tx ty) (t :: urls)).
    { intros b Hrec. apply IH in Hrec as ->. by rewrite <- app_assoc. }
    destruct (tile.DownloadTile _ _ _ _) as [err|data]; [by eapply Hgo|].
    destruct (tile.DecodeImage w data) as [[err|img]|]; cbn [mbind run_bind] in H;
      [by eapply Hgo| |discriminate H].
    destruct (negb _ || negb _); [by eapply Hgo|].
    destruct (stitch.place _ _ _ _ _ _) as [b|]; cbn [mbind run_bind] in H;
      [by eapply Hgo|discriminate H].
Qed.

(** C3, the CLI at two templates that both serve valid tiles: the red
    PNG tile of the first template is placed, and still the second
    template is requested at every position and its green JPEG tile is
    placed over the first one.  The HTTP pipeline stops at the first
    template on the same input. *)
Theorem cli_fetches_every_template :
  stitch.stitch (toy_world hosts) (cli 2 tile.OUTFMT_PNG) 0 0 0 0 1 [url_a; url_j]
    true 256 256 =
  Done {| stitch.Outcome.requests :=
            ["http://a/1/0/0.png"; "http://j/1/0/0.jpg";
             "http://a/1/1/0.png"; "http://j/1/1/0.jpg";
             "http://a/1/0/1.png"; "http://j/1/0/1.jpg";
             "http://a/1/1/1.png"; "http://j/1/1/1.jpg"]%string;
          stitch.Outcome.files :=
            [tile.WrittenPNG "out.png"
               [0; 255; 0; 255; 0; 255; 0; 255; 0; 255; 0; 255; 0; 255; 0; 255]];
          stitch.Outcome.err := None |} /\
  exists r,
    stitcher.Stitch (toy_world hosts) (centred 1 2 256 [url_a; url_j] stitcher.FormatPNG) =
    Done (["http://a/1/0/0.png"; "http://a/1/1/0.png";
           "http://a/1/0/1.png"; "http://a/1/1/1.png"]%string, (Some r, None)) /\
    stitcher.Result.ImageData r =
      [255; 0; 0; 255; 255; 0; 0; 255; 255; 0; 0; 255; 255; 0; 0; 255].
Proof.
  split; [vm_compute; reflexivity|].
  eexists. split; vm_compute; reflexivity.
Qed.

(** C6, a GeoTIFF request that fetched all its tiles: [Stitch] returns an
    error and no image, where the root command of the CLI prints a
    warning and goes on with PNG. *)
Theorem geotiff_request_fails :
  stitcher.Stitch (toy_world hosts) (centred 1 2 256 [url_a] stitcher.FormatGeoTIFF) =
    Done (["http://a/1/0/0.png"; "http://a/1/1/0.png";
           "http://a/1/0/1.png"; "http://a/1/1/1.png"]%string,
          (None, Some (stitcher.Errorf "GeoTIFF output not yet implemented"))) /\
  cmd.parseFormat "geotiff" =
    (["Warning: GeoTIFF output not yet implemented, using PNG"%string], inr tile.OUTFMT_PNG).
Proof. split; vm_compute; reflexivity. Qed.

(** ** C8: the world file *)

Lemma string_length_append (a b : string) :
  String.length (String.append a b) = (String.length a + String.length b)%nat.
Proof. induction a as [|c a IH]; cbn; [done|by rewrite IH]. Qed.

Lemma string_forall_append (P : ascii -> bool) (a b : string) :
  string_forall P (String.append a b) = string_forall P a && string_forall P b.
Proof. induction a as [|c a IH]; cbn; [done|]. by rewrite IH, andb_assoc. Qed.

Lemma string_forall_impl (P Q : ascii -> bool) (s : string) :
  (forall c, P c = true -> Q c = true) ->
  string_forall P s = true -> string_forall Q s = true.
Proof.
  intros HPQ. induction s as [|c s IH]; cbn; [done|].
  rewrite !andb_true_iff. intros [Hc Hs]. auto.
Qed.

Lemma length_replicate_char (n : nat) (c : ascii) : String.length (Go.replicate_char n c) = n.
Proof. induction n as [|n IH]; cbn; [done|by rewrite IH]. Qed.

Lemma string_forall_replicate_char (P : ascii -> bool) (n : nat) (c : ascii) :
  P c = true -> string_forall P (Go.replicate_char n c) = true.
Proof. intros Hc. induction n as [|n IH]; cbn; [done|by rewrite Hc, IH]. Qed.

Lemma length_pad_left (c : ascii) (width : nat) (s : string) :
  String.length (Go.pad_left c width s) = Nat.max width (String.length s).
Proof.
  unfold Go.pad_left. rewrite string_length_append, length_replicate_char. lia.
Qed.

Lemma digit_is_digit (n : Z) : is_digit (Go.digit (n mod 10)) = true.
Proof.
  pose proof (Z.mod_pos_bound n 10 ltac:(lia)) as H.
  assert (Hc : n mod 10 = 0 \/ n mod 10 = 1 \/ n mod 10 = 2 \/ n mod 10 = 3 \/
               n mod 10 = 4 \/ n mod 10 = 5 \/ n mod 10 = 6 \/ n mod 10 = 7 \/
               n mod 10 = 8 \/ n mod 10 = 9) by lia.
  repeat (destruct Hc as [->|Hc]; [reflexivity|]). by rewrite Hc.
Qed.

Lemma is_digit_not_newline (c : ascii) : is_digit c = true -> not_newline c = true.
Proof.
  unfold is_digit, not_newline. intros H.
  destruct (Ascii.eqb_spec c newline) as [->|]; [|done].
  vm_compute in H. discriminate H.
Qed.

Lemma utoa_aux_step (fuel : nat) (n : Z) (acc : string) :
  Go.utoa_aux (S fuel) n acc =
  if n <? 10 then String (Go.digit (n mod 10)) acc
  else Go.utoa_aux fuel (n / 10) (String (Go.digit (n mod 10)) acc).
Proof. reflexivity. Qed.

(** The digits of [n < 10^k] are at least one and at most [k] digits. *)
Lemma utoa_aux_digits (fuel : nat) (n : Z) (acc : string) (k : Z) :
  0 <= n < 10 ^ k -> 1 <= k ->
  string_forall is_digit acc = true ->
  string_forall is_digit (Go.utoa_aux (S fuel) n acc) = true /\
  (Z.of_nat (String.length acc) + 1 <= Z.of_nat (String.length (Go.utoa_aux (S fuel) n acc))
     <= Z.of_nat (String.length acc) + k).
Proof.
  revert n acc k. induction fuel as [|f IH]; intros n acc k Hn Hk Hacc;
    rewrite utoa_aux_step;
    assert (Hone : string_forall is_digit (String (Go.digit (n mod 10)) acc) = true)
      by (cbn [string_forall]; by rewrite digit_is_digit, Hacc).
  - cbn [Go.utoa_aux].
    destruct (n <? 10); (split; [exact Hone|cbn [String.length]; lia]).
  - destruct (Z.ltb_spec n 10) as [Hlt|Hge].
    + split; [exact Hone|cbn [String.length]; lia].
    + assert (Hk2 : 2 <= k).
      { destruct (Z.eq_dec k 1) as [->|]; [|lia]. change (10 ^ 1) with 10 in Hn. lia. }
      destruct (IH (n / 10) (String (Go.digit (n mod 10)) acc) (k - 1)) as [Hd Hl].
      * split; [apply Z.div_pos; lia|].
        apply Z.div_lt_upper_bound; [lia|].
        replace k with (1 + (k - 1)) in Hn by lia.
        rewrite Z.pow_add_r in Hn by lia. change (10 ^ 1) with 10 in Hn. lia.
      * lia.
      * exact Hone.
      * split; [exact Hd|]. cbn [String.length] in Hl. lia.
Qed.

Lemma FormatUint_digits (n k : Z) :
  0 <= n < 10 ^ k -> 1 <= k ->
  string_forall is_digit (Go.FormatUint n) = true /\
  (1 <= Z.of_nat (String.length (Go.FormatUint n)) <= k).
Proof.
  intros Hn Hk. unfold Go.FormatUint.
  destruct (utoa_aux_digits (Z.to_nat (Z.log2 n)) n EmptyString k Hn Hk eq_refl) as [Hd Hl].
  split; [exact Hd|]. cbn [String.length] in Hl. lia.
Qed.

Lemma string_append_assoc (a b c : string) :
  String.append (String.append a b) c = String.append a (String.append b c).
Proof. induction a as [|x a IH]; cbn; [done|by rewrite IH]. Qed.

Lemma string_append_nil_r (a : string) : String.append a EmptyString = a.
Proof. induction a as [|x a IH]; cbn; [done|by rewrite IH]. Qed.

Lemma FormatUint_plain (n : Z) : 0 <= n -> string_forall is_digit (Go.FormatUint n) = true.
Proof.
  intros Hn. apply (FormatUint_digits n (Z.max 1 n)); [|lia].
  split; [done|].
  destruct (Z.eq_dec n 0) as [->|]; [done|].
  rewrite Z.max_r by lia. apply Z.pow_gt_lin_r; lia.
Qed.

Lemma round_half_even_nonneg (num den : Z) :
  0 <= num -> 0 < den -> 0 <= Go.round_half_even num den.
Proof.
  intros Hn Hd. unfold Go.round_half_even.
  pose proof (Z.div_pos num den Hn Hd).
  destruct (2 * (num mod den) ?= den); [destruct (Z.even _)| |]; lia.
Qed.

Lemma scaled_nonneg (prec : nat) (m : positive) (e : Z) : 0 <= Go.scaled prec m e.
Proof.
  unfold Go.scaled. destruct (0 <=? e) eqn:E.
  - repeat apply Z.mul_nonneg_nonneg; [lia|apply Z.pow_nonneg; lia|apply Z.pow_nonneg; lia].
  - destruct (Z.leb_spec 0 e) as [?|He]; [done|].
    apply round_half_even_nonneg.
    + apply Z.mul_nonneg_nonneg; [lia|apply Z.pow_nonneg; lia].
    + apply Z.pow_pos_nonneg; lia.
Qed.

(** The fixed notation of [n / 10^10] for [0 <= n < 10^(d + 10)]: at most
    [d] digits, the point and 10 digits. *)
Lemma fixed_shape (n d : Z) :
  0 <= n < 10 ^ (d + 10) -> 1 <= d ->
  exists ip frac,
    Go.fixed 10 n = String.append ip (String "."%char frac) /\
    string_forall is_digit ip = true /\ Z.of_nat (String.length ip) <= d /\
    String.length frac = 10%nat /\ string_forall is_digit frac = true.
Proof.
  intros Hn Hd. unfold Go.fixed. change (Z.of_nat 10) with 10.
  assert (Hp : 0 < 10 ^ 10) by lia.
  destruct (FormatUint_digits (n / 10 ^ 10) d) as [Hi Hil]; [|done|].
  { split; [apply Z.div_pos; lia|]. apply Z.div_lt_upper_bound; [lia|].
    rewrite Z.pow_add_r in Hn by lia. lia. }
  destruct (FormatUint_digits (n mod 10 ^ 10) 10) as [Hf Hfl];
    [apply Z.mod_pos_bound; lia|lia|].
  eexists _, _. split; [reflexivity|]. split; [exact Hi|]. split; [lia|].
  split.
  - rewrite length_pad_left. lia.
  - unfold Go.pad_left. rewrite string_forall_append, Hf.
    by rewrite string_forall_replicate_char.
Qed.

Lemma fixed_plain (n : Z) : 0 <= n -> string_forall not_newline (Go.fixed 10 n) = true.
Proof.
  intros Hn. unfold Go.fixed, Go.pad_left. change (Z.of_nat 10) with 10.
  rewrite string_forall_append. cbn [string_forall]. rewrite string_forall_append.
  assert (Hi : 0 <= n / 10 ^ 10) by (apply Z.div_pos; lia).
  assert (Hf : 0 <= n mod 10 ^ 10) by (apply Z.mod_pos_bound; lia).
  rewrite (string_forall_impl is_digit not_newline _ is_digit_not_newline
             (FormatUint_plain _ Hi)).
  rewrite (string_forall_impl is_digit not_newline _ is_digit_not_newline
             (FormatUint_plain _ Hf)).
  by rewrite string_forall_replicate_char.
Qed.

(** Whatever the value, [%24.10f] prints no newline and at least 24
    characters. *)
Lemma Sprintf_f_plain (x : float) :
  string_forall not_newline (Go.Sprintf_f 24 10 x) = true /\
  (24 <= String.length (Go.Sprintf_f 24 10 x))%nat.
Proof.
  unfold Go.Sprintf_f. split; [|rewrite length_pad_left; lia].
  unfold Go.pad_left. rewrite string_forall_append.
  rewrite string_forall_replicate_char by done.
  destruct (Prim2SF x) as [s|s| |s m e]; cbn [andb].
  - destruct s; cbn [Go.sign_of string_forall]; by rewrite fixed_plain.
  - by destruct s.
  - done.
  - destruct s; cbn [Go.sign_of string_forall];
      by rewrite fixed_plain by apply scaled_nonneg.
Qed.

(** A value that fits is printed in exactly 24 characters, the last 11
    of them the point and 10 digits. *)
Lemma Sprintf_f_fits (x : float) :
  fits_24_10 x = true ->
  String.length (Go.Sprintf_f 24 10 x) = 24%nat /\
  fixed_point_line 10 (Go.Sprintf_f 24 10 x).
Proof.
  unfold fits_24_10, Go.Sprintf_f. intros Hfit.
  assert (Hbody : forall (s : bool) (n : Z),
    0 <= n < (if s then 10 ^ 22 else 10 ^ 23) ->
    String.length (Go.pad_left " " 24 (Go.sign_of s (Go.fixed 10 n))) = 24%nat /\
    fixed_point_line 10 (Go.pad_left " " 24 (Go.sign_of s (Go.fixed 10 n)))).
  { intros s n Hn.
    destruct (fixed_shape n (if s then 12 else 13)) as (ip & frac & -> & Hi & Hil & Hfl & Hf).
    { destruct s; cbn; lia. }
    { destruct s; lia. }
    assert (Hlen : (String.length (Go.sign_of s (String.append ip (String "." frac))) <= 24)%nat).
    { destruct s; cbn [Go.sign_of String.length]; rewrite string_length_append;
        cbn [String.length]; lia. }
    split; [rewrite length_pad_left; lia|].
    exists (String.append (Go.replicate_char
              (24 - String.length (Go.sign_of s (String.append ip (String "." frac)))) " ")
              (Go.sign_of s ip)), frac.
    split; [|split; [|done]].
    - unfold Go.pad_left. rewrite string_append_assoc. by destruct s.
    - rewrite string_forall_append, string_forall_replicate_char by done.
      destruct s; cbn [Go.sign_of string_forall andb];
        by rewrite (string_forall_impl is_digit not_newline _ is_digit_not_newline Hi). }
  destruct (Prim2SF x) as [s|s| |s m e]; try discriminate Hfit.
  - apply Hbody. destruct s; lia.
  - apply Hbody. split; [apply scaled_nonneg|]. destruct s; lia.
Qed.

Lemma split_lines_from_line (cur l rest : string) :
  string_forall not_newline l = true ->
  split_lines_from cur (String.append l (String newline rest)) =
  String.append cur l :: split_lines_from EmptyString rest.
Proof.
  revert cur. induction l as [|c l IH]; intros cur Hl.
  - cbn. by rewrite string_append_nil_r.
  - cbn [string_forall] in Hl. apply andb_true_iff in Hl as [Hc Hl].
    cbn [String.append split_lines_from]. unfold not_newline in Hc.
    destruct (Ascii.eqb c newline); [discriminate Hc|].
    rewrite IH by done. by rewrite string_append_assoc.
Qed.

Lemma line_then (a rest : string) :
  String.append (String.append a (String newline EmptyString)) rest =
  String.append a (String newline rest).
Proof. by rewrite string_append_assoc. Qed.

(** The world file always has six newline-terminated lines, the six
    values in order, whatever the values. *)
Lemma generateWorldFile_lines (px py minx maxy : float) :
  split_lines (stitcher.generateWorldFile px py minx maxy) =
  [Go.Sprintf_f 24 10 px; Go.Sprintf_f 24 10 0; Go.Sprintf_f 24 10 0;
   Go.Sprintf_f 24 10 (- py); Go.Sprintf_f 24 10 minx; Go.Sprintf_f 24 10 maxy].
Proof.
  unfold stitcher.generateWorldFile, split_lines.
  change (String "010" EmptyString) with (String newline EmptyString).
  rewrite !line_then.
  repeat (rewrite split_lines_from_line by apply Sprintf_f_plain; cbn [String.append]).
  done.
Qed.

(** ** Decimal output *)

Lemma digit_value (d : Z) : 0 <= d < 10 -> Z.of_nat (nat_of_ascii (Go.digit d)) - 48 = d.
Proof.
  intros H.
  assert (Hc : d = 0 \/ d = 1 \/ d = 2 \/ d = 3 \/ d = 4 \/ d = 5 \/ d = 6 \/ d = 7 \/
               d = 8 \/ d = 9) by lia.
  repeat (destruct Hc as [->|Hc]; [reflexivity|]). by rewrite Hc.
Qed.

Lemma utoa_aux_value (fuel : nat) (n : Z) (acc : string) :
  0 <= n < 10 ^ Z.of_nat fuel ->
  decimal_from 0 (Go.utoa_aux fuel n acc) = decimal_from n acc.
Proof.
  revert n acc. induction fuel as [|f IH]; intros n acc Hn.
  - change (10 ^ Z.of_nat 0) with 1 in Hn. by replace n with 0 by lia.
  - rewrite utoa_aux_step.
    pose proof (Z.mod_pos_bound n 10 ltac:(lia)) as Hm.
    pose proof (Z.div_mod n 10 ltac:(lia)) as Hdm.
    destruct (Z.ltb_spec n 10) as [Hlt|Hge].
    + cbn [decimal_from]. rewrite digit_value by done.
      rewrite Z.mod_small by lia. done.
    + rewrite IH.
      * cbn [decimal_from]. rewrite digit_value by done. f_equal. lia.
      * split; [apply Z.div_pos; lia|]. apply Z.div_lt_upper_bound; [lia|].
        rewrite Nat2Z.inj_succ, Z.pow_succ_r in Hn by lia. lia.
Qed.

(** [FormatUint] writes its argument: the digits read back give [n]. *)
Lemma FormatUint_value (n : Z) : 0 <= n -> decimal_from 0 (Go.FormatUint n) = n.
Proof.
  intros Hn. unfold Go.FormatUint. rewrite utoa_aux_value; [done|].
  split; [done|].
  destruct (Z.eq_dec n 0) as [->|Hne]; [done|].
  rewrite Nat2Z.inj_succ, Z2Nat.id by apply Z.log2_nonneg.
  pose proof (Z.log2_spec n ltac:(lia)) as [_ Hlt].
  eapply Z.lt_le_trans; [exact Hlt|].
  apply Z.pow_le_mono_l. lia.
Qed.

(** A string of [k] digits writes a number below [10^k]. *)
Lemma decimal_from_bound (s : string) (v : Z) :
  string_forall is_digit s = true -> 0 <= v ->
  v * 10 ^ Z.of_nat (String.length s) <= decimal_from v s
    < (v + 1) * 10 ^ Z.of_nat (String.length s).
Proof.
  revert v. induction s as [|c s IH]; intros v Hs Hv.
  - cbn. lia.
  - cbn [string_forall] in Hs. apply andb_true_iff in Hs as [Hc Hs].
    cbn [decimal_from String.length]. rewrite Nat2Z.inj_succ, Z.pow_succ_r by lia.
    unfold is_digit in Hc. apply andb_true_iff in Hc as [Hc1 Hc2].
    apply Z.leb_le in Hc1, Hc2.
    specialize (IH (v * 10 + (Z.of_nat (nat_of_ascii c) - 48)) Hs ltac:(lia)).
    assert (0 < 10 ^ Z.of_nat (String.length s)) by (apply Z.pow_pos_nonneg; lia).
    nia.
Qed.

(** The number of digits of [n]: at most [d] exactly when [n < 10^d]. *)
Lemma FormatUint_length (n d : Z) :
  0 <= n -> 1 <= d ->
  (Z.of_nat (String.length (Go.FormatUint n)) <= d <-> n < 10 ^ d).
Proof.
  intros Hn Hd. split.
  - intros Hlen.
    pose proof (decimal_from_bound (Go.FormatUint n) 0 (FormatUint_plain n Hn) ltac:(lia)) as Hb.
    rewrite FormatUint_value in Hb by done.
    eapply Z.lt_le_trans; [apply Hb|]. rewrite Z.mul_1_l.
    apply Z.pow_le_mono_r; lia.
  - intros Hlt. by apply (FormatUint_digits n d).
Qed.

Lemma length_fixed (n : Z) :
  0 <= n ->
  String.length (Go.fixed 10 n) = (String.length (Go.FormatUint (n / 10 ^ 10)) + 11)%nat.
Proof.
  intros Hn. unfold Go.fixed. change (Z.of_nat 10) with 10.
  rewrite string_length_append. cbn [String.length]. rewrite length_pad_left.
  destruct (FormatUint_digits (n mod 10 ^ 10) 10) as [_ Hl];
    [apply Z.mod_pos_bound; lia|lia|]. lia.
Qed.

(** The line of a finite value: it ends in a point and 10 digits, and it
    has exactly 24 characters exactly when the value fits. *)
Lemma Sprintf_f_body (s : bool) (n : Z) :
  0 <= n ->
  fixed_point_line 10 (Go.pad_left " " 24 (Go.sign_of s (Go.fixed 10 n))) /\
  (String.length (Go.pad_left " " 24 (Go.sign_of s (Go.fixed 10 n))) = 24%nat <->
   n < (if s then 10 ^ 22 else 10 ^ 23)).
Proof.
  intros Hn. split.
  - destruct (fixed_shape n (Z.max 1 n)) as (ip & frac & E & Hi & _ & Hfl & Hf); [|lia|].
    { split; [done|]. destruct (Z.eq_dec n 0) as [->|]; [done|].
      eapply Z.lt_le_trans; [apply (Z.pow_gt_lin_r 10 n); lia|].
      apply Z.pow_le_mono_r; lia. }
    rewrite E.
    exists (String.append (Go.replicate_char
              (24 - String.length (Go.sign_of s (String.append ip (String "." frac)))) " ")
              (Go.sign_of s ip)), frac.
    split; [|split; [|done]].
    + unfold Go.pad_left. rewrite string_append_assoc. by destruct s.
    + rewrite string_forall_append, string_forall_replicate_char by done.
      destruct s; cbn [Go.sign_of string_forall andb];
        by rewrite (string_forall_impl is_digit not_newline _ is_digit_not_newline Hi).
  - rewrite length_pad_left.
    assert (Hq : 0 <= n / 10 ^ 10) by (apply Z.div_pos; lia).
    assert (Hlen : String.length (Go.sign_of s (Go.fixed 10 n)) =
                   ((if s then 1 else 0) + String.length (Go.FormatUint (n / 10 ^ 10)) + 11)%nat).
    { destruct s; cbn [Go.sign_of String.length]; rewrite length_fixed by done; lia. }
    rewrite Hlen.
    pose proof (FormatUint_length (n / 10 ^ 10) (if s then 12 else 13) Hq
                  ltac:(destruct s; lia)) as Hd.
    assert (Hdiv : n / 10 ^ 10 < 10 ^ (if s then 12 else 13) <->
                   n < (if s then 10 ^ 22 else 10 ^ 23)).
    { destruct s.
      - change (10 ^ 22) with (10 ^ 12 * 10 ^ 10).
        split; intros H.
        + apply Z.nle_gt; intros Hc.
          apply (Z.div_le_mono _ _ (10 ^ 10)) in Hc; [|lia].
          rewrite Z.div_mul in Hc by lia. lia.
        + apply Z.div_lt_upper_bound; lia.
      - change (10 ^ 23) with (10 ^ 13 * 10 ^ 10).
        split; intros H.
        + apply Z.nle_gt; intros Hc.
          apply (Z.div_le_mono _ _ (10 ^ 10)) in Hc; [|lia].
          rewrite Z.div_mul in Hc by lia. lia.
        + apply Z.div_lt_upper_bound; lia. }
    rewrite <- Hdiv, <- Hd. destruct s; lia.
Qed.

Lemma Sprintf_f_line (v : float) :
  match Prim2SF v with
  | S754_zero _ | S754_finite _ _ _ =>
      fixed_point_line 10 (Go.Sprintf_f 24 10 v) /\
      (String.length (Go.Sprintf_f 24 10 v) = 24%nat <-> fits_24_10 v = true)
  | _ =>
      String.length (Go.Sprintf_f 24 10 v) = 24%nat /\
      string_forall no_digit (Go.Sprintf_f 24 10 v) = true
  end.
Proof.
  unfold Go.Sprintf_f, fits_24_10.
  destruct (Prim2SF v) as [s|s| |s m e].
  - destruct (Sprintf_f_body s 0 ltac:(lia)) as [Hshape Hlen].
    split; [exact Hshape|]. rewrite Hlen. split; [done|]. intros _. by destruct s.
  - by destruct s.
  - done.
  - destruct (Sprintf_f_body s (Go.scaled 10 m e) (scaled_nonneg _ _ _)) as [Hshape Hlen].
    split; [exact Hshape|]. rewrite Hlen. by rewrite Z.ltb_lt.
Qed.

Lemma generateWorldFile_unlines (px py minx maxy : float) :
  stitcher.generateWorldFile px py minx maxy =
  unlines [Go.Sprintf_f 24 10 px; Go.Sprintf_f 24 10 0; Go.Sprintf_f 24 10 0;
           Go.Sprintf_f 24 10 (- py); Go.Sprintf_f 24 10 minx; Go.Sprintf_f 24 10 maxy].
Proof.
  unfold stitcher.generateWorldFile.
  change (String "010" EmptyString) with (String newline EmptyString).
  rewrite !line_then. reflexivity.
Qed.

(** C8 (amended).  For all [float64] inputs the world file is six
    newline-terminated lines, the values [pixelSizeX], [0.0], [0.0],
    [-pixelSizeY], [originX], [originY] in this order, each printed with
    [%24.10f]: a line holds no newline and at least 24 characters.  The
    line of a finite value ends in a point and 10 decimal digits, and has
    exactly 24 characters exactly when the value fits ([fits_24_10]); a
    larger value gets a longer line.  NaN and the infinities are padded
    to 24 characters and have no digit.  Both pipelines write the same
    bytes. *)
Theorem world_file_layout (px py minx maxy : float) :
  stitcher.generateWorldFile px py minx maxy =
    unlines [Go.Sprintf_f 24 10 px; Go.Sprintf_f 24 10 0; Go.Sprintf_f 24 10 0;
             Go.Sprintf_f 24 10 (- py); Go.Sprintf_f 24 10 minx; Go.Sprintf_f 24 10 maxy] /\
  split_lines (stitcher.generateWorldFile px py minx maxy) =
    [Go.Sprintf_f 24 10 px; Go.Sprintf_f 24 10 0; Go.Sprintf_f 24 10 0;
     Go.Sprintf_f 24 10 (- py); Go.Sprintf_f 24 10 minx; Go.Sprintf_f 24 10 maxy] /\
  (forall v : float,
     string_forall not_newline (Go.Sprintf_f 24 10 v) = true /\
     (24 <= String.length (Go.Sprintf_f 24 10 v))%nat /\
     match Prim2SF v with
     | S754_zero _ | S754_finite _ _ _ =>
         fixed_point_line 10 (Go.Sprintf_f 24 10 v) /\
         (String.length (Go.Sprintf_f 24 10 v) = 24%nat <-> fits_24_10 v = true)
     | _ =>
         String.length (Go.Sprintf_f 24 10 v) = 24%nat /\
         string_forall no_digit (Go.Sprintf_f 24 10 v) = true
     end) /\
  tile.worldFileLines px py minx maxy = stitcher.generateWorldFile px py minx maxy.
Proof.
  split; [apply generateWorldFile_unlines|].
  split; [apply generateWorldFile_lines|].
  split; [|reflexivity].
  intros v. destruct (Sprintf_f_plain v) as [Hplain Hmin].
  split; [exact Hplain|]. split; [exact Hmin|]. apply Sprintf_f_line.
Qed.

(** Four values that fit, and a first value that does not: its line has
    25 characters. *)
Lemma world_file_layout_witness :
  stitcher.generateWorldFile 1.5 2.5 (-100.25) 200.125 =
    unlines
      ["            1.5000000000"; "            0.0000000000"; "            0.0000000000";
       "           -2.5000000000"; "         -100.2500000000"; "          200.1250000000"]%string /\
  String.length (Go.Sprintf_f 24 10 1.5) = 24%nat /\
  String.length (Go.Sprintf_f 24 10 1e13) <> 24%nat.
Proof.
  destruct (world_file_layout 1.5 2.5 (-100.25) 200.125) as (Hl & _ & Hv & _).
  split; [rewrite Hl; vm_compute; reflexivity|].
  split.
  - destruct (Hv 1.5%float) as (_ & _ & Hfin).
    destruct (Prim2SF 1.5) eqn:E; vm_compute in E; try discriminate E.
    apply Hfin. vm_compute. reflexivity.
  - destruct (Hv 1e13%float) as (_ & _ & Hfin).
    destruct (Prim2SF 1e13) eqn:E; vm_compute in E; try discriminate E.
    intros H24. apply Hfin in H24. vm_compute in H24. discriminate H24.
Defined.

(** C8 as stated fails at [pixelSizeX = 10^13]: the first line has 25
    characters. *)
Lemma world_file_six_lines_of_24_fails : ~ world_file_six_lines_of_24.
Proof.
  intros H. destruct (H 1e13%float 1%float 0%float 0%float) as [_ Hall].
  rewrite generateWorldFile_lines in Hall.
  apply Forall_cons in Hall as [[Hlen _] _].
  vm_compute in Hlen. discriminate Hlen.
Qed.

(** ** Decoded tiles are rasters *)

Lemma for_loop_preserves {S : Type} (I : S -> Prop) (n : nat) (lo : Z)
  (body : Z -> S -> run S) (s s' : S) :
  (forall i s s', body i s = Done s' -> I s -> I s') ->
  Go.for_loop n lo body s = Done s' -> I s -> I s'.
Proof.
  intros Hbody. revert lo s. induction n as [|n IH]; intros lo s Hrun Hs.
  - by injection Hrun as <-.
  - cbn [Go.for_loop] in Hrun.
    destruct (body lo s) as [s1|] eqn:Hb; cbn [mbind run_bind] in Hrun; [|discriminate Hrun].
    eapply IH; [exact Hrun|]. eapply Hbody; eauto.
Qed.

Lemma store_length (l : list Z) (i v : Z) (l' : list Z) :
  Go.store l i v = Done l' -> length l' = length l.
Proof.
  unfold Go.store. destruct ((i <? 0) || _); [done|].
  intros [= <-]. apply length_insert.
Qed.

Lemma bind_done {A B : Type} (m : run A) (k : A -> run B) (b : B) :
  mbind k m = Done b -> exists a, m = Done a /\ k a = Done b.
Proof. destruct m as [a|]; [|done]. intros H. by exists a. Qed.

Lemma fill_pixels_length (img : Image) (width height : Z) (alpha : Z -> Z)
  (buf buf' : list Z) :
  fill_pixels img width height alpha buf = Done buf' -> length buf' = length buf.
Proof.
  unfold fill_pixels, Go.for_lt. intros H.
  eapply (for_loop_preserves (fun b => length b = length buf)); [|exact H|reflexivity].
  intros y b b' Hrow Hb.
  eapply (for_loop_preserves (fun b => length b = length buf)); [|exact Hrow|exact Hb].
  intros x c c' Hpix Hc. cbv beta in Hpix.
  destruct (At img x y) as [[[r g] bl] a]. cbv beta iota in Hpix.
  apply bind_done in Hpix as (c1 & H1 & Hpix).
  apply bind_done in Hpix as (c2 & H2 & Hpix).
  apply bind_done in Hpix as (c3 & H3 & Hpix).
  apply store_length in H1, H2, H3, Hpix. congruence.
Qed.

(** Every tile the HTTP pipeline decodes is a raster, as the placement
    theorems ask. *)
Lemma imageToImageData_raster (img : Image) (d : stitcher.ImageData.t) :
  0 <= Dx img -> 0 <= Dy img -> Dx img * Dy img * 4 < 2 ^ 63 ->
  stitcher.imageToImageData img = Done d ->
  raster (stitcher.ImageData.width d) (stitcher.ImageData.height d) (stitcher.ImageData.buf d).
Proof.
  intros Hx Hy Hfit. unfold stitcher.imageToImageData, make.
  assert (Hxy : 0 <= Dx img * Dy img) by (apply Z.mul_nonneg_nonneg; lia).
  rewrite (int_id (Dx img * Dy img)) by (unfold Go.is_int; lia).
  rewrite (int_id (Dx img * Dy img * 4)) by (unfold Go.is_int; lia).
  destruct (Z.ltb_spec (Dx img * Dy img * 4) 0); [lia|].
  cbn [mbind run_bind].
  destruct (fill_pixels _ _ _ _ _) as [buf|] eqn:Hfill; cbn [mbind run_bind]; [|done].
  intros [= <-]. cbn.
  apply fill_pixels_length in Hfill. rewrite length_replicate in Hfill.
  unfold raster. rewrite Hfill. repeat split; lia.
Qed.

(** ** The coordinate functions *)

(** The HTTP pipeline carries its own copies of the coordinate functions
    of package [tile]; they are the same functions. *)
Lemma coordinate_copies (M : Go.Math) :
  stitcher.latlon2tile M = tile.LatLonToTile M /\
  stitcher.tile2latlon M = tile.TileToLatLon M /\
  stitcher.projectlatlon M = tile.ProjectLatLon M /\
  stitcher.buildURL = tile.BuildURL /\
  stitcher.alphaBlend = tile.AlphaBlend.
Proof. repeat split. Qed.

(** The longitude goes through binary64 arithmetic only: 13.5 degrees
    comes back from the 32-bit fixed-point coordinate a little smaller,
    within the step [360 / 2^32] of the grid. *)
Example longitude_round_trip :
  let '(x, y) := tile.LatLonToTile flat_math 0 13.5 32 in
  let '(_, lon) := tile.TileToLatLon flat_math x y 32 in
  x = 2308544921 /\ (lon <? 13.5)%float = true /\ (13.5 - 0x1.68p-24 <? lon)%float = true.
Proof. vm_compute. repeat split. Qed.

(* ================================================================== *)
(** * Part III: the code around the claims *)

(** ** The decoding loops *)

Lemma fill_pixels_spec (img : Image) (width height : Z) (alpha : Z -> Z) (buf : list Z) :
  raster width height buf ->
  exists buf',
    fill_pixels img width height alpha buf = Done buf' /\
    (length buf' = length buf :> nat) /\
    forall x y, 0 <= x < width -> 0 <= y < height ->
      get4 buf' (y * width + x) = unpacked img alpha x y.
Proof.
  intros (Hw & Hh & Hlen & Hfit). unfold fill_pixels.
  destruct (for_lt_inv
    (fun y b => (length b = length buf :> nat) /\
       forall x y', 0 <= x < width -> 0 <= y' < y ->
         get4 b (y' * width + x) = unpacked img alpha x y')
    height
    (fun y buf => Go.for_lt 0 width (fun x buf =>
       let '(r, g, b, a) := At img x y in
       let idx := Go.int (Go.int (Go.int (y * width) + x) * 4) in
       buf ← Go.store buf idx (Z.shiftr r 8 mod 256);
       buf ← Go.store buf (Go.int (idx + 1)) (Z.shiftr g 8 mod 256);
       buf ← Go.store buf (Go.int (idx + 2)) (Z.shiftr b 8 mod 256);
       Go.store buf (Go.int (idx + 3)) (alpha a)) buf) buf Hh) as (buf' & Hrun & Hl & Hpix).
  - split; [done|]. intros; lia.
  - intros y b Hy [Hb Hrows].
    destruct (for_lt_inv
      (fun x c => (length c = length buf :> nat) /\
         (forall x' y', 0 <= x' < width -> 0 <= y' < y ->
            get4 c (y' * width + x') = unpacked img alpha x' y') /\
         (forall x', 0 <= x' < x -> get4 c (y * width + x') = unpacked img alpha x' y))
      width
      (fun x buf =>
         let '(r, g, b, a) := At img x y in
         let idx := Go.int (Go.int (Go.int (y * width) + x) * 4) in
         buf ← Go.store buf idx (Z.shiftr r 8 mod 256);
         buf ← Go.store buf (Go.int (idx + 1)) (Z.shiftr g 8 mod 256);
         buf ← Go.store buf (Go.int (idx + 2)) (Z.shiftr b 8 mod 256);
         Go.store buf (Go.int (idx + 3)) (alpha a)) b Hw) as (c & Hc & Hcl & Hcr & Hcx).
    + split; [done|]. split; [done|]. intros; lia.
    + intros x c Hx (Hcl & Hcr & Hcx).
      assert (Hq : 0 <= y * width + x < width * height) by nia.
      assert (Hyw : 0 <= y * width) by (apply Z.mul_nonneg_nonneg; lia).
      exists (put4 c (y * width + x) (unpacked img alpha x y)).
      split.
      * unfold unpacked. destruct (At img x y) as [[[r g] bl] a]. cbv zeta.
        rewrite (int_id (y * width)) by (unfold Go.is_int; lia).
        rewrite (int_id (y * width + x)) by (unfold Go.is_int; lia).
        rewrite (int_id ((y * width + x) * 4)) by (unfold Go.is_int; lia).
        replace ((y * width + x) * 4) with (4 * (y * width + x)) by lia.
        apply (store4_in c (y * width + x)
                 (Z.shiftr r 8 mod 256, Z.shiftr g 8 mod 256, Z.shiftr bl 8 mod 256, alpha a));
          lia.
      * rewrite length_put4. split; [done|]. split.
        -- intros x' y' Hx' Hy'. rewrite get4_put4_ne by nia. by apply Hcr.
        -- intros x' Hx'. destruct (Z.eq_dec x' x) as [->|Hne].
           ++ apply get4_put4; lia.
           ++ rewrite get4_put4_ne by lia. apply Hcx. lia.
    + exists c. split; [exact Hc|]. split; [done|].
      intros x y' Hx Hy'. destruct (Z.eq_dec y' y) as [->|Hne].
      * by apply Hcx.
      * apply Hcr; [done|lia].
  - exists buf'. split; [exact Hrun|]. split; [done|]. exact Hpix.
Qed.

Lemma make_raster (width height : Z) :
  0 <= width < 2 ^ 24 -> 0 <= height < 2 ^ 24 ->
  exists buf, make (Go.int (Go.int (width * height) * 4)) = Done buf /\
              raster width height buf.
Proof.
  intros Hw Hh.
  assert (Hwh : 0 <= width * height < 2 ^ 48) by nia.
  rewrite (int_id (width * height)) by (unfold Go.is_int; lia).
  rewrite int_id by (unfold Go.is_int; lia).
  unfold make. destruct (Z.ltb_spec (width * height * 4) 0); [lia|].
  eexists. split; [done|]. unfold raster. rewrite length_replicate. lia.
Qed.

Lemma make_fits (img : Image) :
  fits img ->
  exists buf, make (Go.int (Go.int (Dx img * Dy img) * 4)) = Done buf /\
              raster (Dx img) (Dy img) buf.
Proof.
  intros (Hx & Hy & Hfit).
  assert (Hxy : 0 <= Dx img * Dy img) by (apply Z.mul_nonneg_nonneg; lia).
  rewrite (int_id (Dx img * Dy img)) by (unfold Go.is_int; lia).
  rewrite int_id by (unfold Go.is_int; lia).
  unfold make. destruct (Z.ltb_spec (Dx img * Dy img * 4) 0); [lia|].
  eexists. split; [done|]. unfold raster. rewrite length_replicate. lia.
Qed.

(** The decoded tile of the HTTP pipeline: all four channels of every
    pixel, by their high bytes. *)
Lemma imageToImageData_spec (img : Image) :
  fits img ->
  exists d,
    stitcher.imageToImageData img = Done d /\
    stitcher.ImageData.width d = Dx img /\ stitcher.ImageData.height d = Dy img /\
    stitcher.ImageData.depth d = 4 /\
    raster (Dx img) (Dy img) (stitcher.ImageData.buf d) /\
    forall x y, 0 <= x < Dx img -> 0 <= y < Dy img ->
      get4 (stitcher.ImageData.buf d) (y * Dx img + x) =
      unpacked img (fun a => Z.shiftr a 8 mod 256) x y.
Proof.
  intros Hfit. destruct (make_fits img Hfit) as (buf & Hmake & Hbuf).
  destruct (fill_pixels_spec img (Dx img) (Dy img) (fun a => Z.shiftr a 8 mod 256) buf Hbuf)
    as (buf' & Hfill & Hlen & Hpix).
  unfold stitcher.imageToImageData. rewrite Hmake. cbn [mbind run_bind].
  rewrite Hfill. cbn [mbind run_bind].
  eexists. split; [done|]. cbn. repeat split; try done.
  all: try (destruct Hbuf as (? & ? & ? & ?); lia).
Qed.

Lemma decodeImage_total (w : World) (data : list Z) :
  decodes_rasters w ->
  exists r, stitcher.decodeImage w data = Done r /\
    forall img, r = inr img ->
      raster (stitcher.ImageData.width img) (stitcher.ImageData.height img)
             (stitcher.ImageData.buf img).
Proof.
  intros Hw. unfold stitcher.decodeImage, stitcher.readPNG, stitcher.readJPEG.
  assert (Hgo : forall i, fits i ->
    exists r, (d ← stitcher.imageToImageData i; Done (inr d)) = Done r /\
      forall img, r = (inr img : string + stitcher.ImageData.t) ->
        raster (stitcher.ImageData.width img) (stitcher.ImageData.height img)
               (stitcher.ImageData.buf img)).
  { intros i Hi. destruct (imageToImageData_spec i Hi) as (d & Hd & Ew & Eh & _ & Hr & _).
    rewrite Hd. cbn [mbind run_bind]. eexists. split; [done|].
    intros img [= <-]. by rewrite Ew, Eh. }
  destruct (tile.has_magic data [137; 80; 78; 71]).
  { destruct (png_Decode w data) as [err|i] eqn:E.
    - eexists. split; [done|]. intros img [=].
    - apply Hgo. apply (Hw data). by left. }
  destruct (tile.has_magic data [255; 216]).
  { destruct (jpeg_Decode w data) as [err|i] eqn:E.
    - eexists. split; [done|]. intros img [=].
    - apply Hgo. apply (Hw data). by right. }
  eexists. split; [done|]. intros img [=].
Qed.

(** ** The grid is computed without a panic up to zoom 24 *)

Lemma shift_counts_ok (zoom : Z) :
  0 <= zoom <= 24 ->
  Go.int (32 - Go.int (zoom + 8)) = 24 - zoom /\ Go.int (32 - zoom) = 32 - zoom.
Proof.
  intros H.
  rewrite (int_id (zoom + 8)) by (unfold Go.is_int; lia).
  rewrite !int_id by (unfold Go.is_int; lia). lia.
Qed.

Lemma shl_ok (x s : Z) : 0 <= s -> Go.shl x s = Done (Go.int (Z.shiftl x s)).
Proof. intros H. unfold Go.shl. by destruct (Z.ltb_spec s 0); [lia|]. Qed.

Lemma shr32_ok (x s : Z) : 0 <= s -> Go.shr32 x s = Done (Z.shiftr x s).
Proof. intros H. unfold Go.shr32. by destruct (Z.ltb_spec s 0); [lia|]. Qed.

Lemma resolve_total (w : World) (opts : stitcher.Options.t) :
  0 <= stitcher.Options.Zoom opts <= 24 ->
  exists p, stitcher.resolve w opts = Done p.
Proof.
  intros Hz. destruct (shift_counts_ok _ Hz) as [E8 E0].
  unfold stitcher.resolve, stitcher.corners. rewrite E8, E0.
  destruct (stitcher.Options.Mode opts =? stitcher.ModeCentered).
  - destruct (stitcher.latlon2tile _ _ _ _) as [cx cy].
    rewrite !shl_ok by lia. cbn [mbind run_bind].
    destruct (stitcher.tile2latlon _ _ _ _) as [maxLat minLon].
    destruct (stitcher.tile2latlon _ _ _ _) as [minLat maxLon].
    cbn [mbind run_bind]. rewrite !shr32_ok by lia. cbn [mbind run_bind]. by eexists.
  - destruct (stitcher.latlon2tile _ _ _ _) as [x1 y1].
    destruct (stitcher.latlon2tile _ _ _ _) as [x2 y2].
    cbn [mbind run_bind]. rewrite !shr32_ok by lia. cbn [mbind run_bind]. by eexists.
Qed.


(** ** Loops with [return] *)

Lemma for_each_inv {A S R : Type} (I : S -> Prop) (Q : R -> Prop) (l : list A)
  (body : A -> S -> run (Go.flow S R)) (s : S) :
  I s ->
  (forall a s, I s ->
     exists r, body a s = Done r /\
       match r with Go.Next s' => I s' | Go.Return v => Q v end) ->
  exists r, Go.for_each l body s = Done r /\
    match r with Go.Next s' => I s' | Go.Return v => Q v end.
Proof.
  intros Hs Hbody. revert s Hs. induction l as [|a l IH]; intros s Hs.
  - exists (Go.Next s). done.
  - cbn [Go.for_each]. destruct (Hbody a s Hs) as (r & Hr & Hpost). rewrite Hr.
    cbn [mbind run_bind]. destruct r as [s'|v]; [by apply IH|].
    exists (Go.Return v). done.
Qed.

(** ** The HTTP pipeline runs without a panic *)

Lemma tryURLs_total (w : World) (opts : stitcher.Options.t)
  (tx ty xoff yoff width height : Z) (urls : list string) (st : stitcher.Loop.t) :
  decodes_rasters w -> Go.is_int xoff -> Go.is_int yoff ->
  raster width height (stitcher.Loop.buf st) ->
  exists r,
    stitcher.tryURLs w opts tx ty xoff yoff width height urls st = Done r /\
    match r with
    | Go.Next (st', _) => raster width height (stitcher.Loop.buf st')
    | Go.Return v => result_xor_error v.2 /\ v.2.1 = None
    end.
Proof.
  intros Hw Hx Hy. revert st. induction urls as [|t urls IH]; intros st Hst.
  - eexists. split; [done|]. done.
  - cbn [stitcher.tryURLs].
    destruct (ctx_Done w (stitcher.Loop.requests st)) as [err|].
    { eexists. split; [done|]. done. }
    destruct (stitcher.downloadTile _ _ _ _) as [err|data]; [by apply IH|].
    destruct (decodeImage_total w data Hw) as (d & Hd & Hraster). rewrite Hd.
    cbn [mbind run_bind]. destruct d as [err|img]; [by apply IH|].
    destruct (negb _ || negb _); [by apply IH|].
    destruct (copyTileToBuffer_spec img (stitcher.Loop.buf st) xoff yoff width height
                (Hraster img eq_refl) Hst Hx Hy) as (buf' & Hcopy & Hlen & _).
    cbn [stitcher.requested stitcher.Loop.buf]. rewrite Hcopy. cbn [mbind run_bind].
    eexists. split; [done|]. cbn. by eapply raster_same_length.
Qed.

Lemma tiles_total (w : World) (opts : stitcher.Options.t) (p : Plan.t)
  (st : stitcher.Loop.t) :
  decodes_rasters w ->
  raster (Plan.width p) (Plan.height p) (stitcher.Loop.buf st) ->
  exists r,
    stitcher.tiles w opts p st = Done r /\
    match r with
    | Go.Next st' => raster (Plan.width p) (Plan.height p) (stitcher.Loop.buf st')
    | Go.Return v => result_xor_error v.2 /\ v.2.1 = None
    end.
Proof.
  intros Hw Hst. unfold stitcher.tiles.
  apply (for_each_inv
    (fun st => raster (Plan.width p) (Plan.height p) (stitcher.Loop.buf st))
    (fun v : list string * stitcher.returned => result_xor_error v.2 /\ v.2.1 = None));
    [done|].
  intros ty st1 Hst1.
  apply (for_each_inv
    (fun st => raster (Plan.width p) (Plan.height p) (stitcher.Loop.buf st))
    (fun v : list string * stitcher.returned => result_xor_error v.2 /\ v.2.1 = None));
    [done|].
  intros tx st2 Hst2. unfold stitcher.position.
  destruct (tryURLs_total w opts tx ty
    (Go.int (Go.int (Go.uint32 (tx - Plan.tx1 p) * stitcher.Options.TileSize opts) - Plan.xa p))
    (Go.int (Go.int (Go.uint32 (ty - Plan.ty1 p) * stitcher.Options.TileSize opts) - Plan.ya p))
    (Plan.width p) (Plan.height p) (stitcher.Options.TileURLs opts) st2 Hw
    (int_is_int _) (int_is_int _) Hst2) as (r & Hr & Hpost).
  rewrite Hr. cbn [mbind run_bind].
  destruct r as [[st' []]|v]; cbn [negb]; eexists; (split; [done|]); done.
Qed.

Lemma finish_xor (w : World) (opts : stitcher.Options.t) (p : Plan.t)
  (minX maxY px py : float) (total : Z) (st : stitcher.Loop.t) :
  result_xor_error (stitcher.finish w opts p minX maxY px py total st).
Proof.
  unfold stitcher.finish.
  destruct (_ =? 0); [done|]. destruct (_ >? _); [done|].
  destruct (_ =? stitcher.FormatPNG).
  - by destruct (stitcher.encodePNG _ _ _ _).
  - destruct (_ =? stitcher.FormatGeoTIFF); [done|].
    by destruct (stitcher.encodePNG _ _ _ _).
Qed.

Lemma Stitch_total (w : World) (opts : stitcher.Options.t) :
  decodes_rasters w ->
  0 <= stitcher.Options.Zoom opts <= 24 ->
  exists requests ret,
    stitcher.Stitch w opts = Done (requests, ret) /\ result_xor_error ret.
Proof.
  intros Hw Hz. destruct (resolve_total w opts Hz) as (p & Hp).
  destruct (resolve_canvas_small _ _ _ Hp) as [Hpw Hph].
  unfold stitcher.Stitch. rewrite Hp. cbn [mbind run_bind].
  destruct (_ >? _); [by eexists _, _|].
  destruct (stitcher.projectlatlon _ _ _) as [minX minY].
  destruct (stitcher.projectlatlon _ _ _) as [maxX maxY].
  destruct (make_raster _ _ Hpw Hph) as (buf & Hmake & Hbuf).
  rewrite Hmake. cbn [mbind run_bind].
  destruct (tiles_total w opts p (stitcher.start buf) Hw Hbuf) as (r & Hr & Hpost).
  rewrite Hr. cbn [mbind run_bind].
  destruct r as [st|[reqs ret]].
  - eexists _, _. split; [done|]. apply finish_xor.
  - eexists _, _. split; [done|]. by destruct Hpost.
Qed.

(** ** The CLI pipeline *)









(** ** What the loops of [Stitch] keep *)

Lemma for_each_prefix {A S R : Type} (J : list A -> S -> Prop) (l : list A)
  (body : A -> S -> run (Go.flow S R)) (s s' : S) :
  J [] s ->
  (forall pre a s s', J pre s -> body a s = Done (Go.Next s') -> J (pre ++ [a]) s') ->
  Go.for_each l body s = Done (Go.Next s') -> J l s'.
Proof.
  intros Hs Hbody.
  assert (Hgen : forall pre s, J pre s ->
            Go.for_each l body s = Done (Go.Next s') -> J (pre ++ l) s').
  { induction l as [|a l IH]; intros pre s0 Hpre Hrun.
    - injection Hrun as <-. by rewrite app_nil_r.
    - cbn [Go.for_each] in Hrun.
      destruct (body a s0) as [[s1|v]|] eqn:Hb; cbn [mbind run_bind] in Hrun;
        [|discriminate Hrun|discriminate Hrun].
      replace (pre ++ a :: l) with ((pre ++ [a]) ++ l) by (by rewrite <- app_assoc).
      eapply IH; [|exact Hrun]. eapply Hbody; eauto. }
  intros Hrun. by apply (Hgen [] s).
Qed.

Lemma for_each_return {A S R : Type} (Q : R -> Prop) (l : list A)
  (body : A -> S -> run (Go.flow S R)) (s : S) (v : R) :
  (forall a s v, body a s = Done (Go.Return v) -> Q v) ->
  Go.for_each l body s = Done (Go.Return v) -> Q v.
Proof.
  intros Hbody. revert s. induction l as [|a l IH]; intros s Hrun.
  - discriminate Hrun.
  - cbn [Go.for_each] in Hrun.
    destruct (body a s) as [[s1|v1]|] eqn:Hb; cbn [mbind run_bind] in Hrun;
      [by eapply IH| |discriminate Hrun].
    injection Hrun as <-. by eapply Hbody.
Qed.

Section Attempts.

Variables (w : World) (opts : stitcher.Options.t).
Variables (tx ty xoff yoff width height : Z).

Let url_of (t : string) : string := stitcher.buildURL t (stitcher.Options.Zoom opts) tx ty.

(** One tile position: the templates are tried in order; each failed one
    leaves a ledger entry with its URL and no status code, and a placed
    tile ends the attempts. *)
Lemma tryURLs_step (urls : list string) (st st' : stitcher.Loop.t) (b : bool) :
  stitcher.tryURLs w opts tx ty xoff yoff width height urls st = Done (Go.Next (st', b)) ->
  exists new last,
    stitcher.Loop.failedTiles st' = stitcher.Loop.failedTiles st ++ new /\
    Forall (fun ft => stitcher.FailedTile.StatusCode ft = None) new /\
    stitcher.Loop.requests st' =
      stitcher.Loop.requests st ++ map stitcher.FailedTile.URL new ++ last /\
    map stitcher.FailedTile.URL new ++ last =
      map url_of (take (length new + length last) urls) /\
    (b = true -> length last = 1%nat /\
       stitcher.Loop.successfulTiles st' = Go.int (stitcher.Loop.successfulTiles st + 1)) /\
    (b = false -> last = [] /\ length new = length urls /\
       stitcher.Loop.successfulTiles st' = stitcher.Loop.successfulTiles st /\
       stitcher.Loop.buf st' = stitcher.Loop.buf st).
Proof.
  revert st. induction urls as [|t urls IH]; intros st H.
  - injection H as <- <-. exists [], []. cbn. rewrite !app_nil_r. repeat split; done.
  - cbn [stitcher.tryURLs] in H.
    destruct (ctx_Done w (stitcher.Loop.requests st)); [discriminate H|].
    fold (url_of t) in H.
    assert (Hgo : forall err,
      stitcher.tryURLs w opts tx ty xoff yoff width height urls
        (stitcher.failed (stitcher.requested st (url_of t)) (url_of t) err)
        = Done (Go.Next (st', b)) ->
      exists new last,
        stitcher.Loop.failedTiles st' = stitcher.Loop.failedTiles st ++ new /\
        Forall (fun ft => stitcher.FailedTile.StatusCode ft = None) new /\
        stitcher.Loop.requests st' =
          stitcher.Loop.requests st ++ map stitcher.FailedTile.URL new ++ last /\
        map stitcher.FailedTile.URL new ++ last =
          map url_of (take (length new + length last) (t :: urls)) /\
        (b = true -> length last = 1%nat /\
           stitcher.Loop.successfulTiles st' =
           Go.int (stitcher.Loop.successfulTiles st + 1)) /\
        (b = false -> last = [] /\ length new = length (t :: urls) /\
           stitcher.Loop.successfulTiles st' = stitcher.Loop.successfulTiles st /\
           stitcher.Loop.buf st' = stitcher.Loop.buf st)).
    { intros err Hrec.
      apply IH in Hrec as (new & last & Hf & Hnone & Hr & Hu & Ht & Hfalse).
      cbn in Hf, Hr, Ht, Hfalse.
      eexists (_ :: new), last. split; [by rewrite Hf, <- app_assoc|].
      split; [by constructor|].
      split; [by rewrite Hr, <- !app_assoc|].
      split; [cbn; by rewrite Hu|].
      split; [done|].
      intros Hb. destruct (Hfalse Hb) as (? & ? & ? & ?). cbn. repeat split; try done. lia. }
    destruct (stitcher.downloadTile _ _ _ _) as [err|data]; [by apply (Hgo err)|].
    destruct (stitcher.decodeImage w data) as [[err|img]|]; cbn [mbind run_bind] in H;
      [by eapply Hgo| |discriminate H].
    destruct (negb _ || negb _); [by eapply Hgo|].
    destruct (stitcher.copyTileToBuffer _ _ _ _ _ _) as [buf|]; cbn [mbind run_bind] in H;
      [|discriminate H].
    injection H as <- <-.
    exists [], [url_of t]. cbn. repeat split; try done. by rewrite app_nil_r.
Qed.

(** A context error is the only way out of the loop with [return]: it
    comes with no result. *)
Lemma tryURLs_return (urls : list string) (st : stitcher.Loop.t)
  (v : list string * stitcher.returned) :
  stitcher.tryURLs w opts tx ty xoff yoff width height urls st = Done (Go.Return v) ->
  exists err, v.2 = (None, Some (stitcher.ErrContext err)).
Proof.
  revert st. induction urls as [|t urls IH]; intros st H.
  - discriminate H.
  - cbn [stitcher.tryURLs] in H.
    destruct (ctx_Done w (stitcher.Loop.requests st)) as [err|].
    { injection H as <-. by exists err. }
    destruct (stitcher.downloadTile _ _ _ _) as [err|data]; [by eapply IH|].
    destruct (stitcher.decodeImage w data) as [[err|img]|]; cbn [mbind run_bind] in H;
      [by eapply IH| |discriminate H].
    destruct (negb _ || negb _); [by eapply IH|].
    destruct (stitcher.copyTileToBuffer _ _ _ _ _ _) as [buf|]; cbn [mbind run_bind] in H;
      discriminate H.
Qed.

End Attempts.

Lemma position_next (w : World) (opts : stitcher.Options.t) (p : Plan.t) (ty tx : Z)
  (st st' : stitcher.Loop.t) :
  stitcher.position w opts p ty tx st = Done (Go.Next st') ->
  exists b,
    stitcher.tryURLs w opts tx ty
      (Go.int (Go.int (Go.uint32 (tx - Plan.tx1 p) * stitcher.Options.TileSize opts) - Plan.xa p))
      (Go.int (Go.int (Go.uint32 (ty - Plan.ty1 p) * stitcher.Options.TileSize opts) - Plan.ya p))
      (Plan.width p) (Plan.height p) (stitcher.Options.TileURLs opts) st
    = Done (Go.Next (st', b)).
Proof.
  unfold stitcher.position. intros H.
  apply bind_done in H as (r & Hr & H).
  destruct r as [[st1 b]|v]; [|discriminate H].
  exists b. rewrite Hr. destruct b; cbn in H; by injection H as <-.
Qed.

Lemma tiles_return (w : World) (opts : stitcher.Options.t) (p : Plan.t)
  (st : stitcher.Loop.t) (v : list string * stitcher.returned) :
  stitcher.tiles w opts p st = Done (Go.Return v) ->
  exists err, v.2 = (None, Some (stitcher.ErrContext err)).
Proof.
  unfold stitcher.tiles.
  apply (for_each_return (fun v : list string * stitcher.returned =>
           exists err, v.2 = (None, Some (stitcher.ErrContext err)))).
  intros ty st1 v1.
  apply (for_each_return (fun v : list string * stitcher.returned =>
           exists err, v.2 = (None, Some (stitcher.ErrContext err)))).
  intros tx st2 v2. unfold stitcher.position. intros H.
  apply bind_done in H as (r & Hr & H).
  destruct r as [[st3 b]|v3].
  - destruct b; discriminate H.
  - injection H as <-. by eapply tryURLs_return.
Qed.

Lemma accounted_step (w : World) (opts : stitcher.Options.t) (p : Plan.t) (ty tx k : Z)
  (st st' : stitcher.Loop.t) :
  0 <= k < 2 ^ 62 ->
  accounted k st ->
  stitcher.position w opts p ty tx st = Done (Go.Next st') ->
  accounted (k + 1) st'.
Proof.
  intros Hk (Hs & Hlen & Hsub & Hall) Hpos.
  apply position_next in Hpos as (b & Hrun).
  apply tryURLs_step in Hrun as (new & last & Hf & Hnone & Hr & _ & Htrue & Hfalse).
  unfold accounted. rewrite Hf, Hr.
  assert (Hsucc : stitcher.Loop.successfulTiles st' =
                  stitcher.Loop.successfulTiles st + Z.of_nat (length last)).
  { destruct b.
    - destruct (Htrue eq_refl) as [Hl ->]. rewrite Hl.
      apply int_id. unfold Go.is_int. lia.
    - destruct (Hfalse eq_refl) as (-> & _ & -> & _). cbn. lia. }
  assert (Hlast : (length last <= 1)%nat).
  { destruct b; [destruct (Htrue eq_refl); lia|destruct (Hfalse eq_refl) as [-> _]; cbn; lia]. }
  rewrite Hsucc. split; [lia|]. split.
  - rewrite !length_app, length_map. lia.
  - rewrite map_app. split.
    + apply sublist_app; [done|]. by apply sublist_inserts_r.
    + by apply Forall_app.
Qed.

Lemma range_le_length_small (lo hi : Z) :
  0 <= lo < 2 ^ 24 -> 0 <= hi < 2 ^ 24 ->
  Z.of_nat (length (Go.range_le lo hi)) <= 2 ^ 24.
Proof. intros Hlo Hhi. unfold Go.range_le. rewrite length_seqZ. lia. Qed.

Lemma tiles_accounted (w : World) (opts : stitcher.Options.t) (p : Plan.t)
  (buf : list Z) (st : stitcher.Loop.t) :
  stitcher.resolve w opts = Done p ->
  stitcher.tiles w opts p (stitcher.start buf) = Done (Go.Next st) ->
  accounted (positions p) st.
Proof.
  intros Hp Hrun.
  destruct (resolve_indices_small _ _ _ Hp) as (Hx1 & Hy1 & Hx2 & Hy2).
  pose proof (range_le_length_small _ _ Hx1 Hx2) as Hcols.
  pose proof (range_le_length_small _ _ Hy1 Hy2) as Hrows.
  unfold positions.
  set (rows := Go.range_le (Plan.ty1 p) (Plan.ty2 p)) in *.
  set (cols := Go.range_le (Plan.tx1 p) (Plan.tx2 p)) in *.
  unfold stitcher.tiles in Hrun. fold rows cols in Hrun.
  apply (fun H1 H2 => for_each_prefix
    (fun pre st => Z.of_nat (length pre) <= Z.of_nat (length rows) ->
                   accounted (Z.of_nat (length pre) * Z.of_nat (length cols)) st)
    rows _ _ _ H1 H2 Hrun); [| |lia].
  - intros _. cbn. unfold accounted. cbn. split; [lia|]. split; [lia|].
    split; constructor.
  - intros pre ty st1 st2 Hpre Hrow Hle.
    rewrite length_app in Hle. cbn [length] in Hle.
    specialize (Hpre ltac:(lia)).
    replace (Z.of_nat (length (pre ++ [ty])) * Z.of_nat (length cols))
      with (Z.of_nat (length pre) * Z.of_nat (length cols) + Z.of_nat (length cols))
      by (rewrite length_app; cbn [length]; lia).
    apply (fun H1 H2 => for_each_prefix
      (fun pre' st => Z.of_nat (length pre') <= Z.of_nat (length cols) ->
         accounted (Z.of_nat (length pre) * Z.of_nat (length cols) + Z.of_nat (length pre')) st)
      cols _ _ _ H1 H2 Hrow); [| |lia].
    + intros _. cbn [length]. by rewrite Z.add_0_r.
    + intros pre' tx st3 st4 Hpre' Hposn Hle'.
      rewrite length_app in Hle' |- *. cbn [length] in Hle' |- *.
      specialize (Hpre' ltac:(lia)).
      replace (Z.of_nat (length pre) * Z.of_nat (length cols) + Z.of_nat (length pre' + 1))
        with (Z.of_nat (length pre) * Z.of_nat (length cols) + Z.of_nat (length pre') + 1)
        by lia.
      eapply accounted_step; [|exact Hpre'|exact Hposn]. nia.
Qed.

(** Single template: every position makes exactly one request. *)
Lemma tiles_single_template (w : World) (opts : stitcher.Options.t) (p : Plan.t)
  (t : string) (st0 st : stitcher.Loop.t) :
  stitcher.Options.TileURLs opts = [t] ->
  stitcher.tiles w opts p st0 = Done (Go.Next st) ->
  stitcher.Loop.requests st =
    stitcher.Loop.requests st0 ++ grid_urls t (stitcher.Options.Zoom opts) p.
Proof.
  intros Ht Hrun. unfold grid_urls.
  set (rows := Go.range_le (Plan.ty1 p) (Plan.ty2 p)) in *.
  set (cols := Go.range_le (Plan.tx1 p) (Plan.tx2 p)) in *.
  unfold stitcher.tiles in Hrun. fold rows cols in Hrun.
  apply (fun H1 H2 => for_each_prefix
    (fun pre st => stitcher.Loop.requests st =
       stitcher.Loop.requests st0 ++
       flat_map (fun ty => map (fun tx => stitcher.buildURL t (stitcher.Options.Zoom opts) tx ty)
                               cols) pre)
    rows _ _ _ H1 H2 Hrun); [by rewrite app_nil_r|].
  intros pre ty st1 st2 Hpre Hrow.
  rewrite flat_map_app. cbn [flat_map]. rewrite app_nil_r, app_assoc, <- Hpre.
  apply (fun H1 H2 => for_each_prefix
    (fun pre' st => stitcher.Loop.requests st =
       stitcher.Loop.requests st1 ++
       map (fun tx => stitcher.buildURL t (stitcher.Options.Zoom opts) tx ty) pre')
    cols _ _ _ H1 H2 Hrow); [by rewrite app_nil_r|].
  intros pre' tx st3 st4 Hpre' Hposn.
  apply position_next in Hposn as (b & Hrun').
  apply tryURLs_step in Hrun' as (new & last & _ & _ & Hr & Hu & Htrue & Hfalse).
  rewrite Hr, Hpre', map_app, <- app_assoc. f_equal. cbn [map].
  rewrite Ht in Hu, Hfalse. rewrite Hu.
  assert (Hn : (length new + length last = 1)%nat).
  { destruct b.
    - destruct (Htrue eq_refl) as [Hl _].
      apply (f_equal length) in Hu.
      rewrite length_app, !length_map, length_take in Hu. cbn [length] in Hu. lia.
    - destruct (Hfalse eq_refl) as (-> & Hl & _). cbn in Hl |- *. lia. }
  rewrite Hn. done.
Qed.

(** ** How [Stitch] returns *)

Lemma Stitch_returns (w : World) (opts : stitcher.Options.t)
  (requests : list string) (ret : stitcher.returned) :
  stitcher.Stitch w opts = Done (requests, ret) ->
  exists p, stitcher.resolve w opts = Done p /\
    ((Plan.width p * Plan.height p > 10000 * 10000 /\ requests = [] /\
      ret = (None, Some (stitcher.Errorf
                           (stitcher.too_large (Plan.width p) (Plan.height p))))) \/
     (exists err, ret = (None, Some (stitcher.ErrContext err))) \/
     (exists st minX maxY px py,
        full_grid w opts p st /\ requests = stitcher.Loop.requests st /\
        ret = stitcher.finish w opts p minX maxY px py (stitcher.totalTiles opts p) st)).
Proof.
  unfold stitcher.Stitch. intros H.
  apply bind_done in H as (p & Hp & H). exists p. split; [done|].
  destruct (resolve_canvas_small _ _ _ Hp) as [Hw Hh].
  rewrite (int_id (Plan.width p * Plan.height p)) in H by (unfold Go.is_int; nia).
  destruct (Z.gtb_spec (Plan.width p * Plan.height p) (10000 * 10000)) as [Hbig|Hsmall].
  { injection H as <- <-. left. repeat split; [lia|done..]. }
  destruct (stitcher.projectlatlon _ _ _) as [minX minY].
  destruct (stitcher.projectlatlon _ _ _) as [maxX maxY].
  apply bind_done in H as (buf & Hmake & H).
  apply bind_done in H as (r & Hr & H).
  destruct r as [st|v].
  - injection H as <- <-. right. right.
    eexists st, _, _, _, _. split; [|done].
    split; [done|]. split; [lia|]. exists buf. split; [|done].
    by rewrite (int_id (Plan.width p * Plan.height p)) by (unfold Go.is_int; nia).
  - injection H as ->. right. left. apply tiles_return in Hr. exact Hr.
Qed.

Lemma finish_result (w : World) (opts : stitcher.Options.t) (p : Plan.t)
  (minX maxY px py : float) (total : Z) (st : stitcher.Loop.t) (r : stitcher.Result.t)
  (e : option stitcher.error) :
  stitcher.finish w opts p minX maxY px py total st = (Some r, e) ->
  e = None /\
  stitcher.Options.OutputFormat opts <> stitcher.FormatGeoTIFF /\
  stitcher.Loop.successfulTiles st <> 0 /\
  Z.of_nat (length (stitcher.Loop.failedTiles st)) <= total ÷ 2 /\
  stitcher.encodePNG w (stitcher.Loop.buf st) (Plan.width p) (Plan.height p)
    = inr (stitcher.Result.ImageData r) /\
  stitcher.Result.Width r = Plan.width p /\ stitcher.Result.Height r = Plan.height p /\
  stitcher.Result.WorldFileData r =
    (if stitcher.Options.GenerateWorldFile opts
     then Some (stitcher.generateWorldFile px py minX maxY) else None).
Proof.
  unfold stitcher.finish.
  destruct (Z.eqb_spec (stitcher.Loop.successfulTiles st) 0); [done|].
  destruct (Z.gtb_spec (Z.of_nat (length (stitcher.Loop.failedTiles st))) (total ÷ 2));
    [done|].
  destruct (Z.eqb_spec (stitcher.Options.OutputFormat opts) stitcher.FormatPNG) as [E|NE].
  - destruct (stitcher.encodePNG _ _ _ _) as [err|png]; [done|].
    intros [= <- <-]. cbn. repeat split; try done; try lia.
    rewrite E. done.
  - destruct (Z.eqb_spec (stitcher.Options.OutputFormat opts) stitcher.FormatGeoTIFF);
      [done|].
    destruct (stitcher.encodePNG _ _ _ _) as [err|png]; [done|].
    intros [= <- <-]. cbn. repeat split; try done; try lia.
Qed.

(** ** The HTTP handler *)

Lemma validated_inv (req : server.api.StitchRequest.t) :
  server.validateStitchRequest req = None ->
  0 <= server.api.StitchRequest.Zoom req <= 20 /\
  Go.Contains (server.api.TileSource.Url (server.api.StitchRequest.TileSource req)) "{z}" = true /\
  Go.Contains (server.api.TileSource.Url (server.api.StitchRequest.TileSource req)) "{x}" = true /\
  Go.Contains (server.api.TileSource.Url (server.api.StitchRequest.TileSource req)) "{y}" = true /\
  ((server.api.StitchRequest.Mode req = server.api.Bbox /\
    server.api.StitchRequest.Center req = None /\
    exists bbox, server.api.StitchRequest.Bbox req = Some bbox /\
      (server.api.BoundingBox.MaxLat bbox <=? server.api.BoundingBox.MinLat bbox)%float = false /\
      (server.api.BoundingBox.MaxLon bbox <=? server.api.BoundingBox.MinLon bbox)%float = false) \/
   (server.api.StitchRequest.Mode req = server.api.Centered /\
    server.api.StitchRequest.Bbox req = None /\
    exists center, server.api.StitchRequest.Center req = Some center /\
      0 < server.api.CenterPoint.Width center /\ 0 < server.api.CenterPoint.Height center)).
Proof.
  unfold server.validateStitchRequest. intros H.
  assert (Hrest :
    ((server.api.StitchRequest.Zoom req <? 0) || (server.api.StitchRequest.Zoom req >? 20)
     = false) /\
    (negb (Go.Contains (server.api.TileSource.Url (server.api.StitchRequest.TileSource req)) "{z}")
     || negb (Go.Contains (server.api.TileSource.Url (server.api.StitchRequest.TileSource req)) "{x}")
     || negb (Go.Contains (server.api.TileSource.Url (server.api.StitchRequest.TileSource req)) "{y}")
     = false)).
  { destruct (if String.eqb _ server.api.Bbox then _ else _); [discriminate H|].
    destruct (_ || _) eqn:Ez in H; [discriminate H|].
    destruct (String.eqb _ EmptyString) in H; [discriminate H|].
    destruct (_ || _) eqn:Eu in H; [discriminate H|]. done. }
  destruct Hrest as [Hz Hu].
  apply orb_false_iff in Hz as [Hz0 Hz20].
  apply orb_false_iff in Hu as [Hu Hy]. apply orb_false_iff in Hu as [Hzz Hx].
  apply negb_false_iff in Hzz, Hx, Hy.
  split; [destruct (Z.ltb_spec (server.api.StitchRequest.Zoom req) 0);
          destruct (Z.gtb_spec (server.api.StitchRequest.Zoom req) 20); try done; lia|].
  split; [done|]. split; [done|]. split; [done|].
  destruct (String.eqb_spec (server.api.StitchRequest.Mode req) server.api.Bbox) as [Em|_].
  - left. split; [done|].
    destruct (server.api.StitchRequest.Bbox req) as [bbox|]; [|discriminate H].
    destruct (server.api.StitchRequest.Center req); [discriminate H|].
    split; [done|]. exists bbox. split; [done|].
    destruct (_ <=? _)%float; [discriminate H|].
    destruct (_ <=? _)%float; [discriminate H|]. done.
  - destruct (String.eqb_spec (server.api.StitchRequest.Mode req) server.api.Centered)
      as [Em|_]; [|discriminate H].
    right. split; [done|].
    destruct (server.api.StitchRequest.Center req) as [center|]; [|discriminate H].
    destruct (server.api.StitchRequest.Bbox req); [discriminate H|].
    split; [done|]. exists center. split; [done|].
    destruct (Z.leb_spec (server.api.CenterPoint.Width center) 0); [discriminate H|].
    destruct (Z.leb_spec (server.api.CenterPoint.Height center) 0); [discriminate H|].
    lia.
Qed.

Lemma validated_converts (req : server.api.StitchRequest.t) :
  server.validateStitchRequest req = None ->
  exists opts,
    server.convertToStitcherOptions req = Done (opts, None) /\
    stitcher.Options.Zoom opts = server.api.StitchRequest.Zoom req /\
    stitcher.Options.TileURLs opts =
      [server.api.TileSource.Url (server.api.StitchRequest.TileSource req)] /\
    (stitcher.Options.OutputFormat opts = stitcher.FormatGeoTIFF <->
     exists o, server.api.StitchRequest.Output req = Some o /\
               server.api.OutputOptions.Format o = Some server.api.Geotiff).
Proof.
  intros H. apply validated_inv in H as (_ & _ & _ & _ & Hmode).
  unfold server.convertToStitcherOptions.
  assert (Hfmt : forall f : string,
    (if String.eqb f server.api.Png then stitcher.FormatPNG
     else if String.eqb f server.api.Geotiff then stitcher.FormatGeoTIFF else 0)
    = stitcher.FormatGeoTIFF <-> f = server.api.Geotiff).
  { intros f. destruct (String.eqb_spec f server.api.Png) as [->|_]; [done|].
    destruct (String.eqb_spec f server.api.Geotiff) as [->|]; [done|]. done. }
  destruct Hmode as [(Em & _ & bbox & Eb & _)|(Em & _ & center & Ec & _)].
  - rewrite Em, Eb. cbn [String.eqb]. eexists. split; [reflexivity|]. cbn.
    split; [done|]. split; [done|].
    destruct (server.api.StitchRequest.Output req) as [o|].
    + destruct (server.api.OutputOptions.Format o) as [f|] eqn:Ef.
      * rewrite Hfmt. split; [intros ->; by exists o|].
        intros (o' & [= <-] & Ef'). rewrite Ef in Ef'. by injection Ef'.
      * split; [done|]. intros (o' & [= <-] & Ef'). rewrite Ef in Ef'. done.
    + split; [done|]. by intros (o' & [=] & _).
  - rewrite Em, Ec. eexists. split; [reflexivity|]. cbn.
    split; [done|]. split; [done|].
    destruct (server.api.StitchRequest.Output req) as [o|].
    + destruct (server.api.OutputOptions.Format o) as [f|] eqn:Ef.
      * rewrite Hfmt. split; [intros ->; by exists o|].
        intros (o' & [= <-] & Ef'). rewrite Ef in Ef'. by injection Ef'.
      * split; [done|]. intros (o' & [= <-] & Ef'). rewrite Ef in Ef'. done.
    + split; [done|]. by intros (o' & [=] & _).
Qed.

Lemma solid_world_decodes (serve : string -> string + Response) :
  decodes_rasters (solid_world serve).
Proof.
  intros data img [H|H]; cbn in H.
  - unfold solid_png_Decode in H.
    repeat (destruct data as [|? data]; try discriminate H).
    injection H as <-. unfold fits. cbn. lia.
  - unfold solid_jpeg_Decode in H.
    repeat (destruct data as [|? data]; try discriminate H).
    injection H as <-. unfold fits. cbn. lia.
Qed.

Lemma handleStitchingError_status (e : stitcher.error) (id : option string) :
  (server.Reply.status (server.handleStitchingError e id) = 500 \/
   server.Reply.status (server.handleStitchingError e id) = 502 \/
   server.Reply.status (server.handleStitchingError e id) = 504) /\
  (forall data, server.Reply.content (server.handleStitchingError e id)
                <> server.ImageBody data) /\
  server.Reply.header (server.handleStitchingError e id) =
    [("Content-Type", "application/json")]%string.
Proof.
  destruct e as [msg|te|msg]; cbn.
  - split; [by left|done].
  - split; [right; by left|done].
  - destruct (String.eqb msg server.DeadlineExceeded); cbn;
      (split; [|done]); [right; by right|by left].
Qed.

(** The handler after validation and conversion. *)
Lemma handler_validated (w : World) (now : Z) (req : server.api.StitchRequest.t)
  (opts : stitcher.Options.t) (requests : list string) (ret : stitcher.returned) :
  server.validateStitchRequest req = None ->
  server.convertToStitcherOptions req = Done (opts, None) ->
  stitcher.Stitch w opts = Done (requests, ret) ->
  server.CreateStitchedImage w now (inr req) =
  match ret with
  | (_, Some e) =>
      Done (requests, server.handleStitchingError e (Some (server.generateRequestID now)))
  | (None, None) => Panics
  | (Some result, None) =>
      let format :=
        match server.api.StitchRequest.Output req with
        | Some o => match server.api.OutputOptions.Format o with
                    | Some f => f
                    | None => server.api.Png
                    end
        | None => server.api.Png
        end in
      Done (requests,
            {| server.Reply.header :=
                 (if String.eqb format server.api.Png
                  then [("Content-Type", "image/png")]%string
                  else if String.eqb format server.api.Geotiff
                  then [("Content-Type", "image/tiff")]%string
                  else []) ++
                 [("X-Request-ID"%string, server.generateRequestID now);
                  ("Content-Length"%string,
                   Go.Itoa (Z.of_nat (length (stitcher.Result.ImageData result))))];
               server.Reply.status := 200;
               server.Reply.content :=
                 server.ImageBody (stitcher.Result.ImageData result) |})
  end.
Proof.
  intros Hv Hc HS. unfold server.CreateStitchedImage.
  rewrite Hv, Hc. cbn [mbind run_bind]. rewrite HS. cbn [mbind run_bind].
  destruct ret as [[r|] [e|]]; done.
Qed.

(** X4.  The handler writes a reply to every request, whatever the tile
    servers answer: it never panics, its status is one of five, and it
    is 200 exactly when the body is the image. *)
Theorem handler_always_replies (w : World) (now : Z)
  (decoded : string + server.api.StitchRequest.t) :
  decodes_rasters w ->
  exists requests reply,
    server.CreateStitchedImage w now decoded = Done (requests, reply) /\
    In (server.Reply.status reply) [200; 400; 500; 502; 504] /\
    (server.Reply.status reply = 200 <->
     exists data, server.Reply.content reply = server.ImageBody data) /\
    (server.Reply.status reply = 400 -> requests = []).
Proof.
  intros Hw. destruct decoded as [err|req].
  { eexists _, _. split; [reflexivity|]. cbn. split; [tauto|].
    split; [|done]. split; [done|]. by intros [? ?]. }
  destruct (server.validateStitchRequest req) as [err|] eqn:Hv.
  { eexists _, _. split; [unfold server.CreateStitchedImage; by rewrite Hv|].
    cbn. split; [tauto|]. split; [|done]. split; [done|]. by intros [? ?]. }
  destruct (validated_converts req Hv) as (opts & Hc & Hz & _).
  destruct (validated_inv req Hv) as (Hzoom & _).
  destruct (Stitch_total w opts Hw ltac:(lia)) as (requests & ret & HS & Hxor).
  rewrite (handler_validated w now req opts requests ret Hv Hc HS).
  destruct ret as [[r|] [e|]]; try done.
  - eexists _, _. split; [reflexivity|]. cbn. split; [tauto|].
    split; [|done]. split; [by eexists|done].
  - eexists _, _. split; [reflexivity|].
    destruct (handleStitchingError_status e (Some (server.generateRequestID now)))
      as (Hst & Hbody & _).
    cbn [snd fst]. split; [cbn [In]; lia|]. split; [|lia].
    split; [lia|]. intros [data Hd]. by apply Hbody in Hd.
Qed.

Lemma handler_always_replies_witness :
  exists requests reply,
    server.CreateStitchedImage (solid_world hosts) 7
      (inr (centred_request 1 256 2 url_a None)) = Done (requests, reply) /\
    In (server.Reply.status reply) [200; 400; 500; 502; 504].
Proof.
  destruct (handler_always_replies (solid_world hosts) 7
              (inr (centred_request 1 256 2 url_a None)) (solid_world_decodes hosts))
    as (requests & reply & H & Hin & _).
  exists requests, reply. split; [exact H|exact Hin].
Defined.

(** X5.  A request for GeoTIFF output is never answered with an image: the
    reply is not 200 and carries no [image/tiff] content type, whatever
    the tile servers answer. *)
Theorem geotiff_is_never_served (w : World) (now : Z) (req : server.api.StitchRequest.t)
  (o : server.api.OutputOptions.t) (requests : list string) (reply : server.Reply.t) :
  server.api.StitchRequest.Output req = Some o ->
  server.api.OutputOptions.Format o = Some server.api.Geotiff ->
  server.CreateStitchedImage w now (inr req) = Done (requests, reply) ->
  server.Reply.status reply <> 200 /\
  server.Reply.header reply = [("Content-Type", "application/json")]%string.
Proof.
  intros Ho Hf Hrun.
  destruct (server.validateStitchRequest req) as [err|] eqn:Hv.
  { unfold server.CreateStitchedImage in Hrun. rewrite Hv in Hrun.
    injection Hrun as <- <-. cbn. done. }
  destruct (validated_converts req Hv) as (opts & Hc & _ & _ & Hfmt).
  assert (Hgeo : stitcher.Options.OutputFormat opts = stitcher.FormatGeoTIFF)
    by (apply Hfmt; by exists o).
  destruct (stitcher.Stitch w opts) as [[reqs ret]|] eqn:HS; cycle 1.
  { unfold server.CreateStitchedImage in Hrun. rewrite Hv, Hc in Hrun.
    cbn [mbind run_bind] in Hrun. rewrite HS in Hrun. discriminate Hrun. }
  rewrite (handler_validated w now req opts reqs ret Hv Hc HS) in Hrun.
  destruct ret as [[r|] [e|]].
  - apply Stitch_returns in HS as (p & _ & [(_ & _ & [=])|[[err [=]]|Hfull]]).
    destruct Hfull as (st & minX & maxY & px & py & _ & _ & Hfin).
    symmetry in Hfin. by apply finish_result in Hfin as (_ & Hne & _).
  - apply Stitch_returns in HS as (p & _ & [(_ & _ & [=])|[[err [=]]|Hfull]]).
    destruct Hfull as (st & minX & maxY & px & py & _ & _ & Hfin).
    symmetry in Hfin. by apply finish_result in Hfin as (_ & Hne & _).
  - injection Hrun as <- <-.
    destruct (handleStitchingError_status e (Some (server.generateRequestID now)))
      as (Hst & _ & Hh).
    split; [lia|exact Hh].
  - discriminate Hrun.
Qed.

Lemma geotiff_is_never_served_witness :
  exists requests reply,
    server.CreateStitchedImage (solid_world hosts) 7
      (inr (centred_request 1 256 2 url_a (Some server.api.Geotiff))) = Done (requests, reply) /\
    length requests = 4%nat /\
    server.Reply.status reply = 500 /\
    server.Reply.status reply <> 200.
Proof.
  destruct (server.CreateStitchedImage (solid_world hosts) 7
              (inr (centred_request 1 256 2 url_a (Some server.api.Geotiff))))
    as [[requests reply]|] eqn:Hrun; [|vm_compute in Hrun; discriminate Hrun].
  exists requests, reply. split; [reflexivity|].
  pose proof (geotiff_is_never_served (solid_world hosts) 7
                (centred_request 1 256 2 url_a (Some server.api.Geotiff)) _ requests reply
                eq_refl eq_refl Hrun) as [Hne _].
  vm_compute in Hrun. injection Hrun as <- <-.
  split; [reflexivity|]. split; [reflexivity|exact Hne].
Defined.

(** X6.  A validated request whose canvas would have more than 10000 * 10000
    pixels gets the reply 500 with the code INTERNAL_ERROR and the text
    "Internal server error": no tile is requested, and the size named in
    the error of [Stitch] is not passed on. *)
Theorem oversized_request_is_internal_error (w : World) (now : Z)
  (req : server.api.StitchRequest.t) (opts : stitcher.Options.t) (p : Plan.t) :
  server.validateStitchRequest req = None ->
  server.convertToStitcherOptions req = Done (opts, None) ->
  stitcher.resolve w opts = Done p ->
  Plan.width p * Plan.height p > 10000 * 10000 ->
  server.CreateStitchedImage w now (inr req) =
  Done ([], server.writeErrorResponse 500 "INTERNAL_ERROR" "Internal server error"
              (Some (server.generateRequestID now)) None).
Proof.
  intros Hv Hc Hp Hbig.
  assert (HS : stitcher.Stitch w opts =
               Done ([], (None, Some (stitcher.Errorf
                            (stitcher.too_large (Plan.width p) (Plan.height p)))))).
  { unfold stitcher.Stitch. rewrite Hp. cbn [mbind run_bind].
    destruct (resolve_canvas_small _ _ _ Hp) as [Hw Hh].
    rewrite int_id by (unfold Go.is_int; nia).
    by destruct (Z.gtb_spec (Plan.width p * Plan.height p) (10000 * 10000)); [|lia]. }
  rewrite (handler_validated w now req opts _ _ Hv Hc HS). reflexivity.
Qed.

Lemma oversized_request_is_internal_error_witness :
  server.CreateStitchedImage (solid_world hosts) 7
    (inr (centred_request 10 20000 256 url_a None)) =
  Done ([], server.writeErrorResponse 500 "INTERNAL_ERROR" "Internal server error"
              (Some "req_7"%string) None).
Proof.
  destruct (server.convertToStitcherOptions (centred_request 10 20000 256 url_a None))
    as [[opts e]|] eqn:Hc; [|vm_compute in Hc; discriminate Hc].
  assert (He : e = None) by (vm_compute in Hc; by injection Hc as _ <-).
  subst e.
  destruct (stitcher.resolve (solid_world hosts) opts) as [p|] eqn:Hp;
    [|vm_compute in Hc; injection Hc as <-; vm_compute in Hp; discriminate Hp].
  assert (Hd : Plan.width p = 20000 /\ Plan.height p = 20000).
  { vm_compute in Hc. injection Hc as <-. vm_compute in Hp. by injection Hp as <-. }
  destruct Hd as [Hw Hh].
  apply (oversized_request_is_internal_error (solid_world hosts) 7
           (centred_request 10 20000 256 url_a None) opts p);
    [vm_compute; reflexivity|exact Hc|exact Hp|rewrite Hw, Hh; lia].
Defined.

Lemma sublist_same_length {A : Type} (l1 l2 : list A) :
  sublist l1 l2 -> (length l2 <= length l1)%nat -> l1 = l2.
Proof.
  induction 1 as [|x l1 l2 Hs IH|x l1 l2 Hs IH]; intros Hlen.
  - done.
  - cbn in Hlen. f_equal. apply IH. lia.
  - apply sublist_length in Hs. cbn in Hlen. lia.
Qed.

Lemma length_grid_urls (t : string) (zoom : Z) (p : Plan.t) :
  Z.of_nat (length (grid_urls t zoom p)) = positions p.
Proof.
  unfold grid_urls, positions.
  induction (Go.range_le (Plan.ty1 p) (Plan.ty2 p)) as [|ty rows IH]; [done|].
  cbn [flat_map length]. rewrite length_app, length_map. lia.
Qed.

(** X9.  For every run that goes through its whole grid, the counters agree
    with the requests made: every request ended as a placed tile or as
    one ledger entry, at most one tile was placed per position, the
    ledger names requested URLs in the order of the requests, and no
    entry carries a status code. *)
Theorem Stitch_accounts_for_every_request (w : World) (opts : stitcher.Options.t)
  (p : Plan.t) (st : stitcher.Loop.t) :
  full_grid w opts p st ->
  0 <= stitcher.Loop.successfulTiles st <= positions p /\
  Z.of_nat (length (stitcher.Loop.requests st)) =
    Z.of_nat (length (stitcher.Loop.failedTiles st)) + stitcher.Loop.successfulTiles st /\
  sublist (map stitcher.FailedTile.URL (stitcher.Loop.failedTiles st))
          (stitcher.Loop.requests st) /\
  Forall (fun ft => stitcher.FailedTile.StatusCode ft = None)
         (stitcher.Loop.failedTiles st).
Proof.
  intros (Hp & _ & buf & _ & Htiles). exact (tiles_accounted w opts p buf st Hp Htiles).
Qed.

(** X10.  With one URL template, as the HTTP handler configures it, every tile
    position of the grid is requested exactly once, row by row, and ends
    as a placed tile or as a ledger entry. *)
Theorem single_template_requests_the_grid (w : World) (opts : stitcher.Options.t)
  (p : Plan.t) (st : stitcher.Loop.t) (t : string) :
  full_grid w opts p st ->
  stitcher.Options.TileURLs opts = [t] ->
  stitcher.Loop.requests st = grid_urls t (stitcher.Options.Zoom opts) p /\
  Z.of_nat (length (stitcher.Loop.failedTiles st)) + stitcher.Loop.successfulTiles st =
    positions p.
Proof.
  intros (Hp & _ & buf & _ & Htiles) Ht.
  pose proof (tiles_single_template w opts p t _ _ Ht Htiles) as Hreq.
  cbn in Hreq. split; [exact Hreq|].
  destruct (tiles_accounted w opts p buf st Hp Htiles) as (_ & Hlen & _).
  rewrite <- Hlen, Hreq. apply length_grid_urls.
Qed.

(** X7.  When no tile of a validated request could be placed, the reply is 502
    with the code TILE_SERVER_ERROR: its list of failed tiles names every
    tile URL of the grid, row by row, and none of them has a status
    code. *)
Theorem no_tile_is_bad_gateway (w : World) (now : Z) (req : server.api.StitchRequest.t)
  (opts : stitcher.Options.t) (p : Plan.t) (st : stitcher.Loop.t) :
  server.validateStitchRequest req = None ->
  server.convertToStitcherOptions req = Done (opts, None) ->
  full_grid w opts p st ->
  stitcher.Loop.successfulTiles st = 0 ->
  exists body,
    server.CreateStitchedImage w now (inr req) =
      Done (stitcher.Loop.requests st,
            {| server.Reply.header := [("Content-Type", "application/json")]%string;
               server.Reply.status := 502;
               server.Reply.content := server.TileErrorBody body |}) /\
    server.api.TileErrorResponse.Error body = "TILE_SERVER_ERROR"%string /\
    server.api.TileErrorResponse.Message body =
      "No tiles could be downloaded successfully"%string /\
    server.api.TileErrorResponse.SuccessfulTiles body = 0 /\
    server.api.TileErrorResponse.TotalTiles body = stitcher.totalTiles opts p /\
    map server.api.FailedTile.Url (server.api.TileErrorResponse.FailedTiles body) =
      grid_urls (server.api.TileSource.Url (server.api.StitchRequest.TileSource req))
                (server.api.StitchRequest.Zoom req) p /\
    Forall (fun ft => server.api.FailedTile.StatusCode ft = None)
           (server.api.TileErrorResponse.FailedTiles body).
Proof.
  intros Hv Hc Hfull Hzero.
  destruct (validated_converts req Hv) as (opts' & Hc' & Hz & Hu & _).
  rewrite Hc in Hc'. injection Hc' as <-.
  destruct (Stitch_full_grid _ _ _ _ Hfull) as (minX & maxY & px & py & HS).
  rewrite (handler_validated w now req opts _ _ Hv Hc HS).
  unfold stitcher.finish. rewrite Hzero. cbn [Z.eqb].
  eexists. split; [reflexivity|]. cbn.
  destruct Hfull as (Hp & _ & buf & _ & Htiles).
  pose proof (tiles_single_template w opts p _ _ _ Hu Htiles) as Hreq. cbn in Hreq.
  destruct (tiles_accounted w opts p buf st Hp Htiles) as (_ & Hlen & Hsub & Hnone).
  repeat split; try done.
  - rewrite map_map. cbn. rewrite <- Hz, <- Hreq.
    apply sublist_same_length; [exact Hsub|]. rewrite length_map. lia.
  - apply Forall_map. cbn. exact Hnone.
Qed.

(** X8.  A request that passed validation converts without a panic into
    options with its zoom level, between 0 and 20, its one URL template
    with the three placeholders, and its coordinates by mode: the corners
    of the box, or the centre with a positive width and height. *)
Theorem validated_request_converts (req : server.api.StitchRequest.t) :
  server.validateStitchRequest req = None ->
  exists opts,
    server.convertToStitcherOptions req = Done (opts, None) /\
    stitcher.Options.Zoom opts = server.api.StitchRequest.Zoom req /\
    0 <= stitcher.Options.Zoom opts <= 20 /\
    (exists url, stitcher.Options.TileURLs opts = [url] /\
       Go.Contains url "{z}" = true /\ Go.Contains url "{x}" = true /\
       Go.Contains url "{y}" = true) /\
    ((server.api.StitchRequest.Mode req = server.api.Bbox /\
      stitcher.Options.Mode opts = stitcher.ModeBBox /\
      exists bbox, server.api.StitchRequest.Bbox req = Some bbox /\
        stitcher.Options.MinLat opts = server.api.BoundingBox.MinLat bbox /\
        stitcher.Options.MinLon opts = server.api.BoundingBox.MinLon bbox /\
        stitcher.Options.MaxLat opts = server.api.BoundingBox.MaxLat bbox /\
        stitcher.Options.MaxLon opts = server.api.BoundingBox.MaxLon bbox /\
        (stitcher.Options.MaxLat opts <=? stitcher.Options.MinLat opts)%float = false /\
        (stitcher.Options.MaxLon opts <=? stitcher.Options.MinLon opts)%float = false) \/
     (server.api.StitchRequest.Mode req = server.api.Centered /\
      stitcher.Options.Mode opts = stitcher.ModeCentered /\
      exists center, server.api.StitchRequest.Center req = Some center /\
        stitcher.Options.CenterLat opts = server.api.CenterPoint.Lat center /\
        stitcher.Options.CenterLon opts = server.api.CenterPoint.Lon center /\
        stitcher.Options.Width opts = server.api.CenterPoint.Width center /\
        stitcher.Options.Height opts = server.api.CenterPoint.Height center /\
        0 < stitcher.Options.Width opts /\ 0 < stitcher.Options.Height opts)).
Proof.
  intros Hv.
  destruct (validated_inv req Hv) as (Hzoom & Hz & Hx & Hy & Hmode).
  unfold server.convertToStitcherOptions.
  destruct Hmode as [(Em & _ & bbox & Eb & Hlat & Hlon)|(Em & _ & center & Ec & Hw & Hh)].
  - rewrite Em, Eb. cbn [String.eqb]. eexists. split; [reflexivity|]. cbn.
    split; [done|]. split; [done|]. split; [by eexists|].
    left. split; [done|]. split; [done|]. exists bbox. done.
  - rewrite Em, Ec. eexists. split; [reflexivity|]. cbn.
    split; [done|]. split; [done|]. split; [by eexists|].
    right. split; [done|]. split; [done|]. exists center. done.
Qed.

Lemma validated_request_converts_witness :
  exists opts,
    server.convertToStitcherOptions (centred_request 1 256 2 url_a None) = Done (opts, None) /\
    stitcher.Options.TileURLs opts = [url_a] /\
    stitcher.Options.Mode opts = stitcher.ModeCentered.
Proof.
  destruct (validated_request_converts (centred_request 1 256 2 url_a None))
    as (opts & Hc & _ & _ & _ & _); [vm_compute; reflexivity|].
  exists opts. split; [exact Hc|].
  vm_compute in Hc. injection Hc as <-. split; reflexivity.
Defined.

(** ** Sample runs of the theorems above *)

(** A run through a grid of 2x2 positions where the last tile is missing. *)
Lemma sample_full_grid :
  exists p st,
    full_grid (toy_world (red_but "http://a/1/1/1.png" not_found))
      (centred 1 2 256 [url_a] stitcher.FormatPNG) p st /\
    positions p = 4 /\
    stitcher.Loop.successfulTiles st = 3 /\
    length (stitcher.Loop.failedTiles st) = 1%nat.
Proof.
  set (W := toy_world (red_but "http://a/1/1/1.png" not_found)).
  set (O := centred 1 2 256 [url_a] stitcher.FormatPNG).
  destruct (stitcher.resolve W O) as [p|] eqn:Hp; [|vm_compute in Hp; discriminate Hp].
  pose proof Hp as Hp'. vm_compute in Hp'. injection Hp' as <-.
  match type of Hp with _ = Done ?q =>
    destruct (stitcher.tiles W O q (stitcher.start (replicate 16 0))) as [[st|v]|] eqn:Ht;
      [|vm_compute in Ht; discriminate Ht|vm_compute in Ht; discriminate Ht]
  end.
  pose proof Ht as Ht'. vm_compute in Ht'. injection Ht' as <-.
  match type of Hp with _ = Done ?q =>
    match type of Ht with _ = Done (Go.Next ?s) => exists q, s end
  end.
  split; [|vm_compute; repeat split].
  split; [exact Hp|]. split; [cbn; lia|].
  exists (replicate 16 0). split; [reflexivity|exact Ht].
Qed.

(** The same grid where every tile is missing, for the request as the
    handler converts it. *)
Lemma sample_empty_grid :
  exists opts p st,
    server.convertToStitcherOptions (centred_request 1 256 2 url_c None) = Done (opts, None) /\
    full_grid (solid_world hosts) opts p st /\
    positions p = 4 /\
    stitcher.Loop.successfulTiles st = 0.
Proof.
  set (W := solid_world hosts).
  destruct (server.convertToStitcherOptions (centred_request 1 256 2 url_c None))
    as [[opts e]|] eqn:Hc; [|vm_compute in Hc; discriminate Hc].
  pose proof Hc as Hc'. vm_compute in Hc'. injection Hc' as <- <-.
  match type of Hc with _ = Done (?O, _) =>
    destruct (stitcher.resolve W O) as [p|] eqn:Hp; [|vm_compute in Hp; discriminate Hp];
    pose proof Hp as Hp'; vm_compute in Hp'; injection Hp' as <-;
    match type of Hp with _ = Done ?q =>
      destruct (stitcher.tiles W O q (stitcher.start (replicate 16 0))) as [[st|v]|] eqn:Ht;
        [|vm_compute in Ht; discriminate Ht|vm_compute in Ht; discriminate Ht]
    end
  end.
  pose proof Ht as Ht'. vm_compute in Ht'. injection Ht' as <-.
  match type of Hc with _ = Done (?O, _) =>
    match type of Hp with _ = Done ?q =>
      match type of Ht with _ = Done (Go.Next ?s) => exists O, q, s end
    end
  end.
  split; [exact Hc|]. split; [|vm_compute; repeat split].
  split; [exact Hp|]. split; [cbn; lia|].
  exists (replicate 16 0). split; [reflexivity|exact Ht].
Qed.

Lemma Stitch_accounts_for_every_request_witness :
  exists st,
    stitcher.Loop.successfulTiles st = 3 /\
    Z.of_nat (length (stitcher.Loop.requests st)) =
      Z.of_nat (length (stitcher.Loop.failedTiles st)) + stitcher.Loop.successfulTiles st.
Proof.
  destruct sample_full_grid as (p & st & Hfull & _ & Hs & _).
  destruct (Stitch_accounts_for_every_request _ _ p st Hfull) as (_ & Hlen & _).
  exists st. split; [exact Hs|exact Hlen].
Defined.

Lemma single_template_requests_the_grid_witness :
  exists p st,
    positions p = 4 /\
    stitcher.Loop.requests st = grid_urls url_a 1 p /\
    Z.of_nat (length (stitcher.Loop.failedTiles st)) + stitcher.Loop.successfulTiles st = 4.
Proof.
  destruct sample_full_grid as (p & st & Hfull & Hpos & _ & _).
  destruct (single_template_requests_the_grid _ _ p st url_a Hfull eq_refl) as [Hreq Hsum].
  exists p, st. split; [exact Hpos|]. split; [exact Hreq|]. rewrite Hsum. exact Hpos.
Defined.

Lemma no_tile_is_bad_gateway_witness :
  exists requests body,
    server.CreateStitchedImage (solid_world hosts) 7
      (inr (centred_request 1 256 2 url_c None)) =
      Done (requests,
            {| server.Reply.header := [("Content-Type", "application/json")]%string;
               server.Reply.status := 502;
               server.Reply.content := server.TileErrorBody body |}) /\
    length (server.api.TileErrorResponse.FailedTiles body) = 4%nat.
Proof.
  destruct sample_empty_grid as (opts & p & st & Hc & Hfull & Hpos & Hzero).
  destruct (no_tile_is_bad_gateway (solid_world hosts) 7
              (centred_request 1 256 2 url_c None) opts p st
              ltac:(vm_compute; reflexivity) Hc Hfull Hzero)
    as (body & Hrun & _ & _ & _ & _ & Hurls & _).
  exists (stitcher.Loop.requests st), body. split; [exact Hrun|].
  apply (f_equal length) in Hurls. rewrite length_map in Hurls.
  apply Nat2Z.inj. rewrite Hurls, length_grid_urls, Hpos. reflexivity.
Defined.

(** X1.  [Stitch] with a zoom level from 0 to 24 never panics, whatever the
    tile servers answer and whatever the sizes asked for: it returns,
    with a result or with an error, and not with both or with neither. *)
Theorem Stitch_never_panics (w : World) (opts : stitcher.Options.t) :
  decodes_rasters w ->
  0 <= stitcher.Options.Zoom opts <= 24 ->
  exists requests ret,
    stitcher.Stitch w opts = Done (requests, ret) /\ result_xor_error ret.
Proof. apply Stitch_total. Qed.

Lemma Stitch_never_panics_witness :
  exists requests ret,
    stitcher.Stitch (solid_world hosts) (centred 24 256 (-5) [url_a; url_c] 7)
      = Done (requests, ret) /\
    result_xor_error ret.
Proof.
  apply (Stitch_never_panics (solid_world hosts) (centred 24 256 (-5) [url_a; url_c] 7)
           (solid_world_decodes hosts)).
  cbn. lia.
Defined.


